(** * Snippet Manager Pro: the persistence layer and the text utilities

    A shallow embedding of [snippet_manager/database.py],
    [snippet_manager/utils.py] and the part of [snippet_manager/config.py]
    they use, followed by the properties of the specification that concern
    them.

    Conventions of the embedding.
    - A Python [str] is a [string]; in the database part a character
      stands for a code point below 256, in [Utils] the text is read as
      UTF-8 bytes (the mask marker is not Latin-1).  Classification of
      characters (white space, word characters, letter case) is Python's
      on ASCII.
    - Values that travel through [json.load] and [json.dump] are [json]
      values; a Python [dict] is an association list in insertion order
      with unique keys, maintained by [dict_set].
    - Python's [None] result is [None], exceptions are the [Raise] branch
      of [exc]; the file system is threaded explicitly. *)

From Stdlib Require Import Ascii String DecimalString DecimalN DecimalFacts Sorted.
From Stdlib Require HexadecimalString.
From stdpp Require Import base list sorting gmap strings.

Local Open Scope string_scope.

(** ** Exceptions *)

Inductive exn :=
| JSONDecodeError (msg : string)
| FileNotFoundError (msg : string)
| PermissionError (msg : string)
| AttributeError (msg : string)
| TypeError (msg : string)
| IndexError (msg : string)
| ValueError (msg : string)
| RecursionError (msg : string).

(** [str(e)] *)
Definition str_exn (e : exn) : string :=
  match e with
  | JSONDecodeError m | FileNotFoundError m
  | PermissionError m | AttributeError m
  | TypeError m | IndexError m
  | ValueError m | RecursionError m => m
  end.

Inductive exc (A : Type) :=
| Ok (a : A)
| Raise (e : exn).
Arguments Ok {A} a.
Arguments Raise {A} e.

(** ** JSON values and Python dictionaries *)

#[warnings="-register-all"]
Inductive json :=
| JNull
| JBool (b : bool)
| JInt (z : Z)
| JStr (s : string)
| JArr (items : list json)
| JObj (members : list (string * json)).

Definition dict := list (string * json).

(** [key in d] *)
Definition dict_has (k : string) (d : dict) : bool :=
  existsb (fun kv => String.eqb (fst kv) k) d.

(** [d.get(key)], [None] when the key is absent *)
Fixpoint dict_get (k : string) (d : dict) : option json :=
  match d with
  | [] => None
  | (k', v) :: d' => if String.eqb k' k then Some v else dict_get k d'
  end.

(** [d.get(key, default)] *)
Definition dict_get_default (k : string) (dflt : json) (d : dict) : json :=
  match dict_get k d with
  | Some v => v
  | None => dflt
  end.

(** [d[key] = value]: an existing key keeps its place, a new one goes last *)
Fixpoint dict_set (k : string) (v : json) (d : dict) : dict :=
  match d with
  | [] => [(k, v)]
  | (k', v') :: d' =>
      if String.eqb k' k then (k', v) :: d' else (k', v') :: dict_set k v d'
  end.

(** [type(x).__name__] *)
Definition type_name (j : json) : string :=
  match j with
  | JNull => "NoneType"
  | JBool _ => "bool"
  | JInt _ => "int"
  | JStr _ => "str"
  | JArr _ => "list"
  | JObj _ => "dict"
  end.

(** [str(n)] for a length or a counter *)
Definition str_nat (n : nat) : string := NilZero.string_of_uint (N.to_uint (N.of_nat n)).

(** ** The JSON library: [json.dumps] and [json.loads]

    The text format is that of [json.dump] with its default arguments
    ([ensure_ascii], separators [", "] and [": "]).  Numbers are the
    integers; a number with a fraction or an exponent, [NaN] and
    [Infinity] are outside the model and rejected by the reader, and so
    is an escape for a code point above 255.  The reader's messages are
    shortened: they do not give the position of the error.  The reader
    raises [JSONDecodeError] only; [json.load] also raises [ValueError]
    on a number of more than 4300 digits and [RecursionError] on a
    nesting too deep for the interpreter, and [json.dump] does the same
    on such values: these are outside the model too, which is why the
    properties of the functions that read are stated for whatever
    [json.load] gives. *)

Module Json.

Definition hex_digit (n : N) : ascii :=
  match n with
  | 0 => "0" | 1 => "1" | 2 => "2" | 3 => "3" | 4 => "4" | 5 => "5"
  | 6 => "6" | 7 => "7" | 8 => "8" | 9 => "9" | 10 => "a" | 11 => "b"
  | 12 => "c" | 13 => "d" | 14 => "e" | _ => "f"
  end%N%char.

Definition hex_value (c : ascii) : option N :=
  let n := N_of_ascii c in
  if (48 <=? n)%N && (n <=? 57)%N then Some (n - 48)%N
  else if (97 <=? n)%N && (n <=? 102)%N then Some (n - 87)%N
  else if (65 <=? n)%N && (n <=? 70)%N then Some (n - 55)%N
  else None.

(** one character of a string literal, as [json.dumps] writes it *)
Definition escape_char (c : ascii) : string :=
  let n := N_of_ascii c in
  if (n =? 34)%N then String "092" (String "034" "")
  else if (n =? 92)%N then "\\"
  else if (n =? 10)%N then "\n"
  else if (n =? 13)%N then "\r"
  else if (n =? 9)%N then "\t"
  else if (n =? 8)%N then "\b"
  else if (n =? 12)%N then "\f"
  else if (32 <=? n)%N && (n <=? 126)%N then String c ""
  else String "092" (String "u" (String "0" (String "0"
         (String (hex_digit (n / 16)) (String (hex_digit (n mod 16)) ""))))).

Fixpoint escape (s : string) : string :=
  match s with
  | "" => ""
  | String c s' => escape_char c ++ escape s'
  end.

Definition quote (s : string) : string :=
  String "034" (escape s ++ String "034" "").

Definition str_Z (z : Z) : string :=
  match z with
  | Z0 => "0"
  | Zpos p => NilZero.string_of_uint (N.to_uint (Npos p))
  | Zneg p => String "-" (NilZero.string_of_uint (N.to_uint (Npos p)))
  end.

Fixpoint dumps (j : json) : string :=
  match j with
  | JNull => "null"
  | JBool true => "true"
  | JBool false => "false"
  | JInt z => str_Z z
  | JStr s => quote s
  | JArr items =>
      match items with
      | [] => "[]"
      | x :: rest =>
          String "[" (dumps x ++
            (fix tail (l : list json) : string :=
               match l with
               | [] => "]"
               | y :: l' => ", " ++ dumps y ++ tail l'
               end) rest)
      end
  | JObj members =>
      match members with
      | [] => "{}"
      | (k, x) :: rest =>
          String "{" (quote k ++ ": " ++ dumps x ++
            (fix tail (l : list (string * json)) : string :=
               match l with
               | [] => "}"
               | (k', y) :: l' => ", " ++ quote k' ++ ": " ++ dumps y ++ tail l'
               end) rest)
      end
  end.

(** what [dumps] writes after the first item of an array or an object *)
Fixpoint array_tail (l : list json) : string :=
  match l with
  | [] => "]"
  | y :: l' => ", " ++ dumps y ++ array_tail l'
  end.

Fixpoint object_tail (l : list (string * json)) : string :=
  match l with
  | [] => "}"
  | (k', y) :: l' => ", " ++ quote k' ++ ": " ++ dumps y ++ object_tail l'
  end.

Definition is_ws (c : ascii) : bool :=
  let n := N_of_ascii c in
  (n =? 32)%N || (n =? 9)%N || (n =? 10)%N || (n =? 13)%N.

Definition is_digit (c : ascii) : bool :=
  let n := N_of_ascii c in (48 <=? n)%N && (n <=? 57)%N.

Fixpoint skip_ws (s : string) : string :=
  match s with
  | String c s' => if is_ws c then skip_ws s' else s
  | "" => ""
  end.

Definition starts_with (c : ascii) (s : string) : option string :=
  match s with
  | String c' s' => if Ascii.eqb c c' then Some s' else None
  | "" => None
  end.

(** the longest prefix of digits, and what follows it *)
Fixpoint span_digits (s : string) : string * string :=
  match s with
  | String c s' =>
      if is_digit c then
        let '(ds, r) := span_digits s' in (String c ds, r)
      else ("", s)
  | "" => ("", "")
  end.

Definition starts_fraction (s : string) : bool :=
  match s with
  | String c _ => Ascii.eqb c "." || Ascii.eqb c "e" || Ascii.eqb c "E"
  | "" => false
  end.

(** a digit string of two or more characters that begins with [0] *)
Definition leading_zero (ds : string) : bool :=
  match ds with
  | String c (String _ _) => Ascii.eqb c "0"
  | _ => false
  end.

(** [0] or a digit string without a leading zero *)
Definition parse_nat (s : string) : option (N * string) :=
  let '(ds, r) := span_digits s in
  if String.eqb ds "" || leading_zero ds || starts_fraction r then None
  else
    match NilZero.uint_of_string ds with
    | Some d => Some (N.of_uint d, r)
    | None => None
    end.

Definition parse_int (s : string) : option (json * string) :=
  match starts_with "-" s with
  | Some s' =>
      match parse_nat s' with
      | Some (n, r) => Some (JInt (- Z.of_N n), r)
      | None => None
      end
  | None =>
      match parse_nat s with
      | Some (n, r) => Some (JInt (Z.of_N n), r)
      | None => None
      end
  end.

(** the body of a string literal up to its closing quote *)
Fixpoint parse_chars (s : string) : option (string * string) :=
  match s with
  | "" => None
  | String c s' =>
      if Ascii.eqb c "034" then Some ("", s')
      else if Ascii.eqb c "092" then
        match s' with
        | String e s'' =>
            let plain (x : ascii) :=
              match parse_chars s'' with
              | Some (t, r) => Some (String x t, r)
              | None => None
              end in
            if Ascii.eqb e "034" then plain "034"%char
            else if Ascii.eqb e "092" then plain "092"%char
            else if Ascii.eqb e "/" then plain "/"%char
            else if Ascii.eqb e "b" then plain (ascii_of_N 8)
            else if Ascii.eqb e "f" then plain (ascii_of_N 12)
            else if Ascii.eqb e "n" then plain (ascii_of_N 10)
            else if Ascii.eqb e "r" then plain (ascii_of_N 13)
            else if Ascii.eqb e "t" then plain (ascii_of_N 9)
            else if Ascii.eqb e "u" then
              match s'' with
              | String h1 (String h2 (String h3 (String h4 s4))) =>
                  match hex_value h1, hex_value h2, hex_value h3, hex_value h4 with
                  | Some a, Some b, Some c', Some d =>
                      let n := (((a * 16 + b) * 16 + c') * 16 + d)%N in
                      if (n <? 256)%N then
                        match parse_chars s4 with
                        | Some (t, r) => Some (String (ascii_of_N n) t, r)
                        | None => None
                        end
                      else None
                  | _, _, _, _ => None
                  end
              | _ => None
              end
            else None
        | "" => None
        end
      else if (N_of_ascii c <? 32)%N then None
      else
        match parse_chars s' with
        | Some (t, r) => Some (String c t, r)
        | None => None
        end
  end.

Fixpoint strip_prefix (p s : string) : option string :=
  match p, s with
  | "", _ => Some s
  | String a p', String b s' => if Ascii.eqb a b then strip_prefix p' s' else None
  | String _ _, "" => None
  end.

Definition parse_literal (s : string) : option (json * string) :=
  match strip_prefix "null" s with
  | Some r => Some (JNull, r)
  | None =>
      match strip_prefix "true" s with
      | Some r => Some (JBool true, r)
      | None =>
          match strip_prefix "false" s with
          | Some r => Some (JBool false, r)
          | None => None
          end
      end
  end.

(** Python builds the dictionary pair by pair: a repeated key keeps its
    first place and its last value. *)
Definition dict_of_pairs (kvs : list (string * json)) : dict :=
  fold_left (fun d kv => dict_set (fst kv) (snd kv) d) kvs [].

Fixpoint parse_value (fuel : nat) (s : string) : option (json * string) :=
  match fuel with
  | O => None
  | S fuel' =>
      match skip_ws s with
      | "" => None
      | String c r =>
          if is_digit c || Ascii.eqb c "-" then parse_int (String c r)
          else if Ascii.eqb c "034" then
            match parse_chars r with
            | Some (t, r') => Some (JStr t, r')
            | None => None
            end
          else if Ascii.eqb c "[" then
            match starts_with "]" (skip_ws r) with
            | Some r' => Some (JArr [], r')
            | None =>
                match parse_elems fuel' r with
                | Some (l, r') => Some (JArr l, r')
                | None => None
                end
            end
          else if Ascii.eqb c "{" then
            match starts_with "}" (skip_ws r) with
            | Some r' => Some (JObj [], r')
            | None =>
                match parse_members fuel' r with
                | Some (kvs, r') => Some (JObj (dict_of_pairs kvs), r')
                | None => None
                end
            end
          else parse_literal (String c r)
      end
  end
with parse_elems (fuel : nat) (s : string) : option (list json * string) :=
  match fuel with
  | O => None
  | S fuel' =>
      match parse_value fuel' s with
      | None => None
      | Some (v, r) =>
          match skip_ws r with
          | String "," r' =>
              match parse_elems fuel' r' with
              | Some (l, r'') => Some (v :: l, r'')
              | None => None
              end
          | String "]" r' => Some ([v], r')
          | _ => None
          end
      end
  end
with parse_members (fuel : nat) (s : string) : option (list (string * json) * string) :=
  match fuel with
  | O => None
  | S fuel' =>
      match skip_ws s with
      | String "034" r =>
          match parse_chars r with
          | None => None
          | Some (k, r1) =>
              match skip_ws r1 with
              | String ":" r2 =>
                  match parse_value fuel' r2 with
                  | None => None
                  | Some (v, r3) =>
                      match skip_ws r3 with
                      | String "," r4 =>
                          match parse_members fuel' r4 with
                          | Some (kvs, r5) => Some ((k, v) :: kvs, r5)
                          | None => None
                          end
                      | String "}" r4 => Some ([(k, v)], r4)
                      | _ => None
                      end
                  end
              | _ => None
              end
          end
      | _ => None
      end
  end.

(** [json.loads]: one value, surrounded by optional white space *)
Definition loads (s : string) : exc json :=
  match parse_value (S (String.length s)) s with
  | Some (j, r) =>
      match skip_ws r with
      | "" => Ok j
      | _ => Raise (JSONDecodeError "Extra data")
      end
  | None => Raise (JSONDecodeError "Expecting value")
  end.

End Json.


(** ** The file system

    A path names a file with its text and its permissions.  Reading goes
    through Python's text layer, which turns every line ending into a
    line feed; writing replaces the text (creating the file when the path
    is free).  The wording of the operating system's messages is
    approximated. *)

Record file := File { f_text : string; f_readable : bool; f_writable : bool }.

Abbreviation filesystem := (gmap string file).

Definition LF : ascii := ascii_of_N 10.
Definition CR : ascii := ascii_of_N 13.

Fixpoint universal_newlines (s : string) : string :=
  match s with
  | "" => ""
  | String c s' =>
      if Ascii.eqb c CR then
        match s' with
        | String c' s'' =>
            if Ascii.eqb c' LF then String LF (universal_newlines s'')
            else String LF (universal_newlines s')
        | "" => String LF ""
        end
      else String c (universal_newlines s')
  end.

(** [os.path.exists(path)] *)
Definition path_exists (path : string) (fs : filesystem) : bool :=
  match fs !! path with
  | Some _ => true
  | None => false
  end.

(** [with open(path, "r") as f: f.read()] *)
Definition read_file (path : string) (fs : filesystem) : exc string :=
  match fs !! path with
  | None =>
      Raise (FileNotFoundError ("[Errno 2] No such file or directory: '" ++ path ++ "'"))
  | Some f =>
      if f_readable f then Ok (universal_newlines (f_text f))
      else Raise (PermissionError ("[Errno 13] Permission denied: '" ++ path ++ "'"))
  end.

(** [with open(path, "w") as f: f.write(text)] *)
Definition write_file (path text : string) (fs : filesystem) : exc filesystem :=
  match fs !! path with
  | None => Ok (<[path := File text true true]> fs)
  | Some f =>
      if f_writable f then Ok (<[path := File text (f_readable f) true]> fs)
      else Raise (PermissionError ("[Errno 13] Permission denied: '" ++ path ++ "'"))
  end.

(** [f.readlines()]: the lines of a text, each with its line feed *)
Fixpoint readlines (s : string) : list string :=
  match s with
  | "" => []
  | String c s' =>
      if Ascii.eqb c LF then String c "" :: readlines s'
      else
        match readlines s' with
        | [] => [String c ""]
        | l :: ls => String c l :: ls
        end
  end.

(** ** String helpers of the standard library *)

(** [str.isspace] on one character (code points below 256) *)
Definition is_space (c : ascii) : bool :=
  let n := N_of_ascii c in
  ((9 <=? n)%N && (n <=? 13)%N) || ((28 <=? n)%N && (n <=? 32)%N)
  || (n =? 133)%N || (n =? 160)%N.

Fixpoint lstrip (s : string) : string :=
  match s with
  | String c s' => if is_space c then lstrip s' else s
  | "" => ""
  end.

Fixpoint all_space (s : string) : bool :=
  match s with
  | String c s' => is_space c && all_space s'
  | "" => true
  end.

Fixpoint rstrip (s : string) : string :=
  match s with
  | String c s' => if all_space s then "" else String c (rstrip s')
  | "" => ""
  end.

(** [s.strip()] *)
Definition strip (s : string) : string := rstrip (lstrip s).

(** [s.lower()] on ASCII letters *)
Definition lower_char (c : ascii) : ascii :=
  let n := N_of_ascii c in
  if (65 <=? n)%N && (n <=? 90)%N then ascii_of_N (n + 32) else c.

Fixpoint lower (s : string) : string :=
  match s with
  | String c s' => String (lower_char c) (lower s')
  | "" => ""
  end.

(** the text before the last occurrence of [c], and the text from it on *)
Fixpoint rsplit (c : ascii) (s : string) : option (string * string) :=
  match s with
  | "" => None
  | String a s' =>
      match rsplit c s' with
      | Some (pre, suf) => Some (String a pre, suf)
      | None => if Ascii.eqb a c then Some ("", s) else None
      end
  end.

Fixpoint all_dots (s : string) : bool :=
  match s with
  | String c s' => Ascii.eqb c "." && all_dots s'
  | "" => true
  end.

(** [os.path.splitext(path)[1]] with [/] as the separator: the extension
    starts at the last dot of the last component, leading dots apart *)
Definition splitext_ext (path : string) : string :=
  let name :=
    match rsplit "/" path with
    | Some (_, String _ name) => name
    | _ => path
    end in
  match rsplit "." name with
  | Some (pre, suf) => if all_dots pre then "" else suf
  | None => ""
  end.

(** ** [snippet_manager/config.py] *)

Definition SAVE_FILE : string := "snippets.json".

(** ** [snippet_manager/database.py] *)

Record SnippetDatabase := { save_file : string }.

(** The canonical record of a bare string. *)
Definition plain_snippet (text : string) : json :=
  JObj [("text", JStr text); ("label", JStr ""); ("tags", JArr []);
        ("is_markdown", JBool false); ("is_template", JBool false)].

(** [if key not in snippet: snippet[key] = value] *)
Definition set_default (k : string) (v : json) (d : dict) : dict :=
  if dict_has k d then d else dict_set k v d.

Definition is_list (o : option json) : bool :=
  match o with
  | Some (JArr _) => true
  | _ => false
  end.

(** The body of the loop of [save_snippets]; [snippet.get] exists on
    dictionaries only. *)
Definition save_fixup (snippet : json) : exc json :=
  match snippet with
  | JObj d =>
      let d1 := if is_list (dict_get "tags" d) then d
                else dict_set "tags" (JArr []) d in
      let d2 := set_default "is_markdown" (JBool false) d1 in
      let d3 := set_default "is_template" (JBool false) d2 in
      Ok (JObj d3)
  | _ =>
      Raise (AttributeError
               ("'" ++ type_name snippet ++ "' object has no attribute 'get'"))
  end.

Fixpoint save_loop (snippets_data : list json) : exc (list json) :=
  match snippets_data with
  | [] => Ok []
  | snippet :: rest =>
      match save_fixup snippet with
      | Raise e => Raise e
      | Ok s =>
          match save_loop rest with
          | Raise e => Raise e
          | Ok updated => Ok (s :: updated)
          end
      end
  end.

(** [save_snippets].  The file is opened, which empties it, and
    [json.dump] then writes the text; on the values of the model the dump
    does not fail, so that the two steps are one [write_file] here.  (A
    dump that failed would leave the opened file cut short.) *)
Definition save_snippets (self : SnippetDatabase) (snippets_data : list json)
    (fs : filesystem) : filesystem * (bool * string) :=
  match save_loop snippets_data with
  | Raise e => (fs, (false, "Error saving: " ++ str_exn e))
  | Ok updated_data =>
      match write_file (save_file self) (Json.dumps (JArr updated_data)) fs with
      | Raise e => (fs, (false, "Error saving: " ++ str_exn e))
      | Ok fs' =>
          (fs', (true, "Saved " ++ str_nat (length updated_data) ++ " snippets"))
      end
  end.

Definition wp_creds : string := "Site name: Picayune Fire
        URL: https://picayunefire.s1-tastewp.com
        Username: admin
        Password: sFmKkoOPW_g".

Definition markdown_template : string := "# Meeting Notes Template

        ## Meeting Information
        - **Date**: [Date]
        - **Time**: [Time]
        - **Location**: [Location]
        - **Attendees**: [Names]

        ## Agenda
        1. [Topic 1]
        2. [Topic 2]
        3. [Topic 3]

        ## Discussion Points
        * 

        ## Action Items
        - [ ] [Task 1] - Assigned to: [Name]
        - [ ] [Task 2] - Assigned to: [Name]
        - [ ] [Task 3] - Assigned to: [Name]

        ## Next Meeting
        - **Date**: [Date]
        - **Time**: [Time]
        - **Location**: [Location]".

Definition _get_default_snippets : list json :=
  [ JObj [("text", JStr wp_creds); ("label", JStr "WordPress Login");
          ("tags", JArr [JStr "credentials"; JStr "web"]);
          ("is_markdown", JBool false); ("is_template", JBool false)];
    JObj [("text", JStr markdown_template); ("label", JStr "Meeting Notes");
          ("tags", JArr [JStr "template"; JStr "business"]);
          ("is_markdown", JBool true); ("is_template", JBool true)] ].

(** The body of the loop of [load_snippets]: a dictionary gets the keys
    it lacks, a string becomes a record, anything else is passed over. *)
Definition load_fixup (snippet : json) : option json :=
  match snippet with
  | JObj d =>
      let d1 := set_default "text" (JStr "") d in
      let d2 := set_default "label" (JStr "") d1 in
      let d3 := set_default "tags" (JArr []) d2 in
      let d4 := set_default "is_markdown" (JBool false) d3 in
      let d5 := set_default "is_template" (JBool false) d4 in
      Some (JObj d5)
  | JStr s => Some (plain_snippet s)
  | _ => None
  end.

Fixpoint load_loop (saved_snippets : list json) : list json :=
  match saved_snippets with
  | [] => []
  | snippet :: rest =>
      match load_fixup snippet with
      | Some s => s :: load_loop rest
      | None => load_loop rest
      end
  end.

Definition load_snippets (self : SnippetDatabase) (fs : filesystem)
    : list json * string :=
  if negb (path_exists (save_file self) fs) then
    (_get_default_snippets, "Created default snippets")
  else
    match read_file (save_file self) fs with
    | Raise e => ([], "Error loading snippets: " ++ str_exn e)
    | Ok text =>
        match Json.loads text with
        | Raise (JSONDecodeError _) => ([], "Error reading saved snippets file")
        | Raise e => ([], "Error loading snippets: " ++ str_exn e)
        | Ok (JArr saved_snippets) =>
            match saved_snippets with
            | [] => ([], "No snippets found")
            | _ :: _ =>
                let updated_snippets := load_loop saved_snippets in
                (updated_snippets,
                 "Loaded " ++ str_nat (length updated_snippets) ++ " saved snippets")
            end
        | Ok _ => ([], "Invalid snippet format")
        end
    end.

(** The body of the loop over the items of an imported JSON array. *)
Definition import_item (item : json) : option json :=
  match item with
  | JObj d =>
      Some (JObj [("text", dict_get_default "text" (JStr "") d);
                  ("label", dict_get_default "label" (JStr "") d);
                  ("tags", dict_get_default "tags" (JArr []) d);
                  ("is_markdown", dict_get_default "is_markdown" (JBool false) d);
                  ("is_template", dict_get_default "is_template" (JBool false) d)])
  | JStr s => Some (plain_snippet s)
  | _ => None
  end.

Fixpoint import_loop (imported_data : list json) : list json :=
  match imported_data with
  | [] => []
  | item :: rest =>
      match import_item item with
      | Some s => s :: import_loop rest
      | None => import_loop rest
      end
  end.

(** The loop over the lines of an imported text file. *)
Fixpoint import_lines (lines : list string) : list json :=
  match lines with
  | [] => []
  | line :: rest =>
      if negb (String.eqb (strip line) "")
      then plain_snippet (strip line) :: import_lines rest
      else import_lines rest
  end.

(** [import_from_file]; the result [None] is Python's [None], returned
    when the function ends without reaching a [return]. *)
Definition import_from_file (self : SnippetDatabase) (file_path : string)
    (fs : filesystem) : option (list json * string) :=
  let ext := lower (splitext_ext file_path) in
  if String.eqb ext ".json" then
    match read_file file_path fs with
    | Raise e => Some ([], "Import error: " ++ str_exn e)
    | Ok text =>
        match Json.loads text with
        | Raise e => Some ([], "Import error: " ++ str_exn e)
        | Ok (JArr imported_data) =>
            let standardized_snippets := import_loop imported_data in
            Some (standardized_snippets,
                  "Imported " ++ str_nat (length standardized_snippets)
                  ++ " snippets from JSON")
        | Ok _ => None
        end
    end
  else
    match read_file file_path fs with
    | Raise e => Some ([], "Import error: " ++ str_exn e)
    | Ok text =>
        let imported_data := import_lines (readlines text) in
        Some (imported_data,
              "Imported " ++ str_nat (length imported_data)
              ++ " snippets from text file")
    end.

(** [0 <= idx < len(snippets)] *)
Definition in_range (idx : Z) (snippets : list json) : bool :=
  (0 <=? idx)%Z && (idx <? Z.of_nat (length snippets))%Z.

(** [snippet[key] = value] *)
Definition setitem (k : string) (v : json) (snippet : json) : exc json :=
  match snippet with
  | JObj d => Ok (JObj (dict_set k v d))
  | _ =>
      Raise (TypeError
               ("'" ++ type_name snippet ++ "' object does not support item assignment"))
  end.

(** [for key, value in update_data.items(): snippet[key] = value] *)
Fixpoint update_items (update_data : dict) (snippet : json) : exc json :=
  match update_data with
  | [] => Ok snippet
  | (key, value) :: rest =>
      match setitem key value snippet with
      | Raise e => Raise e
      | Ok snippet' => update_items rest snippet'
      end
  end.

Fixpoint update_loop (snippet_ids : list Z) (update_data : dict)
    (snippets : list json) (updated_count : nat) : exc (list json * nat) :=
  match snippet_ids with
  | [] => Ok (snippets, updated_count)
  | idx :: rest =>
      if in_range idx snippets then
        match snippets !! Z.to_nat idx with
        | None => Raise (IndexError "list index out of range")
        | Some snippet =>
            match update_items update_data snippet with
            | Raise e => Raise e
            | Ok snippet' =>
                update_loop rest update_data
                  (<[Z.to_nat idx := snippet']> snippets) (S updated_count)
            end
        end
      else update_loop rest update_data snippets updated_count
  end.

Definition bulk_update_snippets (self : SnippetDatabase) (snippet_ids : list Z)
    (update_data : dict) (fs : filesystem) : filesystem * (bool * string) :=
  let '(snippets, _) := load_snippets self fs in
  match snippets with
  | [] => (fs, (false, "No snippets to update"))
  | _ :: _ =>
      match update_loop snippet_ids update_data snippets 0 with
      | Raise e => (fs, (false, "Bulk update error: " ++ str_exn e))
      | Ok (snippets', updated_count) =>
          if (0 <? updated_count)%nat then
            let '(fs', (success, _)) := save_snippets self snippets' fs in
            if success
            then (fs', (true, "Updated " ++ str_nat updated_count ++ " snippets"))
            else (fs', (false, "Failed to save updates"))
          else (fs, (false, "No snippets were updated"))
      end
  end.

(** [sorted(set(snippet_ids), reverse=True)] *)
Definition indices_to_delete (snippet_ids : list Z) : list Z :=
  merge_sort Z.ge (elements (list_to_set snippet_ids : gset Z)).

Fixpoint delete_loop (indices : list Z) (snippets : list json)
    (deleted_count : nat) : list json * nat :=
  match indices with
  | [] => (snippets, deleted_count)
  | idx :: rest =>
      if in_range idx snippets
      then delete_loop rest (delete (Z.to_nat idx) snippets) (S deleted_count)
      else delete_loop rest snippets deleted_count
  end.

Definition bulk_delete_snippets (self : SnippetDatabase) (snippet_ids : list Z)
    (fs : filesystem) : filesystem * (bool * string) :=
  let '(snippets, _) := load_snippets self fs in
  match snippets with
  | [] => (fs, (false, "No snippets to delete"))
  | _ :: _ =>
      let '(snippets', deleted_count) :=
        delete_loop (indices_to_delete snippet_ids) snippets 0 in
      if (0 <? deleted_count)%nat then
        let '(fs', (success, _)) := save_snippets self snippets' fs in
        if success
        then (fs', (true, "Deleted " ++ str_nat deleted_count ++ " snippets"))
        else (fs', (false, "Failed to save after deletion"))
      else (fs, (false, "No snippets were deleted"))
  end.

(** Truth value of a Python object, as [if x:] tests it. *)
Definition truthy (j : json) : bool :=
  match j with
  | JNull => false
  | JBool b => b
  | JInt z => negb (z =? 0)%Z
  | JStr s => negb (String.eqb s "")
  | JArr l => match l with [] => false | _ :: _ => true end
  | JObj d => match d with [] => false | _ :: _ => true end
  end.

(** [snippet.get(key, default)]: dictionaries only have the method *)
Definition get (key : string) (dflt : json) (snippet : json) : exc json :=
  match snippet with
  | JObj d => Ok (dict_get_default key dflt d)
  | _ =>
      Raise (AttributeError
               ("'" ++ type_name snippet ++ "' object has no attribute 'get'"))
  end.

(** [[s for s in snippets if s.get("is_template", False)]] *)
Fixpoint template_filter (snippets : list json) : exc (list json) :=
  match snippets with
  | [] => Ok []
  | s :: rest =>
      match get "is_template" (JBool false) s with
      | Raise e => Raise e
      | Ok flag =>
          match template_filter rest with
          | Raise e => Raise e
          | Ok templates => Ok (if truthy flag then s :: templates else templates)
          end
      end
  end.

(** [get_template_snippets] has no handler of its own: what it raises
    reaches the caller. *)
Definition get_template_snippets (self : SnippetDatabase) (fs : filesystem)
    : exc (list json) :=
  let '(snippets, _) := load_snippets self fs in
  template_filter snippets.

(** *** Sets of hashable values

    A Python set of JSON scalars is a list without two equal members.
    Its order of iteration is not modelled: the code sorts the set
    before it looks at it. *)

Definition hashable (j : json) : bool :=
  match j with
  | JArr _ | JObj _ => false
  | _ => true
  end.

(** the number a [bool] or an [int] stands for *)
Definition num_of (j : json) : option Z :=
  match j with
  | JInt z => Some z
  | JBool b => Some (if b then 1 else 0)%Z
  | _ => None
  end.

(** [a == b] on scalars: [True == 1] and [False == 0] *)
Definition py_eq (a b : json) : bool :=
  match a, b with
  | JNull, JNull => true
  | JStr s, JStr t => String.eqb s t
  | _, _ =>
      match num_of a, num_of b with
      | Some x, Some y => (x =? y)%Z
      | _, _ => false
      end
  end.

(** [s.add(x)] *)
Definition set_add (x : json) (s : list json) : list json :=
  if existsb (py_eq x) s then s else s ++ [x].

(** what [for x in j] goes through *)
Definition iterate (j : json) : exc (list json) :=
  match j with
  | JArr l => Ok l
  | JStr s => Ok (map (fun c => JStr (String c "")) (list_ascii_of_string s))
  | JObj d => Ok (map (fun kv => JStr (fst kv)) d)
  | _ => Raise (TypeError ("'" ++ type_name j ++ "' object is not iterable"))
  end.

(** [s.update(items)] *)
Fixpoint set_update (items : list json) (s : list json) : exc (list json) :=
  match items with
  | [] => Ok s
  | x :: rest =>
      if hashable x then set_update rest (set_add x s)
      else Raise (TypeError ("unhashable type: '" ++ type_name x ++ "'"))
  end.

Definition is_string (j : json) : bool :=
  match j with
  | JStr _ => true
  | _ => false
  end.

Definition is_number (j : json) : bool :=
  match num_of j with
  | Some _ => true
  | None => false
  end.

(** [a <= b] between two strings or two numbers *)
Definition py_leb (a b : json) : bool :=
  match a, b with
  | JStr s, JStr t => String.leb s t
  | _, _ =>
      match num_of a, num_of b with
      | Some x, Some y => (x <=? y)%Z
      | _, _ => true
      end
  end.

Definition py_le (a b : json) : Prop := py_leb a b = true.

#[global] Instance py_le_dec : RelDecision py_le :=
  fun a b => decide (py_leb a b = true).

(** [sorted(list(s))] for a set [s]: strings compare with strings and
    numbers with numbers; with two members or more, of which one is
    neither kind or which are of both kinds, a comparison raises.  The
    members are distinct, so the sorted list does not depend on the order
    the set is gone through; the message of the error does, it names the
    types of the pair that was compared, and the model keeps the part of
    it that is fixed. *)
Definition py_sorted (s : list json) : exc (list json) :=
  if forallb is_string s || forallb is_number s then Ok (merge_sort py_le s)
  else
    match s with
    | [] | [_] => Ok s
    | _ :: _ :: _ => Raise (TypeError "'<' not supported between instances")
    end.

Fixpoint collect_tags (snippets : list json) (all_tags : list json)
    : exc (list json) :=
  match snippets with
  | [] => Ok all_tags
  | snippet :: rest =>
      match get "tags" (JArr []) snippet with
      | Raise e => Raise e
      | Ok tags =>
          if truthy tags then
            match iterate tags with
            | Raise e => Raise e
            | Ok items =>
                match set_update items all_tags with
                | Raise e => Raise e
                | Ok all_tags' => collect_tags rest all_tags'
                end
            end
          else collect_tags rest all_tags
      end
  end.

(** [get_all_tags] has no handler of its own either. *)
Definition get_all_tags (self : SnippetDatabase) (fs : filesystem)
    : exc (list json) :=
  let '(snippets, _) := load_snippets self fs in
  match collect_tags snippets [] with
  | Raise e => Raise e
  | Ok all_tags => py_sorted all_tags
  end.

(** ** [export_to_file]

    *** The texts Python makes of values: [str], [repr], [join] *)

Definition nl : string := String LF "".
Definition dq : string := String "034" "".

Fixpoint has_char (c : ascii) (s : string) : bool :=
  match s with
  | String x s' => Ascii.eqb x c || has_char c s'
  | "" => false
  end.

(** one character of [repr(s)], between the quotes [q] *)
Definition repr_char (q c : ascii) : string :=
  let n := N_of_ascii c in
  if Ascii.eqb c q || (n =? 92)%N then String "092" (String c "")
  else if (n =? 9)%N then "\t"
  else if (n =? 10)%N then "\n"
  else if (n =? 13)%N then "\r"
  else if (n <? 32)%N || (n =? 127)%N || ((128 <=? n)%N && (n <=? 160)%N)
          || (n =? 173)%N
  then "\x" ++ String (Json.hex_digit (n / 16)) (String (Json.hex_digit (n mod 16)) "")
  else String c "".

Fixpoint repr_chars (q : ascii) (s : string) : string :=
  match s with
  | String c s' => repr_char q c ++ repr_chars q s'
  | "" => ""
  end.

(** [repr(s)] of a string: double quotes when the text has a single
    quote and no double quote, single quotes otherwise *)
Definition repr_str (s : string) : string :=
  let q := if has_char "'" s && negb (has_char "034" s) then "034"%char else "'"%char in
  String q (repr_chars q s ++ String q "").

(** [repr(x)] *)
Fixpoint py_repr (j : json) : string :=
  match j with
  | JNull => "None"
  | JBool true => "True"
  | JBool false => "False"
  | JInt z => Json.str_Z z
  | JStr s => repr_str s
  | JArr items =>
      match items with
      | [] => "[]"
      | x :: rest =>
          String "[" (py_repr x ++
            (fix tail (l : list json) : string :=
               match l with
               | [] => "]"
               | y :: l' => ", " ++ py_repr y ++ tail l'
               end) rest)
      end
  | JObj members =>
      match members with
      | [] => "{}"
      | (k, x) :: rest =>
          String "{" (repr_str k ++ ": " ++ py_repr x ++
            (fix tail (l : list (string * json)) : string :=
               match l with
               | [] => "}"
               | (k', y) :: l' => ", " ++ repr_str k' ++ ": " ++ py_repr y ++ tail l'
               end) rest)
      end
  end.

(** [str(x)], which is what [f"{x}"] writes *)
Definition py_str (j : json) : string :=
  match j with
  | JStr s => s
  | _ => py_repr j
  end.

Fixpoint join_items (sep : string) (items : list json) (i : nat) : exc string :=
  match items with
  | [] => Ok ""
  | x :: rest =>
      match x with
      | JStr s =>
          match join_items sep rest (S i) with
          | Raise e => Raise e
          | Ok t => Ok (match rest with [] => s | _ :: _ => s ++ sep ++ t end)
          end
      | _ =>
          Raise (TypeError ("sequence item " ++ str_nat i ++ ": expected str instance, "
                            ++ type_name x ++ " found"))
      end
  end.

(** [sep.join(x)] *)
Definition py_join (sep : string) (x : json) : exc string :=
  match iterate x with
  | Raise _ => Raise (TypeError "can only join an iterable")
  | Ok items => join_items sep items 0
  end.

(** [s.replace(c, t)] for one character [c] *)
Fixpoint replace_char (c : ascii) (t s : string) : string :=
  match s with
  | String x s' => (if Ascii.eqb x c then t else String x "") ++ replace_char c t s'
  | "" => ""
  end.

(** [s.upper()] on code points below 256: the small letters of ASCII and
    of Latin-1 have their capital 32 places below, the sharp s becomes
    [SS].  The capitals of the micro sign (181) and of the y with
    diaeresis (255) lie above 255, outside the characters of the model;
    these two are kept as they are. *)
Definition upper_char (c : ascii) : string :=
  let n := N_of_ascii c in
  if ((97 <=? n)%N && (n <=? 122)%N)
     || ((224 <=? n)%N && (n <=? 254)%N && negb (n =? 247)%N)
  then String (ascii_of_N (n - 32)) ""
  else if (n =? 223)%N then "SS"
  else String c "".

Fixpoint upper (s : string) : string :=
  match s with
  | String c s' => upper_char c ++ upper s'
  | "" => ""
  end.

(** *** Writing to the open file

    What a run of [f.write] calls leaves behind: the text written, and
    the exception that ended the run, if one did.  The text stays in the
    file when the [with] block is left by an exception. *)

Definition written := (string * option exn)%type.

Definition andthen (a b : written) : written :=
  match a with
  | (s, Some e) => (s, Some e)
  | (s, None) => let '(t, e) := b in (s ++ t, e)
  end.

Definition no_get (snippet : json) : exn :=
  AttributeError ("'" ++ type_name snippet ++ "' object has no attribute 'get'").

(** the body of the loop of the plain text export *)
Definition export_txt_item (snippet : json) : written :=
  match snippet with
  | JObj d =>
      let label := dict_get_default "label" (JStr "") d in
      let text := dict_get_default "text" (JStr "") d in
      let tags := dict_get_default "tags" (JArr []) d in
      let w_label := if truthy label then "[" ++ py_str label ++ "]" ++ nl else "" in
      let w_rest :=
        (if truthy (dict_get_default "is_template" (JBool false) d)
         then "[TEMPLATE]" ++ nl else "")
        ++ (if truthy (dict_get_default "is_markdown" (JBool false) d)
            then "[MARKDOWN]" ++ nl else "")
        ++ py_str text ++ nl ++ nl in
      if truthy tags then
        match py_join ", " tags with
        | Raise e => (w_label, Some e)
        | Ok joined => (w_label ++ "Tags: " ++ joined ++ nl ++ w_rest, None)
        end
      else (w_label ++ w_rest, None)
  | _ => ("", Some (no_get snippet))
  end.

Fixpoint export_txt (snippets : list json) : written :=
  match snippets with
  | [] => ("", None)
  | snippet :: rest => andthen (export_txt_item snippet) (export_txt rest)
  end.

Definition html_head : string :=
  "<!DOCTYPE html>" ++ nl ++ "<html>" ++ nl ++ "<head>" ++ nl ++
  "<title>Exported Snippets</title>" ++ nl ++ "<script src=" ++ dq ++
  "https://cdn.jsdelivr.net/npm/marked/marked.min.js" ++ dq ++ "></script>" ++
  nl ++ "<style>" ++ nl ++
  "body { font-family: Arial, sans-serif; margin: 20px; }" ++ nl ++
  ".snippet { border: 1px solid #ccc; padding: 10px; margin-bottom: 20px; border-radius: 5px; }" ++
  nl ++ ".label { font-weight: bold; color: #333; margin-bottom: 5px; }" ++
  nl ++ ".tags { color: #0066cc; font-style: italic; margin-bottom: 5px; }" ++
  nl ++
  ".badge { display: inline-block; background-color: #f0f0f0; padding: 2px 5px; border-radius: 3px; margin-right: 5px; font-size: 0.8em; }" ++
  nl ++ ".text { white-space: pre-wrap; }" ++ nl ++
  ".markdown { border-left: 3px solid #2979ff; padding-left: 10px; }" ++ nl ++
  ".template { border-left: 3px solid #4caf50; padding-left: 10px; }" ++ nl ++
  "</style>" ++ nl ++ "</head>" ++ nl ++ "<body>" ++ nl ++
  "<h1>Exported Snippets</h1>" ++ nl.

Definition html_tail : string :=
  nl ++ "<script>" ++ nl ++
  "  document.addEventListener('DOMContentLoaded', function() {" ++ nl ++
  "    var mdContents = document.querySelectorAll('.markdown-content');" ++
  nl ++ "    mdContents.forEach(function(element) {" ++ nl ++
  "      var markdown = element.getAttribute('data-markdown');" ++ nl ++
  "      element.innerHTML = marked.parse(markdown);" ++ nl ++ "    });" ++
  nl ++ "  });" ++ nl ++ "</script>" ++ nl ++ "</body>" ++ nl ++ "</html>".

Fixpoint badges (tags : list json) : string :=
  match tags with
  | [] => ""
  | tag :: rest => "<span class=" ++ dq ++ "badge" ++ dq ++ ">" ++ py_str tag ++ "</span>" ++ badges rest
  end.

(** the body of the loop of the HTML export; [i] counts from 1 *)
Definition export_html_item (i : nat) (snippet : json) : written :=
  match snippet with
  | JObj d =>
      let label := dict_get_default "label" (JStr "") d in
      let text := dict_get_default "text" (JStr "") d in
      let tags := dict_get_default "tags" (JArr []) d in
      let is_markdown := dict_get_default "is_markdown" (JBool false) d in
      let is_template := dict_get_default "is_template" (JBool false) d in
      let classes :=
        ((if truthy is_markdown then ["markdown"] else [])
         ++ (if truthy is_template then ["template"] else []))%list in
      let class_attr :=
        match classes with
        | [] => " class=" ++ dq ++ "snippet" ++ dq
        | [c] => " class=" ++ dq ++ "snippet " ++ c ++ dq
        | c :: c' :: _ => " class=" ++ dq ++ "snippet " ++ c ++ " " ++ c' ++ dq
        end in
      let w_open :=
        "<div" ++ class_attr ++ ">" ++ nl
        ++ "<div class=" ++ dq ++ "label" ++ dq ++ ">#" ++ str_nat i ++ ": " ++ py_str label ++ "</div>" ++ nl in
      let w_text :=
        if truthy is_markdown then
          match text with
          | JStr t =>
              ("<div class=" ++ dq ++ "text markdown-content" ++ dq ++ " data-markdown=" ++ dq ++ replace_char "034" "&quot;" t ++ dq ++ "></div>" ++ nl, None)
          | _ =>
              ("", Some (AttributeError
                           ("'" ++ type_name text ++ "' object has no attribute 'replace'")))
          end
        else ("<div class=" ++ dq ++ "text" ++ dq ++ ">" ++ py_str text ++ "</div>" ++ nl, None) in
      let w_close : written := ("</div>" ++ nl, None) in
      if truthy tags then
        match iterate tags with
        | Raise e => (w_open ++ ("<div class=" ++ dq ++ "tags" ++ dq ++ ">Tags: "), Some e)
        | Ok items =>
            andthen (w_open ++ ("<div class=" ++ dq ++ "tags" ++ dq ++ ">Tags: ") ++ badges items ++ "</div>" ++ nl, None)
              (andthen w_text w_close)
        end
      else andthen (w_open, None) (andthen w_text w_close)
  | _ => ("", Some (no_get snippet))
  end.

Fixpoint export_html (i : nat) (snippets : list json) : written :=
  match snippets with
  | [] => ("", None)
  | snippet :: rest => andthen (export_html_item i snippet) (export_html (S i) rest)
  end.

(** the body of the loop of the Markdown export; [i] counts from 1 *)
Definition export_md_item (i : nat) (snippet : json) : written :=
  match snippet with
  | JObj d =>
      let label := dict_get_default "label" (JStr "") d in
      let text := dict_get_default "text" (JStr "") d in
      let tags := dict_get_default "tags" (JArr []) d in
      let is_markdown := dict_get_default "is_markdown" (JBool false) d in
      let is_template := dict_get_default "is_template" (JBool false) d in
      let w_head := "## " ++ str_nat i ++ ". " ++ py_str label ++ nl ++ nl in
      let w_rest :=
        (if truthy is_template then "**Template**" ++ nl ++ nl else "")
        ++ (if truthy is_markdown
            then "**Markdown Content**" ++ nl ++ nl ++ py_str text ++ nl ++ nl
            else "```" ++ nl ++ py_str text ++ nl ++ "```" ++ nl ++ nl) in
      if truthy tags then
        match py_join ", " tags with
        | Raise e => (w_head, Some e)
        | Ok joined => (w_head ++ "**Tags**: " ++ joined ++ nl ++ nl ++ w_rest, None)
        end
      else (w_head ++ w_rest, None)
  | _ => ("", Some (no_get snippet))
  end.

Fixpoint export_md (i : nat) (snippets : list json) : written :=
  match snippets with
  | [] => ("", None)
  | snippet :: rest => andthen (export_md_item i snippet) (export_md (S i) rest)
  end.

(** [export_to_file]; [now] is the text of
    [datetime.now().strftime('%Y-%m-%d %H:%M:%S')].  A format type that
    is none of the three writes nothing into the file it has opened. *)
Definition export_to_file (self : SnippetDatabase) (snippets : list json)
    (file_path format_type now : string) (fs : filesystem)
    : filesystem * (bool * string) :=
  let '(text, raised) :=
    if String.eqb format_type "txt" then export_txt snippets
    else if String.eqb format_type "html" then
      andthen (html_head ++ "<p>Exported on " ++ now ++ "</p>" ++ nl, None)
        (andthen (export_html 1 snippets) (html_tail, None))
    else if String.eqb format_type "md" then
      andthen ("# Exported Snippets" ++ nl ++ nl ++ "Exported on " ++ now ++ nl ++ nl, None)
        (export_md 1 snippets)
    else ("", None) in
  match write_file file_path text fs with
  | Raise e => (fs, (false, "Export error: " ++ str_exn e))
  | Ok fs' =>
      match raised with
      | Some e => (fs', (false, "Export error: " ++ str_exn e))
      | None =>
          (fs', (true, "Exported " ++ str_nat (length snippets) ++ " snippets to "
                       ++ upper format_type ++ " file"))
      end
  end.

(** ** Regular expressions: the fragment of [re] that [utils.py] uses

    A backtracking matcher in continuation-passing style, with the flags
    [IGNORECASE] and [MULTILINE] built in.  Repetition is over a single
    character class, which is all the pattern needs.  The classes are
    Python's on ASCII text. *)

Module Re.

Inductive cclass :=
| Lit (c : ascii)          (* a literal, compared without case *)
| Space                    (* \s *)
| Dot                      (* . : anything but a line feed *)
| OneOf (chars : string).  (* [...] *)

Inductive regex :=
| One (c : cclass)
| Star (c : cclass)        (* greedy c* *)
| Seq (r1 r2 : regex)
| Alt (r1 r2 : regex)      (* r1|r2, r1 tried first *)
| Group (n : nat) (r : regex)
| WordBoundary             (* \b *)
| Eol.                     (* $ *)

(** c+ *)
Definition Plus (c : cclass) : regex := Seq (One c) (Star c).

Fixpoint word (s : string) : regex :=
  match s with
  | "" => Star (OneOf "")
  | String c "" => One (Lit c)
  | String c s' => Seq (One (Lit c)) (word s')
  end.

Fixpoint alternatives (r : regex) (rs : list regex) : regex :=
  match rs with
  | [] => r
  | r' :: rs' => Alt r (alternatives r' rs')
  end.

Fixpoint mem (x : ascii) (s : string) : bool :=
  match s with
  | String c s' => Ascii.eqb c x || mem x s'
  | "" => false
  end.

(** \w *)
Definition is_word (c : ascii) : bool :=
  let n := N_of_ascii c in
  ((48 <=? n)%N && (n <=? 57)%N) || ((65 <=? n)%N && (n <=? 90)%N)
  || ((97 <=? n)%N && (n <=? 122)%N) || (n =? 95)%N.

Definition cmatch (c : cclass) (x : ascii) : bool :=
  match c with
  | Lit l => Ascii.eqb (lower_char l) (lower_char x)
  | Space => is_space x && (N_of_ascii x <? 128)%N
  | Dot => negb (Ascii.eqb x LF)
  | OneOf chars => mem x chars
  end.

(** What a match attempt has seen: the character before the current
    position, the text it has consumed (latest character first) and the
    groups it has closed. *)
Record info := Info {
  prev : option ascii;
  taken : string;
  groups : list (nat * string)
}.

Definition advance (x : ascii) (i : info) : info :=
  Info (Some x) (String x (taken i)) (groups i).

Fixpoint rev_onto (s acc : string) : string :=
  match s with
  | "" => acc
  | String c s' => rev_onto s' (String c acc)
  end.

Fixpoint take (n : nat) (s : string) : string :=
  match n, s with
  | S n', String c s' => String c (take n' s')
  | _, _ => ""
  end.

(** the text consumed between the states [i] and [i'] *)
Definition consumed (i i' : info) : string :=
  rev_onto (take (String.length (taken i') - String.length (taken i)) (taken i')) "".

Definition close_group (n : nat) (i i' : info) : info :=
  Info (prev i') (taken i') ((n, consumed i i') :: groups i').

Definition is_word_opt (o : option ascii) : bool :=
  match o with
  | Some c => is_word c
  | None => false
  end.

Definition head (s : string) : option ascii :=
  match s with
  | String c _ => Some c
  | "" => None
  end.

Definition cont := string -> info -> option (info * string).

Fixpoint star (c : cclass) (s : string) (i : info) (k : cont) : option (info * string) :=
  match s with
  | String x s' =>
      if cmatch c x then
        match star c s' (advance x i) k with
        | Some r => Some r
        | None => k s i
        end
      else k s i
  | "" => k s i
  end.

Fixpoint run (r : regex) (s : string) (i : info) (k : cont) : option (info * string) :=
  match r with
  | One c =>
      match s with
      | String x s' => if cmatch c x then k s' (advance x i) else None
      | "" => None
      end
  | Star c => star c s i k
  | Seq r1 r2 => run r1 s i (fun s' i' => run r2 s' i' k)
  | Alt r1 r2 =>
      match run r1 s i k with
      | Some res => Some res
      | None => run r2 s i k
      end
  | Group n r1 => run r1 s i (fun s' i' => k s' (close_group n i i'))
  | WordBoundary =>
      if xorb (is_word_opt (prev i)) (is_word_opt (head s)) then k s i else None
  | Eol =>
      match s with
      | "" => k s i
      | String x _ => if Ascii.eqb x LF then k s i else None
      end
  end.

(** [pattern.match] at one position: the state at the end of the match *)
Definition match_at (r : regex) (before : option ascii) (s : string) : option info :=
  match run r s (Info before "" []) (fun s' i' => Some (i', s')) with
  | Some (i, _) => Some i
  | None => None
  end.

Definition group (n : nat) (i : info) : string :=
  match List.find (fun g => Nat.eqb (fst g) n) (groups i) with
  | Some (_, t) => t
  | None => ""
  end.

(** [pattern.sub(repl, text)], scanning left to right; [skip] counts the
    characters of [s] that belong to the match just replaced.  (The
    pattern used here never matches the empty string; for such a match
    the replacement is written and the scan moves on.) *)
Fixpoint sub_from (r : regex) (repl : info -> string) (before : option ascii)
    (s : string) (skip : nat) : string :=
  match s with
  | "" =>
      match skip with
      | S _ => ""
      | O =>
          match match_at r before "" with
          | Some i => repl i
          | None => ""
          end
      end
  | String c s' =>
      match skip with
      | S n => sub_from r repl (Some c) s' n
      | O =>
          match match_at r before s with
          | Some i =>
              match String.length (taken i) with
              | O => repl i ++ String c (sub_from r repl (Some c) s' 0)
              | S n => repl i ++ sub_from r repl (Some c) s' n
              end
          | None => String c (sub_from r repl (Some c) s' 0)
          end
      end
  end.

Definition sub (r : regex) (repl : info -> string) (text : string) : string :=
  sub_from r repl None text 0.

End Re.

(** ** [snippet_manager/config.py], password options *)

Definition ascii_lowercase : string := "abcdefghijklmnopqrstuvwxyz".
Definition ascii_uppercase : string := "ABCDEFGHIJKLMNOPQRSTUVWXYZ".
Definition digits : string := "0123456789".

Definition PASSWORD_CHARS (key : string) : string :=
  if String.eqb key "lowercase" then ascii_lowercase
  else if String.eqb key "uppercase" then ascii_uppercase
  else if String.eqb key "digits" then digits
  else if String.eqb key "special" then "!@#$%^&*()-_=+[]{}|;:,.<>?/"
  else "".

Definition DEFAULT_PASSWORD_LENGTH : Z := 16.

(** ** [snippet_manager/utils.py] *)

(** [PASSWORD_PATTERN], compiled with [(?i)] and [re.MULTILINE].  Group 1
    is [\b], the alternation [password|pass|pwd|secret|token|key|auth|app pass],
    [\s*], [[:=]] and [\s*]; group 2 is [.+]; then [$]. *)
Definition PASSWORD_PATTERN : Re.regex :=
  Re.Seq
    (Re.Group 1
       (Re.Seq Re.WordBoundary
          (Re.Seq
             (Re.alternatives (Re.word "password")
                [Re.word "pass"; Re.word "pwd"; Re.word "secret"; Re.word "token";
                 Re.word "key"; Re.word "auth"; Re.word "app pass"])
             (Re.Seq (Re.Star Re.Space)
                (Re.Seq (Re.One (Re.OneOf ":=")) (Re.Star Re.Space))))))
    (Re.Seq (Re.Group 2 (Re.Plus Re.Dot)) Re.Eol).

(** *** [adjust_color]

    In a colour a character is a code point below 256.  [int(x, 16)]
    raises [ValueError] on a text that is not a number; the function
    does not catch it, and the model returns [None] then. *)

(** [s.lstrip(c)] for one character [c] *)
Fixpoint lstrip_char (c : ascii) (s : string) : string :=
  match s with
  | String x s' => if Ascii.eqb x c then lstrip_char c s' else s
  | "" => ""
  end.

(** the white space [int] passes over before and after a number *)
Definition int_space (c : ascii) : bool :=
  let n := N_of_ascii c in
  ((9 <=? n)%N && (n <=? 13)%N) || (n =? 32)%N || (n =? 133)%N || (n =? 160)%N.

Fixpoint lstrip_int_space (s : string) : string :=
  match s with
  | String c s' => if int_space c then lstrip_int_space s' else s
  | "" => ""
  end.

Fixpoint all_int_space (s : string) : bool :=
  match s with
  | String c s' => int_space c && all_int_space s'
  | "" => true
  end.

Definition is_hex (c : ascii) : bool :=
  match Json.hex_value c with
  | Some _ => true
  | None => false
  end.

(** the digits of a hexadecimal number, with single underscores between
    them, and the text after them *)
Fixpoint hex_run (s : string) (acc : Z) : option (Z * string) :=
  match s with
  | "" => Some (acc, "")
  | String c s' =>
      match Json.hex_value c with
      | Some d => hex_run s' (16 * acc + Z.of_N d)
      | None =>
          if Ascii.eqb c "_" then
            match s' with
            | String d _ => if is_hex d then hex_run s' acc else None
            | "" => None
            end
          else Some (acc, s)
      end
  end.

(** [int(s, 16)]: white space, a sign, the prefix [0x] or [0X] with one
    underscore after it, digits, white space *)
Definition int16 (s : string) : option Z :=
  let s := lstrip_int_space s in
  let '(negative, s) :=
    match s with
    | String c s' =>
        if Ascii.eqb c "-" then (true, s')
        else if Ascii.eqb c "+" then (false, s')
        else (false, s)
    | "" => (false, s)
    end in
  let s :=
    match s with
    | String z (String x s') =>
        if Ascii.eqb z "0" && (Ascii.eqb x "x" || Ascii.eqb x "X") then
          match s' with
          | String u s'' => if Ascii.eqb u "_" then s'' else s'
          | "" => s'
          end
        else s
    | _ => s
    end in
  match s with
  | String c _ =>
      if is_hex c then
        match hex_run s 0 with
        | Some (n, rest) =>
            if all_int_space rest then Some (if negative then - n else n)%Z else None
        | None => None
        end
      else None
  | "" => None
  end.

(** [hex(n)] without its prefix, for [0 <= n] *)
Definition hex (n : Z) : string :=
  HexadecimalString.NilZero.string_of_uint (N.to_hex_uint (Z.to_N n)).

(** [f"{n:02x}"] *)
Definition format_02x (n : Z) : string :=
  if (n <? 0)%Z then "-" ++ hex (- n)
  else if (String.length (hex n) <? 2)%nat then "0" ++ hex n
  else hex n.

Definition adjust_color (color : string) (amount : Z) (is_dark_mode : bool)
    : option string :=
  let color := lstrip_char "#" color in
  match int16 (substring 0 2 color) with
  | None => None
  | Some r =>
      match int16 (substring 2 2 color) with
      | None => None
      | Some g =>
          match int16 (substring 4 2 color) with
          | None => None
          | Some b =>
              let '(r, g, b) :=
                if is_dark_mode
                then (Z.min 255 (r + amount), Z.min 255 (g + amount),
                      Z.min 255 (b + amount))
                else (Z.max 0 (r - amount), Z.max 0 (g - amount),
                      Z.max 0 (b - amount)) in
              Some ("#" ++ format_02x r ++ format_02x g ++ format_02x b)
          end
      end
  end.

Definition mask_marker : string := "●●●●●●●●".

Definition mask_sensitive_data (text : string) : string :=
  Re.sub PASSWORD_PATTERN (fun i => Re.group 1 i ++ mask_marker) text.

(** The random generator: a sequence of raw draws and a cursor into it.
    [random.choice(seq)] picks [seq[k]] for some [k < len(seq)]; every
    such [k] is the outcome of some draw. *)
Record rng := Rng { draws : nat -> nat; cursor : nat }.

Definition random_choice (seq : string) (g : rng) : exc (ascii * rng) :=
  match String.get (draws g (cursor g) mod String.length seq) seq with
  | Some c => Ok (c, Rng (draws g) (S (cursor g)))
  | None => Raise (IndexError "Cannot choose from an empty sequence")
  end.

(** [''.join(random.choice(chars) for _ in range(n))] *)
Fixpoint choices (n : nat) (chars : string) (g : rng) : exc (string * rng) :=
  match n with
  | O => Ok ("", g)
  | S n' =>
      match random_choice chars g with
      | Raise e => Raise e
      | Ok (c, g') =>
          match choices n' chars g' with
          | Raise e => Raise e
          | Ok (s, g'') => Ok (String c s, g'')
          end
      end
  end.

Definition generate_password (length : Z) (use_uppercase use_digits use_special : bool)
    (g : rng) : exc (string * rng) :=
  let chars := PASSWORD_CHARS "lowercase" in
  let chars := if use_uppercase then chars ++ PASSWORD_CHARS "uppercase" else chars in
  let chars := if use_digits then chars ++ PASSWORD_CHARS "digits" else chars in
  let chars := if use_special then chars ++ PASSWORD_CHARS "special" else chars in
  choices (Z.to_nat length) chars g.

(** * Vocabulary of the properties *)

(** the characters of a string *)
Definition chars_of (s : string) : list ascii := list_ascii_of_string s.

(** a lowercase letter or a digit *)
Definition is_lower_or_digit (c : ascii) : bool :=
  let n := N_of_ascii c in
  ((97 <=? n)%N && (n <=? 122)%N) || ((48 <=? n)%N && (n <=? 57)%N).

(** the character pool that [generate_password] builds *)
Definition pool (up dg sp : bool) : string :=
  let chars := PASSWORD_CHARS "lowercase" in
  let chars := if up then chars ++ PASSWORD_CHARS "uppercase" else chars in
  let chars := if dg then chars ++ PASSWORD_CHARS "digits" else chars in
  if sp then chars ++ PASSWORD_CHARS "special" else chars.

(** the types of the data model *)
Definition is_str (j : json) : bool := match j with JStr _ => true | _ => false end.
Definition is_bool (j : json) : bool := match j with JBool _ => true | _ => false end.
Definition is_seq (j : json) : bool := match j with JArr _ => true | _ => false end.
Definition is_str_seq (j : json) : bool :=
  match j with JArr l => forallb is_str l | _ => false end.
Definition is_obj (j : json) : bool := match j with JObj _ => true | _ => false end.

(** field [k] is present and its value satisfies [p] *)
Definition field_is (p : json -> bool) (k : string) (d : dict) : bool :=
  match dict_get k d with
  | Some v => p v
  | None => false
  end.

(** all five canonical fields, each of its stated type *)
Definition canonical_fields (j : json) : bool :=
  match j with
  | JObj d =>
      field_is is_str "text" d && field_is is_str "label" d
      && field_is is_str_seq "tags" d
      && field_is is_bool "is_markdown" d && field_is is_bool "is_template" d
  | _ => false
  end.

(** the default of each canonical field *)
Definition defaults : dict :=
  [("text", JStr ""); ("label", JStr ""); ("tags", JArr []);
   ("is_markdown", JBool false); ("is_template", JBool false)].

(** a line that [import_from_file] passes over *)
Definition is_blank (line : string) : bool := String.eqb (strip line) "".

(** opening [path] for writing succeeds *)
Definition can_write (path : string) (fs : filesystem) : bool :=
  match fs !! path with
  | Some f => f_writable f
  | None => true
  end.

(** sample data for the instances below *)
Definition fs_txt : filesystem :=
  {[ "notes.txt" := File ("alpha" ++ String LF (String LF "  beta  ")) true true ]}.

(** [0 <= idx < n] *)
Definition in_bounds (n : nat) (idx : Z) : bool :=
  (0 <=? idx)%Z && (idx <? Z.of_nat n)%Z.

(** the database on the default save file *)
Definition db0 : SnippetDatabase := {| save_file := SAVE_FILE |}.

(** a store of three canonical snippets *)
Definition fs_three : filesystem :=
  {[ SAVE_FILE := File (Json.dumps (JArr [plain_snippet "a"; plain_snippet "b"; plain_snippet "c"])) true true ]}.

(** no dictionary inside [j] has a repeated key: the values a Python
    program can hold *)
Fixpoint unique_keys (j : json) : Prop :=
  match j with
  | JArr l =>
      (fix all (l : list json) : Prop :=
         match l with
         | [] => True
         | x :: l' => unique_keys x /\ all l'
         end) l
  | JObj d =>
      NoDup (map fst d)
      /\ (fix all (d : list (string * json)) : Prop :=
            match d with
            | [] => True
            | (_, v) :: d' => unique_keys v /\ all d'
            end) d
  | _ => True
  end.

(** the fuel [Json.parse_value] needs to read [j] back *)
Fixpoint json_size (j : json) : nat :=
  match j with
  | JArr l => S (list_sum (map (fun x => S (json_size x)) l))
  | JObj d => S (list_sum (map (fun kv => S (json_size (snd kv))) d))
  | _ => 1
  end.

(** induction on JSON values, through their arrays and objects *)
Section json_induction.
Variable P : json -> Prop.
Hypothesis Hnull : P JNull.
Hypothesis Hbool : forall b, P (JBool b).
Hypothesis Hint : forall z, P (JInt z).
Hypothesis Hstr : forall s, P (JStr s).
Hypothesis Harr : forall l, Forall P l -> P (JArr l).
Hypothesis Hobj : forall d, Forall (fun kv => P (snd kv)) d -> P (JObj d).

Fixpoint json_induction (j : json) : P j :=
  match j with
  | JNull => Hnull
  | JBool b => Hbool b
  | JInt z => Hint z
  | JStr s => Hstr s
  | JArr l =>
      Harr l ((fix go (l : list json) : Forall P l :=
                 match l with
                 | [] => List.Forall_nil P
                 | x :: l' => List.Forall_cons P x l' (json_induction x) (go l')
                 end) l)
  | JObj d =>
      Hobj d ((fix go (d : list (string * json)) : Forall (fun kv => P (snd kv)) d :=
                 match d with
                 | [] => List.Forall_nil _
                 | kv :: d' => List.Forall_cons _ kv d' (json_induction (snd kv)) (go d')
                 end) d)
  end.
End json_induction.

(** facts about the text [Json.dumps] writes *)
Fixpoint all_digits (s : string) : bool :=
  match s with
  | String c s' => Json.is_digit c && all_digits s'
  | "" => true
  end.

Definition no_digit_ahead (rest : string) : Prop :=
  match rest with
  | String c _ => Json.is_digit c = false
  | "" => True
  end.

(** [rest] is empty or begins with a character that ends a value *)
Definition closes (rest : string) : Prop :=
  match rest with
  | "" => True
  | String c _ => c = ","%char \/ c = "]"%char \/ c = "}"%char
  end.

(** the characters a dumped value can begin with *)
Definition value_start (c : ascii) : bool :=
  Json.is_digit c || Ascii.eqb c "034" || Re.mem c "-[{ntf".

(** what the induction carries for one value *)
Definition reads_back (j : json) : Prop :=
  forall fuel rest,
    (json_size j <= fuel)%nat -> closes rest ->
    Json.parse_value fuel (Json.dumps j ++ rest) = Some (j, rest).

(** the names of the canonical fields *)
Definition canonical_keys : list string :=
  ["text"; "label"; "tags"; "is_markdown"; "is_template"].

(** exactly the five canonical fields, each of its stated type *)
Definition canonical (j : json) : Prop :=
  match j with
  | JObj d => map fst d ≡ₚ canonical_keys /\ canonical_fields j = true
  | _ => False
  end.

(** opening [path] for reading succeeds, once the file is there *)
Definition can_read (path : string) (fs : filesystem) : bool :=
  match fs !! path with
  | Some f => f_readable f
  | None => true
  end.

(** printable ASCII only *)
Fixpoint printable (s : string) : bool :=
  match s with
  | String c s' => (32 <=? N_of_ascii c)%N && (N_of_ascii c <=? 126)%N && printable s'
  | "" => true
  end.

(** two canonical snippets, the second with its keys in another order *)
Definition two_snippets : list json :=
  [ JObj [("text", JStr ("say " ++ String "034" ("hi" ++ String "034" (String LF "\o/")))); ("label", JStr "shell");
          ("tags", JArr [JStr "a"; JStr "b"]);
          ("is_markdown", JBool false); ("is_template", JBool true)];
    JObj [("label", JStr ""); ("text", JStr "# title"); ("is_markdown", JBool true);
          ("is_template", JBool false); ("tags", JArr [])] ].

(** the snippets whose position, counted from [pos], is not among [ids] *)
Fixpoint survivors_from (pos : Z) (ids : list Z) (snippets : list json) : list json :=
  match snippets with
  | [] => []
  | s :: rest =>
      if bool_decide (pos ∈ ids) then survivors_from (pos + 1) ids rest
      else s :: survivors_from (pos + 1) ids rest
  end.

Definition survivors (ids : list Z) (snippets : list json) : list json :=
  survivors_from 0 ids snippets.

(** a record as the store holds it: a mapping with unique keys that has
    the five canonical fields *)
Definition stored (j : json) : Prop :=
  match j with
  | JObj d => unique_keys j /\ Forall (fun k => dict_has k d = true) canonical_keys
  | _ => False
  end.

(** the value a patch gives to key [k], if any, else the old one *)
Definition patched_get (patch d : dict) (k : string) : option json :=
  match dict_get k patch with
  | Some v => Some v
  | None => dict_get k d
  end.

(** [new] is [old] with the patch applied ([hit]) or as it was *)
Definition patch_rel (patch : dict) (hit : bool) (old new : json) : Prop :=
  exists d d', old = JObj d /\ new = JObj d'
    /\ forall k, dict_get k d' = if hit then patched_get patch d k else dict_get k d.

(** two mappings with the same value, or none, for every key *)
Definition same_fields (a b : json) : Prop :=
  exists d d', a = JObj d /\ b = JObj d' /\ forall k, dict_get k d' = dict_get k d.

(** a file to import: a mapping with a foreign key, a null and a string *)
Definition fs_import : filesystem :=
  {[ "in.json" :=
       File (Json.dumps (JArr [JObj [("text", JStr "t"); ("color", JStr "red")];
                               JNull; JStr "s"])) true true ]}.

(** a store file of the old format: bare strings *)
Definition fs_legacy : filesystem :=
  {[ SAVE_FILE := File (Json.dumps (JArr [JStr "first"; JStr "second"])) true true ]}.

(** a store with records that need normalizing *)
Definition fs_mixed : filesystem :=
  {[ SAVE_FILE :=
       File (Json.dumps (JArr [JObj [("tags", JInt 7); ("extra", JArr [JInt 1; JInt 2])];
                               JInt 3; JStr "old"])) true true ]}.

(** the value [s.get("is_template", False)] is true *)
Definition is_template_set (s : json) : bool :=
  match s with
  | JObj d => truthy (dict_get_default "is_template" (JBool false) d)
  | _ => false
  end.

(** snippet [s] is a mapping whose tags are the strings [ts] *)
Definition string_tags (s : json) (ts : list string) : Prop :=
  exists d, s = JObj d /\ dict_get "tags" d = Some (JArr (map JStr ts)).

(** snippet [s] is a mapping whose tags are the number [z] *)
Definition number_tags (s : json) (z : Z) : Prop :=
  exists d, s = JObj d /\ dict_get "tags" d = Some (JInt z).

(** a store with tags, one of them in two letter cases *)
Definition fs_tags : filesystem :=
  {[ SAVE_FILE :=
       File (Json.dumps (JArr [
         JObj [("text", JStr "a"); ("tags", JArr [JStr "web"; JStr "db"]);
               ("is_template", JBool true)];
         JObj [("text", JStr "b"); ("tags", JArr [JStr "db"; JStr "Web"])];
         JStr "c"])) true true ]}.

(** a store with a record whose tags are a number *)
Definition fs_bad_tags : filesystem :=
  {[ SAVE_FILE :=
       File (Json.dumps (JArr [JObj [("text", JStr "a"); ("tags", JInt 5)]])) true true ]}.

(** the string a JSON string holds *)
Definition str_of (j : json) : string :=
  match j with
  | JStr s => s
  | _ => ""
  end.

(** what [save_snippets] stores for key [k] of a snippet where it found
    the value [v]: tags that are not a list are replaced by the empty
    list *)
Definition saved_value (k : string) (v : option json) : option json :=
  if String.eqb k "tags" then (if is_list v then v else Some (JArr [])) else v.

(** [new] holds what a successful bulk update stores for [old]: the
    values of the patch when the position was requested ([hit]), as
    [save_snippets] normalizes them *)
Definition reload_rel (patch : dict) (hit : bool) (old new : json) : Prop :=
  exists d d', old = JObj d /\ new = JObj d'
    /\ forall k, dict_get k d'
                 = saved_value k (if hit then patched_get patch d k else dict_get k d).

(** the text has neither a colon nor an equals sign *)
Definition no_separator (s : string) : bool :=
  negb (Re.mem ":" s) && negb (Re.mem "=" s).

(** [t] is the text from some position of [s] on *)
Definition is_suffix (t s : string) : Prop := exists p, s = p ++ t.

(** the labels that [PASSWORD_PATTERN] looks for *)
Definition credential_labels : list string :=
  ["password"; "pass"; "pwd"; "secret"; "token"; "key"; "auth"; "app pass"].

(** the state of a match after it has consumed [t] *)
Fixpoint advance_all (t : string) (i : Re.info) : Re.info :=
  match t with
  | "" => i
  | String x t' => advance_all t' (Re.advance x i)
  end.

(** [s] split after a beginning that is [w] up to letter case *)
Fixpoint split_ci (w s : string) : option (string * string) :=
  match w with
  | "" => Some ("", s)
  | String a w' =>
      match s with
      | "" => None
      | String b s' =>
          if Ascii.eqb (lower_char a) (lower_char b) then
            match split_ci w' s' with
            | Some (t, r) => Some (String b t, r)
            | None => None
            end
          else None
      end
  end.

(** every character of [s] is in the class [c] *)
Fixpoint all_match (c : Re.cclass) (s : string) : bool :=
  match s with
  | "" => true
  | String x s' => Re.cmatch c x && all_match c s'
  end.

(** the first position of [c] in [s] *)
Fixpoint index_of (c : ascii) (s : string) : nat :=
  match s with
  | "" => 0
  | String x s' => if Ascii.eqb x c then 0 else S (index_of c s')
  end.

(** raw draws that make [random.choice(chars)] spell [pw] *)
Definition draws_for (pw chars : string) (n : nat) : nat :=
  match String.get n pw with
  | Some c => index_of c chars
  | None => 0
  end.

(** a number sign and six hexadecimal digits *)
Definition is_hex_color (s : string) : bool :=
  match s with
  | String h (String x1 (String x2 (String x3 (String x4 (String x5 (String x6 "")))))) =>
      Ascii.eqb h "#" && is_hex x1 && is_hex x2 && is_hex x3 && is_hex x4
      && is_hex x5 && is_hex x6
  | _ => false
  end.

(** the red, green and blue that [adjust_color] reads from a colour *)
Definition channels (color : string) : option (Z * Z * Z) :=
  let color := lstrip_char "#" color in
  match int16 (substring 0 2 color), int16 (substring 2 2 color),
        int16 (substring 4 2 color) with
  | Some r, Some g, Some b => Some (r, g, b)
  | _, _, _ => None
  end.

(** what [adjust_color] makes of one channel *)
Definition adjusted (is_dark_mode : bool) (amount x : Z) : Z :=
  if is_dark_mode then Z.min 255 (x + amount) else Z.max 0 (x - amount).

(** the value of two hexadecimal digits *)
Definition hex_pair (c1 c2 : ascii) : Z :=
  match Json.hex_value c1, Json.hex_value c2 with
  | Some a, Some b => 16 * Z.of_N a + Z.of_N b
  | _, _ => 0
  end.

(** a text that is one line of a text file and survives [strip]: no line
    feed, no carriage return, not empty, no white space at either end *)
Definition is_line (t : string) : bool :=
  negb (has_char LF t) && negb (has_char CR t)
  && negb (String.eqb t "") && String.eqb (strip t) t.

(** what the plain text export writes for plain snippets *)
Fixpoint txt_of (texts : list string) : string :=
  match texts with
  | [] => ""
  | t :: rest => t ++ nl ++ nl ++ txt_of rest
  end.

(** * Properties *)

Lemma chars_of_app (a b : string) : chars_of (a ++ b) = (chars_of a ++ chars_of b)%list.
Proof. induction a as [|c a IH]; simpl; [done | by rewrite <- IH]. Qed.

Lemma get_in (s : string) : forall n c, String.get n s = Some c -> In c (chars_of s).
Proof.
  induction s as [|x s IH]; intros [|n] c; simpl; try discriminate.
  - intros [= ->]. by left.
  - intros H. right. eauto.
Qed.

Lemma get_lt (s : string) : forall n, (n < String.length s)%nat -> exists c, String.get n s = Some c.
Proof.
  induction s as [|x s IH]; intros [|n]; simpl; try lia.
  - eauto.
  - intros H. apply IH. lia.
Qed.

Lemma choices_total (chars : string) :
  (0 < String.length chars)%nat ->
  forall n g, exists pw g',
    choices n chars g = Ok (pw, g') /\ String.length pw = n /\
    Forall (fun c => In c (chars_of chars)) (chars_of pw).
Proof.
  intros Hpos. induction n as [|n IH]; intros g; simpl.
  - exists "", g. repeat split. constructor.
  - unfold random_choice.
    destruct (get_lt chars (draws g (cursor g) mod String.length chars)) as [c Hc].
    { apply Nat.mod_upper_bound. lia. }
    rewrite Hc.
    destruct (IH (Rng (draws g) (S (cursor g)))) as (pw & g' & -> & Hlen & Hall).
    exists (String c pw), g'. repeat split; simpl; [congruence|].
    constructor; [by eapply get_in | done].
Qed.

Lemma pool_classes up dg sp c :
  In c (chars_of (pool up dg sp)) ->
  In c (chars_of (PASSWORD_CHARS "lowercase"))
  \/ (up = true /\ In c (chars_of (PASSWORD_CHARS "uppercase")))
  \/ (dg = true /\ In c (chars_of (PASSWORD_CHARS "digits")))
  \/ (sp = true /\ In c (chars_of (PASSWORD_CHARS "special"))).
Proof.
  unfold pool. destruct up, dg, sp; rewrite ?chars_of_app, ?in_app_iff; tauto.
Qed.

Lemma pool_nonempty up dg sp : (0 < String.length (pool up dg sp))%nat.
Proof. destruct up, dg, sp; vm_compute; lia. Qed.

(** C8.  For a target length [length >= 0] and any setting of the three
    switches, [generate_password] returns a password of exactly [length]
    characters, each taken from the lowercase letters or from a class
    that is switched on, whatever the random draws are.  With length 16,
    no uppercase, digits and no special characters the password has 16
    characters, each a lowercase letter or a digit. *)
Theorem C8_generate_password (length : Z) (use_uppercase use_digits use_special : bool) (g : rng) :
  (0 <= length)%Z ->
  (exists pw g',
     generate_password length use_uppercase use_digits use_special g = Ok (pw, g')
     /\ Z.of_nat (String.length pw) = length
     /\ Forall (fun c =>
          In c (chars_of (PASSWORD_CHARS "lowercase"))
          \/ (use_uppercase = true /\ In c (chars_of (PASSWORD_CHARS "uppercase")))
          \/ (use_digits = true /\ In c (chars_of (PASSWORD_CHARS "digits")))
          \/ (use_special = true /\ In c (chars_of (PASSWORD_CHARS "special"))))
          (chars_of pw))
  /\ (exists pw g',
        generate_password 16 false true false g = Ok (pw, g')
        /\ String.length pw = 16%nat
        /\ Forall (fun c => is_lower_or_digit c = true) (chars_of pw)).
Proof.
  intros Hlen. split.
  - destruct (choices_total (pool use_uppercase use_digits use_special)
                (pool_nonempty _ _ _) (Z.to_nat length) g) as (pw & g' & H & Hl & Hall).
    exists pw, g'. split; [exact H|]. split; [lia|].
    eapply Forall_impl; [exact Hall|]. intros c. apply pool_classes.
  - destruct (choices_total (pool false true false)
                (pool_nonempty _ _ _) 16 g) as (pw & g' & H & Hl & Hall).
    exists pw, g'. split; [exact H|]. split; [exact Hl|].
    eapply Forall_impl; [exact Hall|]. intros c Hc. vm_compute in Hc.
    repeat (destruct Hc as [<- | Hc]; [reflexivity|]). destruct Hc.
Qed.

(** C8 at length 16 with the draws 3, 10, 17, ... *)
Lemma C8_witness :
  (0 <= 16)%Z
  /\ exists pw g',
       generate_password 16 false true false (Rng (fun n => 7 * n + 3)%nat 0) = Ok (pw, g')
       /\ Z.of_nat (String.length pw) = 16%Z.
Proof.
  split; [lia|].
  destruct (C8_generate_password 16 false true false (Rng (fun n => 7 * n + 3)%nat 0))
    as [(pw & g' & H & Hl & _) _]; [lia|].
  exists pw, g'. split; assumption.
Defined.

(** *** Dictionaries *)

Lemma dict_has_get k d : dict_has k d = true <-> exists v, dict_get k d = Some v.
Proof.
  induction d as [|[k' v'] d IH]; simpl.
  - split; [discriminate | intros [? [=]]].
  - destruct (String.eqb k' k); simpl; [split; eauto | exact IH].
Qed.

Lemma dict_has_false k d : dict_has k d = false <-> dict_get k d = None.
Proof.
  induction d as [|[k' v'] d IH]; simpl; [done|].
  destruct (String.eqb k' k); simpl; [split; discriminate | exact IH].
Qed.

Lemma dict_get_set_eq k v d : dict_get k (dict_set k v d) = Some v.
Proof.
  induction d as [|[k' v'] d IH]; simpl.
  - by rewrite String.eqb_refl.
  - destruct (String.eqb k' k) eqn:E; simpl; rewrite E; [done | exact IH].
Qed.

Lemma dict_get_set_ne k k' v d : k <> k' -> dict_get k' (dict_set k v d) = dict_get k' d.
Proof.
  intros Hne. induction d as [|[k1 v1] d IH]; simpl.
  - destruct (String.eqb_spec k k'); [contradiction | done].
  - destruct (String.eqb_spec k1 k) as [->|]; simpl.
    + destruct (String.eqb_spec k k'); [contradiction | done].
    + destruct (String.eqb k1 k'); [done | exact IH].
Qed.

Lemma dict_get_set k k' v d :
  dict_get k' (dict_set k v d) = if String.eqb k k' then Some v else dict_get k' d.
Proof.
  destruct (String.eqb_spec k k') as [->|Hne].
  - apply dict_get_set_eq.
  - by apply dict_get_set_ne.
Qed.

Lemma dict_get_set_default k k' v d :
  dict_get k' (set_default k v d)
  = match dict_get k' d with
    | Some x => Some x
    | None => if String.eqb k k' then Some v else None
    end.
Proof.
  unfold set_default. destruct (dict_has k d) eqn:E.
  - apply dict_has_get in E as [x Hx].
    destruct (dict_get k' d) eqn:E'; [done|].
    destruct (String.eqb_spec k k') as [->|]; [congruence | done].
  - apply dict_has_false in E. rewrite dict_get_set.
    destruct (String.eqb_spec k k') as [->|]; [by rewrite E|].
    by destruct (dict_get k' d).
Qed.

(** C7.  The code at three inputs: the example of the specification is
    masked as stated and a line without a credential label is kept, but
    on the two lines [Password:] and [hello] the white space after the
    separator runs over the line end, and the second line, which has no
    credential label, is replaced by the marker. *)
Theorem C7_mask_runs_over_line_end :
  mask_sensitive_data "Password: hunter2" = "Password: ●●●●●●●●"
  /\ mask_sensitive_data "Site: example.org" = "Site: example.org"
  /\ mask_sensitive_data ("Password:" ++ String LF "hello")
     = "Password:" ++ String LF "●●●●●●●●".
Proof. repeat split; vm_compute; reflexivity. Qed.

(** C4.  The code at three [.json] imports: a file whose top-level value
    is an object makes [import_from_file] end without a result (Python's
    [None]), where the claim asks for an empty list and a message; a file
    that does not parse and a missing file give the empty list with a
    message. *)
Theorem C4_import_json_object_returns_none :
  import_from_file {| save_file := SAVE_FILE |} "notes.json"
    {[ "notes.json" := File (Json.dumps (JObj [("text", JStr "a")])) true true ]} = None
  /\ import_from_file {| save_file := SAVE_FILE |} "notes.json"
       {[ "notes.json" := File "[1, " true true ]}
     = Some ([], "Import error: Expecting value")
  /\ import_from_file {| save_file := SAVE_FILE |} "notes.json" ∅
     = Some ([], "Import error: [Errno 2] No such file or directory: 'notes.json'").
Proof. repeat split; vm_compute; reflexivity. Qed.

Lemma rstrip_empty s : rstrip s = "" <-> all_space s = true.
Proof.
  destruct s as [|c s]; [done|]. cbn [rstrip].
  destruct (all_space (String c s)); [done|]. split; discriminate.
Qed.

Lemma all_space_lstrip s : all_space (lstrip s) = all_space s.
Proof.
  induction s as [|c s IH]; [done|]. cbn [lstrip all_space].
  destruct (is_space c) eqn:E; [exact IH|]. cbn [all_space]. by rewrite E.
Qed.

Lemma strip_empty s : strip s = "" <-> all_space s = true.
Proof. unfold strip. by rewrite rstrip_empty, all_space_lstrip. Qed.

Lemma import_lines_spec lines :
  import_lines lines
  = map (fun l => plain_snippet (strip l)) (List.filter (fun l => negb (is_blank l)) lines).
Proof.
  induction lines as [|l lines IH]; [done|]. cbn [import_lines List.filter].
  unfold is_blank at 1. destruct (negb (String.eqb (strip l) "")); cbn; by rewrite IH.
Qed.

(** C9.  Importing a readable file whose extension is not [.json] reads it
    line by line: the result has one snippet for each line that is not
    blank, in order, with the stripped line as text, empty label, empty
    tags and both flags false, and the message counts them; a line is
    blank exactly when it consists of white space only, and no snippet
    has an empty text. *)
Theorem C9_import_text_lines (self : SnippetDatabase) (file_path : string)
    (fs : filesystem) (f : file) :
  lower (splitext_ext file_path) <> ".json" ->
  fs !! file_path = Some f ->
  f_readable f = true ->
  let lines := readlines (universal_newlines (f_text f)) in
  let kept := List.filter (fun l => negb (is_blank l)) lines in
  import_from_file self file_path fs
  = Some (map (fun l =>
                 JObj [("text", JStr (strip l)); ("label", JStr ""); ("tags", JArr []);
                       ("is_markdown", JBool false); ("is_template", JBool false)])
              kept,
          "Imported " ++ str_nat (length kept) ++ " snippets from text file")
  /\ (forall l, is_blank l = true <-> all_space l = true)
  /\ Forall (fun l => strip l <> "") kept.
Proof.
  intros Hext Hf Hr lines kept. split; [|split].
  - unfold import_from_file, read_file.
    destruct (String.eqb_spec (lower (splitext_ext file_path)) ".json"); [contradiction|].
    rewrite Hf, Hr. fold lines. rewrite import_lines_spec. fold kept.
    by rewrite length_map.
  - intros l. unfold is_blank. rewrite <- strip_empty.
    destruct (String.eqb_spec (strip l) ""); split; congruence.
  - unfold kept. apply List.Forall_forall. intros l Hl.
    apply List.filter_In in Hl as [_ Hl].
    unfold is_blank in Hl. by destruct (String.eqb_spec (strip l) "").
Qed.

(** C9 on a file of three lines, the middle one blank. *)
Lemma C9_witness :
  lower (splitext_ext "notes.txt") <> ".json"
  /\ import_from_file {| save_file := SAVE_FILE |} "notes.txt" fs_txt
     = Some ([JObj [("text", JStr "alpha"); ("label", JStr ""); ("tags", JArr []);
                    ("is_markdown", JBool false); ("is_template", JBool false)];
              JObj [("text", JStr "beta"); ("label", JStr ""); ("tags", JArr []);
                    ("is_markdown", JBool false); ("is_template", JBool false)]],
             "Imported 2 snippets from text file").
Proof.
  split; [vm_compute; discriminate|].
  refine (proj1 (C9_import_text_lines {| save_file := SAVE_FILE |} "notes.txt" fs_txt
             (File ("alpha" ++ String LF (String LF "  beta  ")) true true) _ _ _)).
  - vm_compute; discriminate.
  - vm_compute; reflexivity.
  - reflexivity.
Defined.

(** *** Loading and saving *)

Lemma load_fixup_obj j r : load_fixup j = Some r -> is_obj r = true.
Proof. destruct j; simpl; intros [= <-]; reflexivity. Qed.

Lemma load_loop_obj l : Forall (fun j => is_obj j = true) (load_loop l).
Proof.
  induction l as [|j l IH]; simpl; [constructor|].
  destruct (load_fixup j) eqn:E; [|exact IH].
  constructor; [by eapply load_fixup_obj | exact IH].
Qed.

Lemma load_snippets_obj self fs :
  Forall (fun j => is_obj j = true) (fst (load_snippets self fs)).
Proof.
  unfold load_snippets.
  destruct (negb (path_exists (save_file self) fs)).
  { simpl. repeat constructor. }
  destruct (read_file (save_file self) fs) as [text|e]; [|constructor].
  destruct (Json.loads text) as [[| | | |l|]|[]]; try constructor.
  destruct l; [constructor|]. apply load_loop_obj.
Qed.

Lemma save_loop_obj l :
  Forall (fun j => is_obj j = true) l ->
  exists l', save_loop l = Ok l' /\ length l' = length l
             /\ Forall (fun j => is_obj j = true) l'.
Proof.
  induction 1 as [|j l Hj _ (l' & IH & Hlen & Hobj)]; simpl.
  - exists []. by repeat split.
  - destruct j; try discriminate. simpl. rewrite IH.
    eexists. split; [reflexivity|]. split; [simpl; congruence|].
    constructor; [reflexivity | exact Hobj].
Qed.

Lemma save_snippets_obj self l fs :
  Forall (fun j => is_obj j = true) l ->
  exists fs' m, save_snippets self l fs = (fs', (can_write (save_file self) fs, m)).
Proof.
  intros (l' & Hl' & _)%save_loop_obj. unfold save_snippets, write_file, can_write.
  rewrite Hl'. destruct (fs !! save_file self) as [f|]; [|eauto].
  destruct (f_writable f); eauto.
Qed.

(** *** Bulk operations *)

Lemma update_items_obj upd : forall d, exists d', update_items upd (JObj d) = Ok (JObj d').
Proof.
  induction upd as [|[k v] upd IH]; intros d; simpl; [eauto|]. apply IH.
Qed.

Lemma update_loop_count upd n : forall ids snippets c,
  length snippets = n ->
  Forall (fun j => is_obj j = true) snippets ->
  exists snippets',
    update_loop ids upd snippets c
    = Ok (snippets', (c + length (List.filter (in_bounds n) ids))%nat)
    /\ length snippets' = n
    /\ Forall (fun j => is_obj j = true) snippets'.
Proof.
  induction ids as [|idx ids IH]; intros snippets c Hn Hobj; simpl.
  - exists snippets. by rewrite Nat.add_0_r.
  - unfold in_range. rewrite Hn. fold (in_bounds n idx).
    destruct (in_bounds n idx) eqn:Hin.
    + unfold in_bounds in Hin. apply andb_prop in Hin as [H0 H1].
      apply Z.leb_le in H0. apply Z.ltb_lt in H1.
      destruct (lookup_lt_is_Some_2 snippets (Z.to_nat idx)) as [s Hs]; [lia|].
      rewrite Hs.
      assert (is_obj s = true) as Hso.
      { eapply (proj1 (List.Forall_forall _ _) Hobj). eapply list_elem_of_In, list_elem_of_lookup_2, Hs. }
      destruct s as [| | | | |d]; try discriminate.
      destruct (update_items_obj upd d) as [d' ->].
      destruct (IH (<[Z.to_nat idx := JObj d']> snippets) (S c)) as (r & -> & Hr & Hro).
      { by rewrite length_insert. }
      { apply Forall_insert; [exact Hobj | reflexivity]. }
      exists r. simpl. split; [f_equal; f_equal; lia | done].
    + apply IH; assumption.
Qed.

Lemma filter_none n ids :
  Forall (fun i => in_bounds n i = false) ids -> List.filter (in_bounds n) ids = [].
Proof.
  induction 1 as [|i ids Hi _ IH]; simpl; [done|]. by rewrite Hi.
Qed.

Lemma delete_loop_none ids : forall snippets c,
  Forall (fun i => in_range i snippets = false) ids ->
  delete_loop ids snippets c = (snippets, c).
Proof.
  induction ids as [|i ids IH]; intros snippets c H; simpl; [done|].
  inversion H as [|? ? Hi Hrest]; subst. rewrite Hi. by apply IH.
Qed.

Lemma elem_of_indices_to_delete ids i : i ∈ indices_to_delete ids <-> i ∈ ids.
Proof.
  unfold indices_to_delete. rewrite merge_sort_Permutation, elem_of_elements.
  apply elem_of_list_to_set.
Qed.

(** C10.  When the loaded store is empty or every requested index is out
    of range, the bulk update and the bulk delete both return a failure
    and the file system is the one they were given. *)
Theorem C10_failed_bulk_leaves_file (self : SnippetDatabase) (fs : filesystem)
    (snippet_ids : list Z) (update_data : dict) :
  fst (load_snippets self fs) = []
  \/ Forall (fun i => in_range i (fst (load_snippets self fs)) = false) snippet_ids ->
  (exists msg, bulk_update_snippets self snippet_ids update_data fs = (fs, (false, msg)))
  /\ (exists msg, bulk_delete_snippets self snippet_ids fs = (fs, (false, msg))).
Proof.
  pose proof (load_snippets_obj self fs) as Hobj.
  unfold bulk_update_snippets, bulk_delete_snippets.
  destruct (load_snippets self fs) as [snippets m]. cbn [fst] in *.
  intros [-> | Hout]; [split; eauto|].
  destruct snippets as [|s0 snippets]; [split; eauto|].
  split.
  - destruct (update_loop_count update_data (length (s0 :: snippets)) snippet_ids
                (s0 :: snippets) 0 eq_refl Hobj) as (r & -> & _).
    rewrite filter_none; [simpl; eauto|exact Hout].
  - rewrite delete_loop_none; [simpl; eauto|].
    apply List.Forall_forall. intros i Hi.
    apply (proj2 (list_elem_of_In _ _)) in Hi.
    apply (proj1 (elem_of_indices_to_delete _ _)) in Hi.
    apply (proj1 (list_elem_of_In _ _)) in Hi.
    exact (proj1 (List.Forall_forall _ _) Hout i Hi).
Qed.

(** C10 on a store of three snippets and the indices 5 and -1. *)
Lemma C10_witness :
  (exists msg, bulk_update_snippets db0 [5; -1]%Z [("label", JStr "x")] fs_three
               = (fs_three, (false, msg)))
  /\ (exists msg, bulk_delete_snippets db0 [5; -1]%Z fs_three = (fs_three, (false, msg))).
Proof.
  apply (C10_failed_bulk_leaves_file db0 fs_three [5; -1]%Z [("label", JStr "x")]).
  right. vm_compute. repeat constructor.
Defined.

(** C5 as stated fails on a store of length 0: every index is out of
    range there, and the diagnostic is the one of the guard on the empty
    store. *)
Lemma C5_counterexample :
  bulk_update_snippets db0 [5%Z] [("label", JStr "x")]
    {[ SAVE_FILE := File "[]" true true ]}
  = ({[ SAVE_FILE := File "[]" true true ]}, (false, "No snippets to update"))
  /\ "No snippets to update" <> "No snippets were updated".
Proof. split; [vm_compute; reflexivity | discriminate]. Qed.

(** C5, amended.  On an empty loaded store the bulk update fails with the
    diagnostic of the empty store.  On a store that is not empty: when
    every index is out of range it updates nothing, leaves the file
    system alone and fails with the no-snippets-were-updated diagnostic;
    when some index is in range it reports the number of requested
    indices in range, provided the store file can be written, and a
    failure to save otherwise. *)
Theorem C5_bulk_update_count (self : SnippetDatabase) (fs : filesystem)
    (snippet_ids : list Z) (update_data : dict) :
  let snippets := fst (load_snippets self fs) in
  let updated := length (List.filter (fun i => in_range i snippets) snippet_ids) in
  (snippets = [] ->
   bulk_update_snippets self snippet_ids update_data fs
   = (fs, (false, "No snippets to update")))
  /\ (snippets <> [] ->
      Forall (fun i => in_range i snippets = false) snippet_ids ->
      updated = 0%nat
      /\ bulk_update_snippets self snippet_ids update_data fs
         = (fs, (false, "No snippets were updated")))
  /\ (snippets <> [] ->
      Exists (fun i => in_range i snippets = true) snippet_ids ->
      snd (bulk_update_snippets self snippet_ids update_data fs)
      = if can_write (save_file self) fs
        then (true, "Updated " ++ str_nat updated ++ " snippets")
        else (false, "Failed to save updates")).
Proof.
  pose proof (load_snippets_obj self fs) as Hobj.
  unfold bulk_update_snippets.
  destruct (load_snippets self fs) as [snippets m]. cbn [fst] in *.
  split; [by intros ->|].
  destruct snippets as [|s0 snippets]; [split; intros []; done|].
  destruct (update_loop_count update_data (length (s0 :: snippets)) snippet_ids
              (s0 :: snippets) 0 eq_refl Hobj) as (r & -> & Hlen & Hr).
  change (fun i => in_range i (s0 :: snippets)) with (in_bounds (length (s0 :: snippets))).
  split; intros _ H.
  - rewrite filter_none; [done | exact H].
  - destruct (List.filter _ snippet_ids) as [|i l] eqn:E.
    + exfalso. apply List.Exists_exists in H as (i & Hi & Hr').
      assert (In i (List.filter (in_bounds (length (s0 :: snippets))) snippet_ids)) as Hin
        by (apply List.filter_In; split; assumption).
      rewrite E in Hin. destruct Hin.
    + simpl length. simpl Nat.ltb.
      destruct (save_snippets_obj self r fs Hr) as (fs' & m' & ->).
      by destruct (can_write (save_file self) fs).
Qed.

(** C5 on a store of three snippets. *)
Lemma C5_witness :
  fst (load_snippets db0 fs_three) <> []
  /\ Forall (fun i => in_range i (fst (load_snippets db0 fs_three)) = false) [5%Z]
  /\ bulk_update_snippets db0 [5%Z] [("label", JStr "x")] fs_three
     = (fs_three, (false, "No snippets were updated"))
  /\ snd (bulk_update_snippets db0 [0; 5; 2; 0]%Z [("label", JStr "x")] fs_three)
     = (true, "Updated 3 snippets").
Proof.
  assert (fst (load_snippets db0 fs_three) <> []) as Hne by (vm_compute; discriminate).
  assert (Forall (fun i => in_range i (fst (load_snippets db0 fs_three)) = false) [5%Z])
    as Hout by (vm_compute; repeat constructor).
  split; [exact Hne|]. split; [exact Hout|]. split.
  - exact (proj2 (proj1 (proj2 (C5_bulk_update_count db0 fs_three [5%Z] [("label", JStr "x")]))
                    Hne Hout)).
  - refine (proj2 (proj2 (C5_bulk_update_count db0 fs_three [0; 5; 2; 0]%Z
                            [("label", JStr "x")])) Hne _).
    vm_compute. constructor. reflexivity.
Defined.






(** C2 as stated fails: the types of fields that are present are not
    checked (a number as text stays on load, a string as flag stays on
    save), and saving does not add a missing text or label. *)
Lemma C2_counterexample :
  load_fixup (JObj [("text", JInt 5)])
  = Some (JObj [("text", JInt 5); ("label", JStr ""); ("tags", JArr []);
                ("is_markdown", JBool false); ("is_template", JBool false)])
  /\ canonical_fields
       (JObj [("text", JInt 5); ("label", JStr ""); ("tags", JArr []);
              ("is_markdown", JBool false); ("is_template", JBool false)]) = false
  /\ save_fixup (JObj [("is_markdown", JStr "yes")])
     = Ok (JObj [("is_markdown", JStr "yes"); ("tags", JArr []);
                 ("is_template", JBool false)])
  /\ canonical_fields
       (JObj [("is_markdown", JStr "yes"); ("tags", JArr []);
              ("is_template", JBool false)]) = false.
Proof. repeat split. Qed.

(** C2, amended.  On load, a mapping keeps every key it has and gets each
    missing canonical field with its default, so the five fields are
    present; a bare string becomes the full canonical record.  On save,
    a mapping keeps its keys, its tags are a sequence (the empty one
    when they were absent or not a sequence), and both flags are
    present. *)
Theorem C2_normalization (d : dict) (s : string) :
  (exists d',
     load_fixup (JObj d) = Some (JObj d')
     /\ (forall k, dict_get k d'
                   = match dict_get k d with
                     | Some v => Some v
                     | None => dict_get k defaults
                     end)
     /\ Forall (fun kv => dict_has (fst kv) d' = true) defaults)
  /\ (load_fixup (JStr s) = Some (plain_snippet s)
      /\ canonical_fields (plain_snippet s) = true)
  /\ (exists d',
        save_fixup (JObj d) = Ok (JObj d')
        /\ field_is is_seq "tags" d' = true
        /\ (field_is is_seq "tags" d = false -> dict_get "tags" d' = Some (JArr []))
        /\ dict_has "is_markdown" d' = true
        /\ dict_has "is_template" d' = true
        /\ (forall k, dict_has k d = true -> dict_has k d' = true)).
Proof.
  split; [|split].
  - eexists. split; [reflexivity|].
    assert (forall k,
      dict_get k
        (set_default "is_template" (JBool false)
           (set_default "is_markdown" (JBool false)
              (set_default "tags" (JArr [])
                 (set_default "label" (JStr "") (set_default "text" (JStr "") d)))))
      = match dict_get k d with
        | Some v => Some v
        | None => dict_get k defaults
        end) as Hget.
    { intros k. rewrite !dict_get_set_default. destruct (dict_get k d); [done|].
      unfold defaults. cbn [dict_get].
      destruct (String.eqb "text" k); [done|]. destruct (String.eqb "label" k); [done|].
      destruct (String.eqb "tags" k); [done|]. destruct (String.eqb "is_markdown" k); [done|].
      by destruct (String.eqb "is_template" k). }
    split; [exact Hget|].
    unfold defaults.
    repeat constructor; cbn [fst]; apply dict_has_get; rewrite Hget;
      destruct (dict_get _ d); eauto.
  - split; reflexivity.
  - set (d1 := if is_list (dict_get "tags" d) then d else dict_set "tags" (JArr []) d).
    exists (set_default "is_template" (JBool false)
              (set_default "is_markdown" (JBool false) d1)).
    split; [reflexivity|].
    assert (forall k, dict_has k d = true -> dict_has k d1 = true) as Hkeep.
    { intros k Hk. unfold d1. destruct (is_list (dict_get "tags" d)); [done|].
      apply dict_has_get. rewrite dict_get_set. destruct (String.eqb "tags" k); [eauto|].
      by apply dict_has_get. }
    assert (forall k v d0, dict_has k d0 = true -> dict_has k (set_default "is_template" v d0) = true) as Hk1.
    { intros k v d0 [x Hx]%dict_has_get. apply dict_has_get.
      rewrite dict_get_set_default, Hx. eauto. }
    assert (forall k v d0, dict_has k d0 = true -> dict_has k (set_default "is_markdown" v d0) = true) as Hk2.
    { intros k v d0 [x Hx]%dict_has_get. apply dict_has_get.
      rewrite dict_get_set_default, Hx. eauto. }
    assert (dict_get "tags" d1
            = if is_list (dict_get "tags" d) then dict_get "tags" d else Some (JArr [])) as Ht.
    { unfold d1. destruct (is_list (dict_get "tags" d)); [done | apply dict_get_set_eq]. }
    assert (forall d0, dict_get "tags"
              (set_default "is_template" (JBool false)
                 (set_default "is_markdown" (JBool false) d0)) = dict_get "tags" d0) as Hsame.
    { intros d0. rewrite !dict_get_set_default. by destruct (dict_get "tags" d0). }
    repeat split.
    + unfold field_is. rewrite Hsame, Ht.
      destruct (dict_get "tags" d) as [[]|]; reflexivity.
    + intros Hno. rewrite Hsame, Ht. unfold field_is in Hno.
      destruct (dict_get "tags" d) as [[]|]; try reflexivity. discriminate.
    + apply Hk1. apply dict_has_get. rewrite dict_get_set_default.
      destruct (dict_get "is_markdown" d1); eauto.
    + apply dict_has_get. rewrite dict_get_set_default.
      destruct (dict_get "is_template" _); eauto.
    + intros k Hk. apply Hk1, Hk2, Hkeep, Hk.
Qed.

Module JsonFacts.
Import Json.

Lemma unique_keys_arr l : unique_keys (JArr l) <-> Forall unique_keys l.
Proof.
  induction l as [|x l IH].
  - split; [constructor | done].
  - split.
    + intros [Hx Hl]. constructor; [exact Hx | by apply IH].
    + intros H. inversion H; subst. split; [done | by apply IH].
Qed.

Lemma unique_keys_obj d :
  unique_keys (JObj d) <-> NoDup (map fst d) /\ Forall (fun kv => unique_keys (snd kv)) d.
Proof.
  cbn [unique_keys]. apply and_iff_compat_l.
  induction d as [|[k v] d IH].
  - split; [constructor | done].
  - split.
    + intros [Hx Hl]. constructor; [exact Hx | by apply IH].
    + intros H. inversion H; subst. split; [done | by apply IH].
Qed.

Lemma length_append (a b : string) :
  String.length (a ++ b) = (String.length a + String.length b)%nat.
Proof. induction a as [|c a IH]; simpl; [done | by rewrite IH]. Qed.

Lemma append_assoc (a b c : string) : (a ++ b) ++ c = a ++ (b ++ c).
Proof. induction a as [|x a IH]; [done|]. change (String x ((a ++ b) ++ c) = String x (a ++ (b ++ c))). by rewrite IH. Qed.

(** *** Integers *)

Lemma string_of_uint_digits d : all_digits (NilEmpty.string_of_uint d) = true.
Proof. induction d; simpl; auto. Qed.

Lemma span_digits_app ds rest :
  all_digits ds = true -> no_digit_ahead rest -> span_digits (ds ++ rest) = (ds, rest).
Proof.
  intros Hds Hrest. induction ds as [|c ds IH]; simpl in *.
  - destruct rest as [|c r]; [done|]. simpl in *. by rewrite Hrest.
  - apply andb_prop in Hds as [-> Hds]. by rewrite IH.
Qed.

Lemma to_uint_normal n : Decimal.unorm (N.to_uint n) = N.to_uint n.
Proof. by rewrite <- Unsigned.to_of, Unsigned.of_to. Qed.

Lemma normal_string d :
  Decimal.unorm d = d ->
  NilZero.string_of_uint d = NilEmpty.string_of_uint d
  /\ String.eqb (NilEmpty.string_of_uint d) "" = false
  /\ leading_zero (NilEmpty.string_of_uint d) = false.
Proof.
  intros Hd.
  assert (d <> Decimal.Nil) as Hnil by (rewrite <- Hd; apply unorm_nonnil).
  split; [by destruct d|]. split; [by destruct d|].
  destruct d as [|d'| | | | | | | | |]; try (by destruct d); try done.
  (* d = D0 d' *)
  assert (d' = Decimal.Nil) as ->; [|done].
  unfold Decimal.unorm in Hd. destruct (Decimal.nzhead (Decimal.D0 d')) eqn:E; try congruence.
  exfalso. eapply nzhead_nonzero. rewrite E, Hd. reflexivity.
Qed.

Lemma closes_no_digit rest : closes rest -> no_digit_ahead rest.
Proof. destruct rest as [|c r]; [done|]. by intros [-> | [-> | ->]]. Qed.

Lemma closes_no_fraction rest : closes rest -> starts_fraction rest = false.
Proof. destruct rest as [|c r]; [done|]. by intros [-> | [-> | ->]]. Qed.

Lemma parse_nat_str n rest :
  closes rest ->
  parse_nat (NilZero.string_of_uint (N.to_uint n) ++ rest) = Some (n, rest).
Proof.
  intros Hrest. unfold parse_nat.
  destruct (normal_string _ (to_uint_normal n)) as (E1 & E2 & E3).
  rewrite E1, span_digits_app;
    [|apply string_of_uint_digits | by apply closes_no_digit].
  rewrite E2, E3, closes_no_fraction by done. cbn [orb].
  rewrite <- E1, NilZero.usu; [by rewrite Unsigned.of_to|].
  rewrite <- to_uint_normal. apply unorm_nonnil.
Qed.

Lemma digit_not_minus c : is_digit c = true -> Ascii.eqb "-" c = false.
Proof. destruct c as [[] [] [] [] [] [] [] []]; (discriminate || reflexivity). Qed.

Lemma digits_no_minus ds rest :
  all_digits ds = true -> String.eqb ds "" = false -> starts_with "-" (ds ++ rest) = None.
Proof.
  destruct ds as [|c ds]; [done|]. cbn [all_digits]. intros [Hc _]%andb_prop _.
  change (starts_with "-" (String c (ds ++ rest)) = None).
  unfold starts_with. by rewrite digit_not_minus.
Qed.

Lemma str_nat_no_minus n rest :
  starts_with "-" (NilZero.string_of_uint (N.to_uint n) ++ rest) = None.
Proof.
  destruct (normal_string _ (to_uint_normal n)) as (E1 & E2 & E3).
  rewrite E1. apply digits_no_minus; [apply string_of_uint_digits | done].
Qed.

Lemma parse_int_str z rest :
  closes rest -> parse_int (str_Z z ++ rest) = Some (JInt z, rest).
Proof.
  intros Hrest. unfold parse_int. destruct z as [|p|p]; cbn [str_Z].
  - change "0" with (NilZero.string_of_uint (N.to_uint 0)).
    by rewrite str_nat_no_minus, parse_nat_str.
  - by rewrite str_nat_no_minus, parse_nat_str.
  - change (starts_with "-" (String "-" (NilZero.string_of_uint (N.to_uint (N.pos p))) ++ rest))
      with (Some (NilZero.string_of_uint (N.to_uint (N.pos p)) ++ rest)).
    cbv beta iota. by rewrite parse_nat_str.
Qed.

(** *** String literals *)

Lemma parse_chars_escape_char c rest :
  parse_chars (escape_char c ++ rest)
  = match parse_chars rest with
    | Some (t, r) => Some (String c t, r)
    | None => None
    end.
Proof. destruct c as [[] [] [] [] [] [] [] []]; reflexivity. Qed.

Lemma parse_chars_escape s rest :
  parse_chars (escape s ++ String "034" rest) = Some (s, rest).
Proof.
  induction s as [|c s IH]; [reflexivity|].
  change (escape (String c s)) with (escape_char c ++ escape s).
  by rewrite append_assoc, parse_chars_escape_char, IH.
Qed.

Lemma quote_append s rest : quote s ++ rest = String "034" (escape s ++ String "034" rest).
Proof.
  unfold quote.
  change (String "034" (escape s ++ String "034" "") ++ rest)
    with (String "034" ((escape s ++ String "034" "") ++ rest)).
  by rewrite append_assoc.
Qed.

(** *** Values *)

Lemma value_start_facts c :
  value_start c = true ->
  is_ws c = false /\ Ascii.eqb "]" c = false /\ Ascii.eqb "}" c = false.
Proof. destruct c as [[] [] [] [] [] [] [] []]; (discriminate || done). Qed.

Lemma number_start_facts c :
  is_digit c || Ascii.eqb c "-" = true -> is_ws c = false.
Proof. destruct c as [[] [] [] [] [] [] [] []]; (discriminate || done). Qed.

Lemma str_nat_start n :
  exists c t, NilZero.string_of_uint (N.to_uint n) = String c t /\ is_digit c = true.
Proof.
  destruct (normal_string _ (to_uint_normal n)) as (E1 & E2 & _).
  pose proof (string_of_uint_digits (N.to_uint n)) as Hd.
  rewrite E1. destruct (NilEmpty.string_of_uint (N.to_uint n)) as [|c t]; [done|].
  apply andb_prop in Hd as [Hc _]. eauto.
Qed.

Lemma str_Z_start z :
  exists c t, str_Z z = String c t /\ is_digit c || Ascii.eqb c "-" = true.
Proof.
  destruct z as [|p|p]; cbn [str_Z].
  - by exists "0"%char, "".
  - destruct (str_nat_start (Npos p)) as (c & t & -> & Hc). exists c, t. by rewrite Hc.
  - by eexists _, _.
Qed.

Lemma dumps_arr_cons x xs :
  dumps (JArr (x :: xs)) = String "[" (dumps x ++ array_tail xs).
Proof. reflexivity. Qed.

Lemma dumps_obj_cons k x d :
  dumps (JObj ((k, x) :: d)) = String "{" (quote k ++ ": " ++ dumps x ++ object_tail d).
Proof. reflexivity. Qed.

Lemma dumps_start j : exists c t, dumps j = String c t /\ value_start c = true.
Proof.
  destruct j as [|[]|z|s|[|x xs]|[|[k x] d]]; try (by eexists _, _).
  destruct (str_Z_start z) as (c & t & E & Hc). exists c, t. split; [exact E|].
  unfold value_start. destruct (is_digit c); [done|]. simpl in Hc.
  destruct (Ascii.eqb_spec c "-"); [by subst | done].
Qed.

Lemma skip_ws_dumps j rest : skip_ws (dumps j ++ rest) = dumps j ++ rest.
Proof.
  destruct (dumps_start j) as (c & t & -> & Hc).
  apply value_start_facts in Hc as (Hws & _).
  change (skip_ws (String c (t ++ rest)) = String c (t ++ rest)).
  cbn [skip_ws]. by rewrite Hws.
Qed.

Lemma not_closing_dumps c j rest :
  c = "]"%char \/ c = "}"%char -> starts_with c (dumps j ++ rest) = None.
Proof.
  destruct (dumps_start j) as (c' & t & -> & Hc).
  apply value_start_facts in Hc as (_ & H1 & H2).
  change (String c' t ++ rest) with (String c' (t ++ rest)). unfold starts_with.
  by intros [-> | ->]; [rewrite H1 | rewrite H2].
Qed.

Lemma pv_skip fuel s : parse_value fuel (String " " s) = parse_value fuel s.
Proof. by destruct fuel. Qed.

Lemma pe_eq f s :
  parse_elems (S f) s
  = match parse_value f s with
    | None => None
    | Some (v, r) =>
        match skip_ws r with
        | String "," r' =>
            match parse_elems f r' with
            | Some (l, r'') => Some (v :: l, r'')
            | None => None
            end
        | String "]" r' => Some ([v], r')
        | _ => None
        end
    end.
Proof. reflexivity. Qed.

Lemma pe_skip fuel s : parse_elems fuel (String " " s) = parse_elems fuel s.
Proof. destruct fuel; [done|]. by rewrite !pe_eq, pv_skip. Qed.

Lemma pm_skip fuel s : parse_members fuel (String " " s) = parse_members fuel s.
Proof. by destruct fuel. Qed.

Lemma pm_quote f r :
  parse_members (S f) (String "034" r)
  = match parse_chars r with
    | None => None
    | Some (k, r1) =>
        match skip_ws r1 with
        | String ":" r2 =>
            match parse_value f r2 with
            | None => None
            | Some (v, r3) =>
                match skip_ws r3 with
                | String "," r4 =>
                    match parse_members f r4 with
                    | Some (kvs, r5) => Some ((k, v) :: kvs, r5)
                    | None => None
                    end
                | String "}" r4 => Some ([(k, v)], r4)
                | _ => None
                end
            end
        | _ => None
        end
    end.
Proof. reflexivity. Qed.

Lemma pv_arr f r :
  parse_value (S f) (String "[" r)
  = match starts_with "]" (skip_ws r) with
    | Some r' => Some (JArr [], r')
    | None =>
        match parse_elems f r with
        | Some (l, r') => Some (JArr l, r')
        | None => None
        end
    end.
Proof. reflexivity. Qed.

Lemma pv_obj f r :
  parse_value (S f) (String "{" r)
  = match starts_with "}" (skip_ws r) with
    | Some r' => Some (JObj [], r')
    | None =>
        match parse_members f r with
        | Some (kvs, r') => Some (JObj (dict_of_pairs kvs), r')
        | None => None
        end
    end.
Proof. reflexivity. Qed.

Lemma pv_str f r :
  parse_value (S f) (String "034" r)
  = match parse_chars r with
    | Some (t, r') => Some (JStr t, r')
    | None => None
    end.
Proof. reflexivity. Qed.

Lemma pv_num f c t :
  is_digit c || Ascii.eqb c "-" = true ->
  parse_value (S f) (String c t) = parse_int (String c t).
Proof.
  intros Hc. pose proof (number_start_facts c Hc) as Hws.
  cbn [parse_value skip_ws]. by rewrite Hws, Hc.
Qed.

Lemma skip_ws_comma r : skip_ws (String "," r) = String "," r.
Proof. reflexivity. Qed.

Lemma closes_array_tail xs rest : closes (array_tail xs ++ rest).
Proof. destruct xs; simpl; auto. Qed.

Lemma closes_object_tail d rest : closes (object_tail d ++ rest).
Proof. destruct d as [|[k v] d]; simpl; auto. Qed.

Lemma parse_elems_dumps xs : forall x f rest,
  Forall reads_back (x :: xs) ->
  (list_sum (map (fun y => S (json_size y)) (x :: xs)) <= f)%nat ->
  parse_elems f (dumps x ++ array_tail xs ++ rest) = Some (x :: xs, rest).
Proof.
  induction xs as [|y ys IH]; intros x f rest Hall Hf;
    inversion Hall as [|? ? Hx Hrest]; subst;
    (destruct f as [|f]; [simpl in Hf; lia|]); rewrite pe_eq.
  - rewrite Hx; [reflexivity | simpl in Hf; lia | apply (closes_array_tail [])].
  - rewrite Hx; [|simpl in Hf |- *; lia | apply closes_array_tail].
    change (array_tail (y :: ys) ++ rest)
      with (String "," (String " " ((dumps y ++ array_tail ys) ++ rest))).
    rewrite skip_ws_comma. cbv beta iota.
    rewrite append_assoc, pe_skip, IH; [reflexivity | exact Hrest | simpl in Hf |- *; lia].
Qed.

Lemma skip_ws_colon r : skip_ws (String ":" r) = String ":" r.
Proof. reflexivity. Qed.

Lemma parse_members_dumps d : forall k x f rest,
  Forall (fun kv => reads_back (snd kv)) ((k, x) :: d) ->
  (list_sum (map (fun kv => S (json_size (snd kv))) ((k, x) :: d)) <= f)%nat ->
  parse_members f (quote k ++ ": " ++ dumps x ++ object_tail d ++ rest)
  = Some ((k, x) :: d, rest).
Proof.
  induction d as [|[k' y] d IH]; intros k x f rest Hall Hf;
    inversion Hall as [|? ? Hx Hrest]; subst; cbn [snd] in Hx;
    (destruct f as [|f]; [simpl in Hf; lia|]);
    rewrite quote_append, pm_quote, parse_chars_escape;
    match goal with
    | |- context [skip_ws (": " ++ ?X)] =>
        change (": " ++ X) with (String ":" (String " " X))
    end;
    rewrite skip_ws_colon; cbv beta iota; rewrite pv_skip.
  - rewrite Hx; [reflexivity | simpl in Hf; lia | apply (closes_object_tail [])].
  - rewrite Hx; [|simpl in Hf |- *; lia | apply closes_object_tail].
    change (object_tail ((k', y) :: d) ++ rest)
      with (String "," (String " " ((quote k' ++ ": " ++ dumps y ++ object_tail d) ++ rest))).
    rewrite skip_ws_comma. cbv beta iota.
    rewrite !append_assoc, pm_skip, IH;
      [reflexivity | exact Hrest | simpl in Hf |- *; lia].
Qed.

Lemma dict_set_fresh k v (acc : dict) :
  k ∉ map fst acc -> dict_set k v acc = (acc ++ [(k, v)])%list.
Proof.
  induction acc as [|[k' v'] acc IH]; intros Hk; [done|]. cbn in *.
  apply not_elem_of_cons in Hk as [Hne Hk].
  destruct (String.eqb_spec k' k); [congruence|]. by rewrite IH.
Qed.

Lemma dict_of_pairs_fresh (kvs : list (string * json)) : forall acc : dict,
  NoDup (map fst (acc ++ kvs)%list) ->
  fold_left (fun d kv => dict_set (fst kv) (snd kv) d) kvs acc = (acc ++ kvs)%list.
Proof.
  induction kvs as [|[k v] kvs IH]; intros acc Hnd; cbn [fold_left fst snd].
  - by rewrite app_nil_r.
  - rewrite dict_set_fresh.
    + rewrite IH; rewrite <- app_assoc; [done | exact Hnd].
    + rewrite map_app in Hnd. apply NoDup_app in Hnd as (_ & Hd & _).
      intros Hin. apply (Hd k Hin). cbn. left.
Qed.

Lemma dict_of_pairs_unique d : NoDup (map fst d) -> dict_of_pairs d = d.
Proof. intros H. unfold dict_of_pairs. by rewrite dict_of_pairs_fresh. Qed.

Lemma append_nil_r (s : string) : s ++ "" = s.
Proof. induction s as [|c s IH]; [done|]. change (String c (s ++ "") = String c s). by rewrite IH. Qed.

Lemma skip_ws_quote k rest : skip_ws (quote k ++ rest) = quote k ++ rest.
Proof. by rewrite quote_append. Qed.

Lemma not_closing_quote k rest : starts_with "}" (quote k ++ rest) = None.
Proof. by rewrite quote_append. Qed.

Theorem parse_dumps j : unique_keys j -> reads_back j.
Proof.
  induction j as [|b|z|s|l IH|d IH] using json_induction; intros Huniq fuel rest Hfuel Hrest;
    (destruct fuel as [|f]; [simpl in Hfuel; lia|]).
  - reflexivity.
  - by destruct b.
  - cbn [dumps]. destruct (str_Z_start z) as (c & t & E & Hc).
    rewrite <- (parse_int_str z rest Hrest). rewrite E.
    change (String c t ++ rest) with (String c (t ++ rest)). by apply pv_num.
  - cbn [dumps]. by rewrite quote_append, pv_str, parse_chars_escape.
  - destruct l as [|x xs]; [reflexivity|].
    rewrite dumps_arr_cons.
    change (String "[" (dumps x ++ array_tail xs) ++ rest)
      with (String "[" ((dumps x ++ array_tail xs) ++ rest)).
    rewrite append_assoc, pv_arr, skip_ws_dumps, not_closing_dumps by auto.
    rewrite parse_elems_dumps; [reflexivity | | simpl in Hfuel |- *; lia].
    apply unique_keys_arr in Huniq.
    clear -IH Huniq. induction IH as [|y ys Hy _ IHys]; [constructor|].
    inversion Huniq; subst. constructor; auto.
  - destruct d as [|[k x] d]; [reflexivity|].
    rewrite dumps_obj_cons.
    change (String "{" (quote k ++ ": " ++ dumps x ++ object_tail d) ++ rest)
      with (String "{" ((quote k ++ ": " ++ dumps x ++ object_tail d) ++ rest)).
    rewrite pv_obj, !append_assoc, skip_ws_quote, not_closing_quote.
    apply unique_keys_obj in Huniq as [Hnd Huniq].
    rewrite parse_members_dumps; [by rewrite dict_of_pairs_unique | | simpl in Hfuel |- *; lia].
    clear -IH Huniq. induction IH as [|y ys Hy _ IHys]; [constructor|].
    inversion Huniq; subst. constructor; auto.
Qed.

(** *** Enough fuel *)

Lemma array_tail_length xs :
  Forall (fun j => (json_size j <= String.length (dumps j))%nat) xs ->
  (S (list_sum (map (fun y => S (json_size y)) xs)) <= String.length (array_tail xs))%nat.
Proof.
  induction 1 as [|y ys Hy _ IH]; [simpl; lia|].
  change (array_tail (y :: ys)) with (String "," (String " " (dumps y ++ array_tail ys))).
  cbn [String.length map]. simpl list_sum. rewrite length_append. lia.
Qed.

Lemma object_tail_length d :
  Forall (fun kv => (json_size (snd kv) <= String.length (dumps (snd kv)))%nat) d ->
  (S (list_sum (map (fun kv => S (json_size (snd kv))) d)) <= String.length (object_tail d))%nat.
Proof.
  induction 1 as [|[k y] d Hy _ IH]; [simpl; lia|].
  change (object_tail ((k, y) :: d))
    with (String "," (String " " (quote k ++ ": " ++ dumps y ++ object_tail d))).
  cbn [String.length map snd] in *. simpl list_sum. rewrite !length_append. lia.
Qed.

Lemma json_size_dumps j : (json_size j <= String.length (dumps j))%nat.
Proof.
  induction j as [|b|z|s|l IH|d IH] using json_induction.
  - simpl; lia.
  - destruct b; simpl; lia.
  - cbn [dumps json_size]. destruct (str_Z_start z) as (c & t & -> & _). simpl; lia.
  - simpl; lia.
  - destruct l as [|x xs]; [simpl; lia|].
    inversion IH as [|? ? Hx Hxs]; subst.
    rewrite dumps_arr_cons. cbn [String.length json_size map]. simpl list_sum.
    rewrite length_append. pose proof (array_tail_length xs Hxs). lia.
  - destruct d as [|[k x] d]; [simpl; lia|].
    inversion IH as [|? ? Hx Hxs]; subst. cbn [snd] in Hx.
    rewrite dumps_obj_cons. cbn [String.length json_size map snd]. simpl list_sum.
    rewrite !length_append. pose proof (object_tail_length d Hxs). lia.
Qed.

Theorem loads_dumps j : unique_keys j -> loads (dumps j) = Ok j.
Proof.
  intros H. unfold loads.
  rewrite <- (append_nil_r (dumps j)) at 2.
  rewrite (parse_dumps j H); [reflexivity | | exact I].
  pose proof (json_size_dumps j). lia.
Qed.

End JsonFacts.

Import JsonFacts.

(** *** Text of a dump *)

Lemma printable_app a b : printable (a ++ b) = printable a && printable b.
Proof.
  induction a as [|c a IH]; [done|].
  change (printable (String c (a ++ b)) = printable (String c a) && printable b).
  cbn [printable]. rewrite IH. by rewrite andb_assoc.
Qed.

Lemma printable_escape s : printable (Json.escape s) = true.
Proof.
  induction s as [|c s IH]; [done|].
  change (Json.escape (String c s)) with (Json.escape_char c ++ Json.escape s).
  rewrite printable_app, IH, andb_true_r.
  by destruct c as [[] [] [] [] [] [] [] []].
Qed.

Lemma printable_quote s : printable (Json.quote s) = true.
Proof.
  unfold Json.quote. change (printable (String "034" ?x)) with (printable x).
  cbn [printable]. rewrite printable_app, printable_escape. reflexivity.
Qed.

Lemma printable_digits ds : all_digits ds = true -> printable ds = true.
Proof.
  induction ds as [|c ds IH]; [done|]. cbn [all_digits printable].
  intros [Hc Hds]%andb_prop. rewrite IH by done. rewrite andb_true_r.
  by destruct c as [[] [] [] [] [] [] [] []].
Qed.

Lemma printable_str_Z z : printable (Json.str_Z z) = true.
Proof.
  assert (forall n, printable (NilZero.string_of_uint (N.to_uint n)) = true) as Hn.
  { intros n. destruct (normal_string _ (to_uint_normal n)) as (-> & _).
    apply printable_digits, string_of_uint_digits. }
  destruct z as [|p|p]; cbn [Json.str_Z]; [done | apply Hn |].
  cbn [printable]. apply Hn.
Qed.

Lemma printable_dumps j : printable (Json.dumps j) = true.
Proof.
  induction j as [|b|z|s|l IH|d IH] using json_induction.
  - done.
  - by destruct b.
  - apply printable_str_Z.
  - apply printable_quote.
  - destruct l as [|x xs]; [done|]. inversion IH as [|? ? Hx Hxs]; subst.
    rewrite dumps_arr_cons. cbn [printable]. rewrite printable_app, Hx.
    clear -Hxs. induction Hxs as [|y ys Hy _ IHys]; [done|].
    change (Json.array_tail (y :: ys))
      with (String "," (String " " (Json.dumps y ++ Json.array_tail ys))).
    cbn [printable]. by rewrite printable_app, Hy.
  - destruct d as [|[k x] d]; [done|]. inversion IH as [|? ? Hx Hxs]; subst.
    cbn [snd] in Hx.
    rewrite dumps_obj_cons. cbn [printable].
    rewrite !printable_app, printable_quote, Hx.
    clear -Hxs. induction Hxs as [|[k y] ys Hy _ IHys]; [done|].
    change (Json.object_tail ((k, y) :: ys))
      with (String "," (String " " (Json.quote k ++ ": " ++ Json.dumps y ++ Json.object_tail ys))).
    cbn [printable snd] in *. by rewrite !printable_app, printable_quote, Hy.
Qed.

Lemma universal_newlines_printable s : printable s = true -> universal_newlines s = s.
Proof.
  induction s as [|c s IH]; [done|]. cbn [printable universal_newlines].
  intros [Hc Hs]%andb_prop. rewrite IH by done.
  destruct (Ascii.eqb_spec c CR) as [->|]; [discriminate | done].
Qed.

Lemma read_back_dumps j : unique_keys j -> Json.loads (universal_newlines (Json.dumps j)) = Ok j.
Proof.
  intros H. rewrite universal_newlines_printable by apply printable_dumps.
  by apply loads_dumps.
Qed.

(** *** Canonical snippets *)

Lemma dict_get_elem (d : dict) k v :
  NoDup (map fst d) -> (k, v) ∈ d -> dict_get k d = Some v.
Proof.
  induction d as [|[k' v'] d IH]; intros Hnd Hin; [by apply elem_of_nil in Hin|].
  cbn in *. apply NoDup_cons in Hnd as [Hk' Hnd].
  apply elem_of_cons in Hin as [[= -> ->] | Hin]; [by rewrite String.eqb_refl|].
  destruct (String.eqb_spec k' k) as [->|]; [|by apply IH].
  exfalso. apply Hk'. apply list_elem_of_fmap. by exists (k, v).
Qed.

Lemma typed_unique_keys v :
  is_str v = true \/ is_str_seq v = true \/ is_bool v = true -> unique_keys v.
Proof.
  destruct v as [| | | |l|]; simpl; intros [H | [H | H]]; try done.
  apply unique_keys_arr. induction l as [|x l IH]; [constructor|].
  simpl in H. apply andb_prop in H as [Hx Hl]. constructor; [by destruct x | by apply IH].
Qed.

Lemma field_is_get p k d : field_is p k d = true -> exists v, dict_get k d = Some v /\ p v = true.
Proof. unfold field_is. destruct (dict_get k d); [eauto | discriminate]. Qed.

Lemma canonical_unique_keys j : canonical j -> unique_keys j.
Proof.
  destruct j as [| | | | |d]; try done. intros [Hperm Hfields].
  assert (NoDup (map fst d)) as Hnd.
  { rewrite Hperm. by apply (bool_decide_unpack (NoDup canonical_keys)). }
  apply unique_keys_obj. split; [exact Hnd|].
  apply List.Forall_forall. intros [k v] Hin%list_elem_of_In. cbn [snd].
  assert (k ∈ canonical_keys) as Hk.
  { rewrite <- Hperm. apply list_elem_of_fmap. by exists (k, v). }
  pose proof (dict_get_elem d k v Hnd Hin) as Hget.
  cbn [canonical_fields] in Hfields.
  repeat (apply andb_prop in Hfields as [Hfields ?]).
  apply typed_unique_keys.
  unfold canonical_keys in Hk.
  repeat (apply elem_of_cons in Hk as [-> | Hk]);
    [..|by apply elem_of_nil in Hk];
    match goal with
    | H : field_is _ ?k d = true |- _ =>
        lazymatch type of Hget with
        | dict_get k d = _ =>
            apply field_is_get in H as (v' & Hv' & Hp);
            rewrite Hget in Hv'; injection Hv' as <-; auto
        end
    end.
Qed.

Lemma field_is_has p k d : field_is p k d = true -> dict_has k d = true.
Proof. intros (v & Hv & _)%field_is_get. apply dict_has_get. eauto. Qed.

Lemma canonical_fixups j :
  canonical j -> save_fixup j = Ok j /\ load_fixup j = Some j.
Proof.
  destruct j as [| | | | |d]; try done. intros [_ Hfields].
  cbn [canonical_fields] in Hfields.
  apply andb_prop in Hfields as [Hfields H5].
  apply andb_prop in Hfields as [Hfields H4].
  apply andb_prop in Hfields as [Hfields H3].
  apply andb_prop in Hfields as [H1 H2].
  cbn [save_fixup load_fixup]. unfold set_default.
  assert (is_list (dict_get "tags" d) = true) as ->.
  { apply field_is_get in H3 as (v & -> & Hv). by destruct v. }
  rewrite (field_is_has _ _ _ H1), (field_is_has _ _ _ H2), (field_is_has _ _ _ H3),
    (field_is_has _ _ _ H4), (field_is_has _ _ _ H5).
  done.
Qed.

Lemma canonical_loops S :
  Forall canonical S -> save_loop S = Ok S /\ load_loop S = S.
Proof.
  induction 1 as [|j S Hj _ [IH1 IH2]]; [done|].
  destruct (canonical_fixups j Hj) as [E1 E2]. cbn [save_loop load_loop].
  by rewrite E1, E2, IH1, IH2.
Qed.

Lemma canonical_list_unique_keys S : Forall canonical S -> unique_keys (JArr S).
Proof.
  intros H. apply unique_keys_arr. eapply Forall_impl; [exact H|].
  apply canonical_unique_keys.
Qed.

Lemma canonical_has_fields j : canonical j -> canonical_fields j = true.
Proof. destruct j; try done. by intros [_ H]. Qed.

Lemma save_then_load self S fs :
  Forall canonical S ->
  can_write (save_file self) fs = true ->
  can_read (save_file self) fs = true ->
  exists fs',
    save_snippets self S fs = (fs', (true, "Saved " ++ str_nat (length S) ++ " snippets"))
    /\ load_snippets self fs'
       = (S, match S with
             | [] => "No snippets found"
             | _ :: _ => "Loaded " ++ str_nat (length S) ++ " saved snippets"
             end).
Proof.
  intros HS Hw Hr. destruct (canonical_loops S HS) as [Esave Eload].
  unfold save_snippets, write_file. rewrite Esave.
  unfold can_write, can_read in Hw, Hr.
  assert (exists r, match fs !! save_file self with
                    | Some f =>
                        if f_writable f
                        then Ok (<[save_file self := File (Json.dumps (JArr S)) (f_readable f) true]> fs)
                        else Raise (PermissionError
                               ("[Errno 13] Permission denied: '" ++ save_file self ++ "'"))
                    | None => Ok (<[save_file self := File (Json.dumps (JArr S)) true true]> fs)
                    end = Ok (<[save_file self := File (Json.dumps (JArr S)) true r]> fs))
    as [r ->].
  { destruct (fs !! save_file self) as [f|]; [|eauto]. rewrite Hw, Hr. eauto. }
  eexists. split; [reflexivity|].
  unfold load_snippets, path_exists, read_file. rewrite lookup_insert_eq.
  cbn [negb f_readable f_text].
  rewrite read_back_dumps by (by apply canonical_list_unique_keys).
  destruct S as [|x S']; [reflexivity|]. by rewrite Eload.
Qed.

(** C1.  For a list of canonical snippets and a store file that can be
    written and read, [save_snippets] succeeds and [load_snippets] on the
    resulting file system returns the same list, every record with the
    five canonical fields of their stated types. *)
Theorem C1_save_load_round_trip (self : SnippetDatabase) (S : list json) (fs : filesystem) :
  Forall canonical S ->
  can_write (save_file self) fs = true ->
  can_read (save_file self) fs = true ->
  fst (snd (save_snippets self S fs)) = true
  /\ fst (load_snippets self (fst (save_snippets self S fs))) = S
  /\ Forall (fun j => canonical_fields j = true)
       (fst (load_snippets self (fst (save_snippets self S fs)))).
Proof.
  intros HS Hw Hr. destruct (save_then_load self S fs HS Hw Hr) as (fs' & -> & Hload).
  cbn [fst snd]. rewrite Hload. cbn [fst]. repeat split.
  eapply Forall_impl; [exact HS|]. apply canonical_has_fields.
Qed.

Lemma two_snippets_canonical : Forall canonical two_snippets.
Proof. repeat constructor; by apply (bool_decide_unpack (_ ≡ₚ _)). Defined.

(** C1 on two snippets saved to a fresh file. *)
Lemma C1_witness :
  Forall canonical two_snippets
  /\ fst (load_snippets db0 (fst (save_snippets db0 two_snippets ∅))) = two_snippets.
Proof.
  split; [exact two_snippets_canonical|].
  exact (proj1 (proj2 (C1_save_load_round_trip db0 two_snippets ∅
                         two_snippets_canonical eq_refl eq_refl))).
Defined.

(** *** Order of deletion *)

Lemma Zge_transitive : Transitive Z.ge.
Proof. intros x y z. lia. Qed.

Lemma Zge_total : Total Z.ge.
Proof. intros x y. lia. Qed.

Lemma indices_to_delete_NoDup ids : NoDup (indices_to_delete ids).
Proof.
  unfold indices_to_delete. rewrite merge_sort_Permutation. apply NoDup_elements.
Qed.

Lemma StronglySorted_strict (l : list Z) :
  StronglySorted Z.ge l -> NoDup l -> StronglySorted Z.gt l.
Proof.
  induction 1 as [|x l Hl IH Hx]; intros Hnd; [constructor|].
  apply NoDup_cons in Hnd as [Hnotin Hnd]. constructor; [by apply IH|].
  apply List.Forall_forall. intros y Hy.
  pose proof (proj1 (List.Forall_forall _ _) Hx y Hy) as Hge. cbv beta in Hge.
  assert (x <> y); [|lia]. intros ->. by apply Hnotin, list_elem_of_In.
Qed.

Lemma indices_to_delete_sorted ids : StronglySorted Z.gt (indices_to_delete ids).
Proof.
  apply StronglySorted_strict; [|apply indices_to_delete_NoDup].
  apply (@StronglySorted_merge_sort _ Z.ge _ Zge_transitive Zge_total).
Qed.

Lemma indices_to_delete_set ids ids' :
  (forall i, i ∈ ids <-> i ∈ ids') -> indices_to_delete ids = indices_to_delete ids'.
Proof.
  intros H. unfold indices_to_delete. f_equal. f_equal.
  apply set_eq. intros i. by rewrite !elem_of_list_to_set.
Qed.

(** *** Survivors *)

Lemma survivors_ext ids ids' s : forall p,
  (forall q, (p <= q < p + Z.of_nat (length s))%Z -> q ∈ ids <-> q ∈ ids') ->
  survivors_from p ids s = survivors_from p ids' s.
Proof.
  induction s as [|x s IH]; intros p H; [done|]. cbn [survivors_from].
  rewrite (IH (p + 1)%Z) by (intros q Hq; apply H; cbn [length]; lia).
  assert (p ∈ ids <-> p ∈ ids') as Hp by (apply H; cbn [length]; lia).
  destruct (decide (p ∈ ids)) as [Hin|Hnin].
  - rewrite !bool_decide_eq_true_2; [done | by apply Hp | done].
  - rewrite !bool_decide_eq_false_2; [done | by rewrite <- Hp | done].
Qed.

Lemma survivors_none ids s : forall p,
  (forall q, (p <= q < p + Z.of_nat (length s))%Z -> q ∉ ids) ->
  survivors_from p ids s = s.
Proof.
  induction s as [|x s IH]; intros p H; [done|]. cbn [survivors_from].
  rewrite bool_decide_eq_false_2 by (apply H; cbn [length]; lia).
  by rewrite IH by (intros q Hq; apply H; cbn [length]; lia).
Qed.

Lemma survivors_delete i L s : forall p,
  (p <= i < p + Z.of_nat (length s))%Z ->
  Forall (fun j => (i > j)%Z) L ->
  survivors_from p (i :: L) s = survivors_from p L (delete (Z.to_nat (i - p)) s).
Proof.
  intros p Hi HL.
  assert (forall q, (i <= q)%Z -> q ∉ L) as Habove.
  { intros q Hq Hin. pose proof (proj1 (List.Forall_forall _ _) HL q) as Hlt.
    apply list_elem_of_In in Hin. specialize (Hlt Hin). cbv beta in Hlt. lia. }
  revert p Hi. induction s as [|x s IH]; intros p Hi; [cbn [length] in Hi; lia|].
  cbn [length] in Hi. cbn [survivors_from].
  destruct (decide (i = p)) as [->|Hne].
  - rewrite bool_decide_eq_true_2 by (apply elem_of_cons; by left).
    rewrite Z.sub_diag. change (delete (Z.to_nat 0) (x :: s)) with s.
    rewrite !survivors_none; [done | |].
    + intros q Hq. apply Habove. lia.
    + intros q Hq Hin. apply elem_of_cons in Hin as [-> | Hin]; [lia|].
      by apply (Habove q); [lia|].
  - replace (Z.to_nat (i - p)) with (S (Z.to_nat (i - (p + 1)))) by lia.
    change (delete (S (Z.to_nat (i - (p + 1)))) (x :: s))
      with (x :: delete (Z.to_nat (i - (p + 1))) s).
    cbn [survivors_from]. rewrite <- IH by lia.
    destruct (decide (p ∈ L)) as [Hin|Hnin].
    + rewrite !bool_decide_eq_true_2; [done | done | apply elem_of_cons; by right].
    + rewrite !bool_decide_eq_false_2; [done | done |].
      intros [-> | H]%elem_of_cons; [done | by apply Hnin].
Qed.

Lemma delete_loop_sorted L : forall snippets c,
  StronglySorted Z.gt L ->
  delete_loop L snippets c
  = (survivors L snippets,
     (c + length (List.filter (fun i => in_range i snippets) L))%nat).
Proof.
  induction L as [|i L IH]; intros snippets c Hs.
  - cbn. rewrite Nat.add_0_r. unfold survivors.
    by rewrite survivors_none by (intros q _ Hq; by apply elem_of_nil in Hq).
  - apply StronglySorted_inv in Hs as [HL Hi]. cbn [delete_loop List.filter].
    destruct (in_range i snippets) eqn:Hin.
    + unfold in_range in Hin. apply andb_prop in Hin as [H0 H1].
      apply Z.leb_le in H0. apply Z.ltb_lt in H1.
      rewrite IH by done. unfold survivors.
      rewrite (survivors_delete i L snippets 0) by (done || lia).
      rewrite Z.sub_0_r. f_equal. cbn [length]. rewrite <- Nat.add_succ_comm. f_equal. f_equal.
      apply List.filter_ext_in. intros j Hj.
      pose proof (proj1 (List.Forall_forall _ _) Hi j Hj) as Hlt. cbv beta in Hlt.
      unfold in_range. f_equal.
      rewrite length_delete by (apply lookup_lt_is_Some_2; lia).
      destruct (Z.ltb_spec j (Z.of_nat (length snippets - 1)));
        destruct (Z.ltb_spec j (Z.of_nat (length snippets))); (done || lia).
    + rewrite IH by done. f_equal. unfold survivors. apply survivors_ext.
      intros q Hq. rewrite elem_of_cons.
      unfold in_range in Hin. apply andb_false_iff in Hin.
      rewrite Z.leb_gt, Z.ltb_ge in Hin. split; [auto|]. intros [-> | H]; [lia | done].
Qed.

Lemma plain_snippet_canonical t : canonical (plain_snippet t).
Proof. split; reflexivity. Qed.

(** C3.  For two requests with the same set of indices: the order of
    deletion holds each requested index once, in descending order;
    removing in that order, one position at a time, leaves exactly the
    snippets whose position is not requested, and counts the requested
    positions in range; the two requests have the same result.  On a
    store of three snippets and the indices 0 and 2 the middle snippet
    is left, and for a canonical one and a store file that can be
    written and read the store then holds exactly that snippet. *)
Theorem C3_bulk_delete (self : SnippetDatabase) (fs : filesystem) (ids ids' : list Z) :
  (forall i, i ∈ ids <-> i ∈ ids') ->
  let snippets := fst (load_snippets self fs) in
  (StronglySorted Z.gt (indices_to_delete ids)
   /\ forall i, i ∈ indices_to_delete ids <-> i ∈ ids)
  /\ delete_loop (indices_to_delete ids) snippets 0
     = (survivors ids snippets,
        length (List.filter (fun i => in_range i snippets) (indices_to_delete ids)))
  /\ bulk_delete_snippets self ids fs = bulk_delete_snippets self ids' fs
  /\ (forall s0 s1 s2,
        snippets = [s0; s1; s2] ->
        (forall i, i ∈ ids <-> i = 0 \/ i = 2)%Z ->
        delete_loop (indices_to_delete ids) snippets 0 = ([s1], 2%nat)
        /\ (canonical s1 ->
            can_write (save_file self) fs = true ->
            can_read (save_file self) fs = true ->
            snd (bulk_delete_snippets self ids fs) = (true, "Deleted 2 snippets")
            /\ load_snippets self (fst (bulk_delete_snippets self ids fs))
               = ([s1], "Loaded 1 saved snippets"))).
Proof.
  intros Hsame snippets.
  assert (delete_loop (indices_to_delete ids) snippets 0
          = (survivors ids snippets,
             length (List.filter (fun i => in_range i snippets) (indices_to_delete ids))))
    as Hloop.
  { rewrite delete_loop_sorted by apply indices_to_delete_sorted. f_equal.
    apply survivors_ext. intros q _. apply elem_of_indices_to_delete. }
  split; [split; [apply indices_to_delete_sorted | apply elem_of_indices_to_delete]|].
  split; [exact Hloop|].
  split.
  { unfold bulk_delete_snippets. by rewrite (indices_to_delete_set ids ids' Hsame). }
  intros s0 s1 s2 Hthree Hids.
  assert (indices_to_delete ids = [2; 0]%Z) as Horder.
  { rewrite (indices_to_delete_set ids [0; 2]%Z); [by vm_compute|].
    intros i. rewrite Hids, !elem_of_cons, elem_of_nil. tauto. }
  assert (delete_loop (indices_to_delete ids) snippets 0 = ([s1], 2%nat)) as Hdel.
  { rewrite Horder, Hthree. reflexivity. }
  split; [exact Hdel|].
  intros Hcanon Hw Hr.
  destruct (save_then_load self [s1] fs) as (fs' & Hsave & Hload);
    [by constructor | done | done |].
  unfold bulk_delete_snippets. subst snippets.
  destruct (load_snippets self fs) as [l m]. cbn [fst] in *. subst l.
  rewrite Hdel. cbn [Nat.ltb Nat.leb]. rewrite Hsave. cbn [fst snd]. by rewrite Hload.
Qed.

(** C3 on a store of three snippets, with the indices 2, 0, 2 and 0, 2. *)
Lemma C3_witness :
  (forall i : Z, i ∈ [2; 0; 2]%Z <-> i ∈ [0; 2]%Z)
  /\ bulk_delete_snippets db0 [2; 0; 2]%Z fs_three
     = bulk_delete_snippets db0 [0; 2]%Z fs_three
  /\ load_snippets db0 (fst (bulk_delete_snippets db0 [2; 0; 2]%Z fs_three))
     = ([plain_snippet "b"], "Loaded 1 saved snippets").
Proof.
  assert (forall i : Z, i ∈ [2; 0; 2]%Z <-> i ∈ [0; 2]%Z) as Hsame.
  { intros i. rewrite !elem_of_cons, elem_of_nil. tauto. }
  pose proof (C3_bulk_delete db0 fs_three [2; 0; 2]%Z [0; 2]%Z Hsame) as (_ & _ & Heq & Hthree).
  split; [exact Hsame|]. split; [exact Heq|].
  refine (proj2 (proj2 (Hthree (plain_snippet "a") (plain_snippet "b") (plain_snippet "c") _ _)
                   (plain_snippet_canonical "b") eq_refl eq_refl)).
  - vm_compute. reflexivity.
  - intros i. rewrite !elem_of_cons, elem_of_nil. tauto.
Defined.

(** *** What the reader returns *)

Lemma dict_set_keys k v (d : dict) :
  map fst (dict_set k v d)
  = if dict_has k d then map fst d else (map fst d ++ [k])%list.
Proof.
  induction d as [|[k' v'] d IH]; [done|]. cbn [dict_set dict_has existsb fst].
  destruct (String.eqb k' k) eqn:E; [done|]. cbn [map fst orb]. rewrite IH.
  fold (dict_has k d). by destruct (dict_has k d).
Qed.

Lemma dict_has_elem k (d : dict) : dict_has k d = true <-> k ∈ map fst d.
Proof.
  induction d as [|[k' v'] d IH]; cbn [dict_has existsb map fst].
  - split; [discriminate | by intros ?%elem_of_nil].
  - rewrite elem_of_cons. fold (dict_has k d).
    destruct (String.eqb_spec k' k) as [->|Hne]; cbn [orb]; [by split; auto|].
    rewrite IH. split; [auto|]. by intros [->|].
Qed.

Lemma dict_set_NoDup k v (d : dict) : NoDup (map fst d) -> NoDup (map fst (dict_set k v d)).
Proof.
  intros Hnd. rewrite dict_set_keys. destruct (dict_has k d) eqn:E; [done|].
  apply NoDup_app. split; [done|]. split; [|apply NoDup_singleton].
  intros x Hx ->%list_elem_of_singleton.
  apply dict_has_elem in Hx. congruence.
Qed.

Lemma dict_set_values (P : json -> Prop) k v (d : dict) :
  P v -> Forall (fun kv => P (snd kv)) d -> Forall (fun kv => P (snd kv)) (dict_set k v d).
Proof.
  intros Hv. induction 1 as [|[k' v'] d Hx Hd IH]; cbn [dict_set].
  - by repeat constructor.
  - destruct (String.eqb k' k); constructor; auto.
Qed.

Lemma dict_set_unique_keys k v d :
  unique_keys v -> unique_keys (JObj d) -> unique_keys (JObj (dict_set k v d)).
Proof.
  rewrite !unique_keys_obj. intros Hv [Hnd Hvals].
  split; [by apply dict_set_NoDup | by apply dict_set_values].
Qed.

Lemma dict_of_pairs_unique_keys kvs :
  Forall (fun kv => unique_keys (snd kv)) kvs -> unique_keys (JObj (Json.dict_of_pairs kvs)).
Proof.
  unfold Json.dict_of_pairs.
  assert (unique_keys (JObj [])) as Hacc by (apply unique_keys_obj; split; constructor).
  revert Hacc. generalize (@nil (string * json)).
  induction kvs as [|[k v] kvs IH]; intros acc Hacc Hall; [done|].
  inversion Hall; subst. cbn [fold_left fst snd]. apply IH; [|done].
  by apply dict_set_unique_keys.
Qed.

Lemma parse_int_unique s j r : Json.parse_int s = Some (j, r) -> unique_keys j.
Proof.
  unfold Json.parse_int.
  destruct (Json.starts_with "-" s);
    [destruct (Json.parse_nat s0) as [[n r']|] | destruct (Json.parse_nat s) as [[n r']|]];
    by intros [= <- <-].
Qed.

Lemma parse_literal_unique s j r : Json.parse_literal s = Some (j, r) -> unique_keys j.
Proof.
  unfold Json.parse_literal.
  destruct (Json.strip_prefix "null" s); [by intros [= <- <-]|].
  destruct (Json.strip_prefix "true" s); [by intros [= <- <-]|].
  destruct (Json.strip_prefix "false" s); by intros [= <- <-].
Qed.

Lemma pv_eq f s :
  Json.parse_value (S f) s
  = match Json.skip_ws s with
    | "" => None
    | String c r =>
        if Json.is_digit c || Ascii.eqb c "-" then Json.parse_int (String c r)
        else if Ascii.eqb c "034" then
          match Json.parse_chars r with
          | Some (t, r') => Some (JStr t, r')
          | None => None
          end
        else if Ascii.eqb c "[" then
          match Json.starts_with "]" (Json.skip_ws r) with
          | Some r' => Some (JArr [], r')
          | None =>
              match Json.parse_elems f r with
              | Some (l, r') => Some (JArr l, r')
              | None => None
              end
          end
        else if Ascii.eqb c "{" then
          match Json.starts_with "}" (Json.skip_ws r) with
          | Some r' => Some (JObj [], r')
          | None =>
              match Json.parse_members f r with
              | Some (kvs, r') => Some (JObj (Json.dict_of_pairs kvs), r')
              | None => None
              end
          end
        else Json.parse_literal (String c r)
    end.
Proof. reflexivity. Qed.

Lemma pm_eq f s :
  Json.parse_members (S f) s
  = match Json.starts_with "034" (Json.skip_ws s) with
    | None => None
    | Some r =>
        match Json.parse_chars r with
        | None => None
        | Some (k, r1) =>
            match Json.starts_with ":" (Json.skip_ws r1) with
            | None => None
            | Some r2 =>
                match Json.parse_value f r2 with
                | None => None
                | Some (v, r3) =>
                    match Json.starts_with "," (Json.skip_ws r3) with
                    | Some r4 =>
                        match Json.parse_members f r4 with
                        | Some (kvs, r5) => Some ((k, v) :: kvs, r5)
                        | None => None
                        end
                    | None =>
                        match Json.starts_with "}" (Json.skip_ws r3) with
                        | Some r4 => Some ([(k, v)], r4)
                        | None => None
                        end
                    end
                end
            end
        end
    end.
Proof.
  cbn [Json.parse_members]. unfold Json.starts_with.
  destruct (Json.skip_ws s) as [|c r]; [done|].
  destruct c as [[] [] [] [] [] [] [] []]; try reflexivity.
  cbn [Ascii.eqb Bool.eqb]. destruct (Json.parse_chars r) as [[k r1]|]; [|done].
  destruct (Json.skip_ws r1) as [|c r2]; [done|].
  destruct c as [[] [] [] [] [] [] [] []]; try reflexivity.
  cbn [Ascii.eqb Bool.eqb]. destruct (Json.parse_value f r2) as [[v r3]|]; [|done].
  destruct (Json.skip_ws r3) as [|c r4]; [done|].
  destruct c as [[] [] [] [] [] [] [] []]; reflexivity.
Qed.

Lemma pe_eq' f s :
  Json.parse_elems (S f) s
  = match Json.parse_value f s with
    | None => None
    | Some (v, r) =>
        match Json.starts_with "," (Json.skip_ws r) with
        | Some r' =>
            match Json.parse_elems f r' with
            | Some (l, r'') => Some (v :: l, r'')
            | None => None
            end
        | None =>
            match Json.starts_with "]" (Json.skip_ws r) with
            | Some r' => Some ([v], r')
            | None => None
            end
        end
    end.
Proof.
  rewrite pe_eq. destruct (Json.parse_value f s) as [[v r]|]; [|done].
  unfold Json.starts_with. destruct (Json.skip_ws r) as [|c r']; [done|].
  destruct c as [[] [] [] [] [] [] [] []]; reflexivity.
Qed.

Lemma parse_unique fuel :
  (forall s j r, Json.parse_value fuel s = Some (j, r) -> unique_keys j)
  /\ (forall s l r, Json.parse_elems fuel s = Some (l, r) -> Forall unique_keys l)
  /\ (forall s kvs r, Json.parse_members fuel s = Some (kvs, r) ->
        Forall (fun kv => unique_keys (snd kv)) kvs).
Proof.
  induction fuel as [|f (IHv & IHe & IHm)]; [by repeat split|].
  split; [|split]; intros s.
  - intros j r. rewrite pv_eq. destruct (Json.skip_ws s) as [|c t]; [done|].
    destruct (Json.is_digit c || Ascii.eqb c "-"); [apply parse_int_unique|].
    destruct (Ascii.eqb c "034").
    { destruct (Json.parse_chars t) as [[x r']|]; by intros [= <- <-]. }
    destruct (Ascii.eqb c "[").
    { destruct (Json.starts_with "]" _); [by intros [= <- <-]|].
      destruct (Json.parse_elems f t) as [[l r']|] eqn:E; [|done].
      intros [= <- <-]. apply unique_keys_arr. eauto. }
    destruct (Ascii.eqb c "{"); [|apply parse_literal_unique].
    destruct (Json.starts_with "}" _);
      [intros [= <- <-]; apply unique_keys_obj; split; constructor|].
    destruct (Json.parse_members f t) as [[kvs r']|] eqn:E; [|done].
    intros [= <- <-]. apply dict_of_pairs_unique_keys. eauto.
  - intros l r. rewrite pe_eq'.
    destruct (Json.parse_value f s) as [[v r1]|] eqn:Ev; [|done].
    destruct (Json.starts_with "," _).
    + destruct (Json.parse_elems f s0) as [[l' r']|] eqn:E; [|done].
      intros [= <- <-]. constructor; eauto.
    + destruct (Json.starts_with "]" _); [|done]. intros [= <- <-].
      constructor; [eauto | constructor].
  - intros kvs r. rewrite pm_eq.
    destruct (Json.starts_with "034" _); [|done].
    destruct (Json.parse_chars s0) as [[k r1]|]; [|done].
    destruct (Json.starts_with ":" _); [|done].
    destruct (Json.parse_value f s1) as [[v r3]|] eqn:Ev; [|done].
    destruct (Json.starts_with "," _).
    + destruct (Json.parse_members f s2) as [[kvs' r']|] eqn:E; [|done].
      intros [= <- <-]. constructor; [cbn; eauto | eauto].
    + destruct (Json.starts_with "}" _); [|done]. intros [= <- <-].
      constructor; [cbn; eauto | constructor].
Qed.

Lemma loads_unique_keys s j : Json.loads s = Ok j -> unique_keys j.
Proof.
  unfold Json.loads. destruct (Json.parse_value _ s) as [[j' r]|] eqn:E; [|done].
  destruct (Json.skip_ws r); [|done]. intros [= <-].
  eapply (proj1 (parse_unique _)), E.
Qed.

(** *** Stored records *)

Lemma set_default_unique_keys k v d :
  unique_keys v -> unique_keys (JObj d) -> unique_keys (JObj (set_default k v d)).
Proof.
  intros Hv Hd. unfold set_default. destruct (dict_has k d); [done|].
  by apply dict_set_unique_keys.
Qed.

Lemma set_default_has k k' v d :
  dict_has k' (set_default k v d) = dict_has k' d || (String.eqb k k').
Proof.
  apply eq_true_iff_eq. rewrite orb_true_iff, !dict_has_get.
  setoid_rewrite dict_get_set_default.
  destruct (dict_get k' d) as [x|]; [split; eauto|].
  destruct (String.eqb k k'); split; eauto; intros [[? [=]] | [=]] || intros [? [=]].
Qed.

Lemma load_fixup_stored j r : unique_keys j -> load_fixup j = Some r -> stored r.
Proof.
  destruct j as [| | |s| |d]; try done; cbn [load_fixup]; intros Hj [= <-].
  - split; [|by repeat constructor].
    apply unique_keys_obj. split; [by apply (bool_decide_unpack (NoDup _))|].
    by repeat constructor.
  - split.
    + repeat apply set_default_unique_keys; done.
    + unfold canonical_keys. repeat constructor; rewrite !set_default_has;
        cbn; by rewrite ?orb_true_r.
Qed.

Lemma load_loop_stored l : Forall unique_keys l -> Forall stored (load_loop l).
Proof.
  induction 1 as [|j l Hj _ IH]; [constructor|]. cbn [load_loop].
  destruct (load_fixup j) eqn:E; [|done]. constructor; [|done].
  by eapply load_fixup_stored.
Qed.

Lemma canonical_stored j : canonical j -> stored j.
Proof.
  intros Hc. pose proof (canonical_unique_keys j Hc) as Hu.
  destruct j as [| | | | |d]; try done. split; [done|]. destruct Hc as [Hperm _].
  apply List.Forall_forall. intros k Hk%list_elem_of_In.
  apply dict_has_elem. by rewrite Hperm.
Qed.

Lemma default_snippets_canonical : Forall canonical _get_default_snippets.
Proof. repeat constructor. Qed.

Lemma load_snippets_stored self fs : Forall stored (fst (load_snippets self fs)).
Proof.
  unfold load_snippets. destruct (negb _).
  { cbn [fst]. eapply Forall_impl; [apply default_snippets_canonical|].
    apply canonical_stored. }
  destruct (read_file _ fs) as [text|]; [|constructor].
  destruct (Json.loads text) as [j|[]] eqn:E; try constructor.
  apply loads_unique_keys in E. destruct j as [| | | |l|]; try constructor.
  destruct l as [|x l]; [constructor|]. cbn [fst].
  by apply load_loop_stored, unique_keys_arr.
Qed.

Lemma stored_has j k : stored j -> k ∈ canonical_keys ->
  exists d, j = JObj d /\ dict_has k d = true.
Proof.
  destruct j as [| | | | |d]; try done. intros [_ H] Hk. exists d. split; [done|].
  by apply (proj1 (List.Forall_forall _ _) H), list_elem_of_In.
Qed.

Lemma stored_load_fixup j : stored j -> load_fixup j = Some j.
Proof.
  destruct j as [| | | | |d]; try done. intros [_ H]. cbn [load_fixup]. unfold set_default.
  unfold canonical_keys in H.
  repeat (apply Forall_cons in H as [-> H]). done.
Qed.

Lemma save_fixup_stored j :
  stored j ->
  exists r, save_fixup j = Ok r /\ stored r /\ save_fixup r = Ok r.
Proof.
  destruct j as [| | | | |d]; try done. intros [Hu H]. cbn [save_fixup].
  pose proof H as H'. unfold canonical_keys in H'.
  repeat (apply Forall_cons in H' as [? H']).
  set (d1 := if is_list (dict_get "tags" d) then d else dict_set "tags" (JArr []) d).
  assert (forall k, dict_has k d = true -> dict_has k d1 = true) as Hkeep.
  { intros k Hk. unfold d1. destruct (is_list _); [done|].
    apply dict_has_get. rewrite dict_get_set. destruct (String.eqb "tags" k); [eauto|].
    by apply dict_has_get. }
  assert (unique_keys (JObj d1)) as Hu1.
  { unfold d1. destruct (is_list _); [done|].
    apply dict_set_unique_keys; [by apply unique_keys_arr | done]. }
  assert (is_list (dict_get "tags" d1) = true) as Hl1.
  { unfold d1. destruct (is_list (dict_get "tags" d)) eqn:E; [done|].
    by rewrite dict_get_set_eq. }
  unfold set_default. rewrite !Hkeep by done.
  exists (JObj d1). split; [done|]. split.
  - split; [done|]. eapply Forall_impl; [exact H|]. cbv beta. auto.
  - cbn [save_fixup]. unfold set_default. by rewrite Hl1, !Hkeep.
Qed.

Lemma save_loop_stored L :
  Forall stored L ->
  exists saved,
    save_loop L = Ok saved /\ Forall stored saved /\ save_loop saved = Ok saved
    /\ load_loop saved = saved /\ length saved = length L.
Proof.
  induction 1 as [|j L Hj _ (saved & E1 & Hs & E2 & E3 & Hlen)].
  - by exists [].
  - destruct (save_fixup_stored j Hj) as (r & Er & Hr & Er').
    exists (r :: saved). cbn [save_loop load_loop].
    rewrite Er, E1, Er', E2, (stored_load_fixup r Hr), E3.
    repeat split; [by constructor | cbn; congruence].
Qed.

Lemma stored_list_unique_keys L : Forall stored L -> unique_keys (JArr L).
Proof.
  intros H. apply unique_keys_arr. eapply Forall_impl; [exact H|].
  intros [| | | | |d]; try done. by intros [Hu _].
Qed.

Lemma save_then_load_stored self L fs :
  Forall stored L ->
  can_write (save_file self) fs = true ->
  can_read (save_file self) fs = true ->
  exists fs' saved,
    save_loop L = Ok saved /\ Forall stored saved /\ save_loop saved = Ok saved
    /\ length saved = length L
    /\ save_snippets self L fs = (fs', (true, "Saved " ++ str_nat (length L) ++ " snippets"))
    /\ can_write (save_file self) fs' = true
    /\ can_read (save_file self) fs' = true
    /\ load_snippets self fs'
       = (saved, match saved with
                 | [] => "No snippets found"
                 | _ :: _ => "Loaded " ++ str_nat (length saved) ++ " saved snippets"
                 end).
Proof.
  intros HL Hw Hr.
  destruct (save_loop_stored L HL) as (saved & Esave & Hs & Esave' & Eload & Hlen).
  unfold save_snippets, write_file. rewrite Esave, Hlen.
  unfold can_write, can_read in *.
  assert (match fs !! save_file self with
          | Some f =>
              if f_writable f
              then Ok (<[save_file self := File (Json.dumps (JArr saved)) (f_readable f) true]> fs)
              else Raise (PermissionError
                     ("[Errno 13] Permission denied: '" ++ save_file self ++ "'"))
          | None => Ok (<[save_file self := File (Json.dumps (JArr saved)) true true]> fs)
          end = Ok (<[save_file self := File (Json.dumps (JArr saved)) true true]> fs))
    as ->.
  { destruct (fs !! save_file self) as [f|]; [|done]. by rewrite Hw, Hr. }
  eexists _, saved. do 4 (split; [done|]). split; [reflexivity|].
  rewrite !lookup_insert_eq. cbn [f_writable f_readable].
  do 2 (split; [done|]).
  unfold load_snippets, path_exists, read_file. rewrite lookup_insert_eq.
  cbn [negb f_readable f_text].
  rewrite read_back_dumps by (by apply stored_list_unique_keys).
  destruct saved as [|x S']; [reflexivity|]. by rewrite Eload.
Qed.

(** *** Legacy stores *)

Lemma load_loop_strings texts : load_loop (map JStr texts) = map plain_snippet texts.
Proof. induction texts as [|t texts IH]; [done|]. cbn. by rewrite IH. Qed.

(** X1.  A store file that holds an array of bare strings loads as one
    canonical record for each string, in order, with the string as text,
    empty label and tags and both flags false; the message counts the
    records, or says that there are none. *)
Theorem load_legacy_strings (self : SnippetDatabase) (fs : filesystem) (f : file)
    (texts : list string) :
  fs !! save_file self = Some f ->
  f_readable f = true ->
  Json.loads (universal_newlines (f_text f)) = Ok (JArr (map JStr texts)) ->
  load_snippets self fs
  = (map (fun t =>
            JObj [("text", JStr t); ("label", JStr ""); ("tags", JArr []);
                  ("is_markdown", JBool false); ("is_template", JBool false)])
         texts,
     match texts with
     | [] => "No snippets found"
     | _ :: _ => "Loaded " ++ str_nat (length texts) ++ " saved snippets"
     end)
  /\ Forall canonical (fst (load_snippets self fs)).
Proof.
  intros Hf Hr Hj.
  assert (load_snippets self fs
          = (map plain_snippet texts,
             match texts with
             | [] => "No snippets found"
             | _ :: _ => "Loaded " ++ str_nat (length texts) ++ " saved snippets"
             end)) as ->.
  { unfold load_snippets, path_exists, read_file. rewrite Hf, Hr. cbn [negb]. rewrite Hj.
    destruct texts as [|t texts]; [done|]. cbn [map].
    change (JStr t :: map JStr texts) with (map JStr (t :: texts)).
    by rewrite load_loop_strings, length_map. }
  split; [done|]. apply Forall_map, Forall_true. intros t. apply plain_snippet_canonical.
Qed.

(** X1 on a store of two strings. *)
Lemma load_legacy_strings_witness :
  fs_legacy !! save_file db0
  = Some (File (Json.dumps (JArr [JStr "first"; JStr "second"])) true true)
  /\ load_snippets db0 fs_legacy
     = ([JObj [("text", JStr "first"); ("label", JStr ""); ("tags", JArr []);
               ("is_markdown", JBool false); ("is_template", JBool false)];
         JObj [("text", JStr "second"); ("label", JStr ""); ("tags", JArr []);
               ("is_markdown", JBool false); ("is_template", JBool false)]],
        "Loaded 2 saved snippets").
Proof.
  split; [reflexivity|].
  refine (proj1 (load_legacy_strings db0 fs_legacy
                   (File (Json.dumps (JArr [JStr "first"; JStr "second"])) true true)
                   ["first"; "second"] eq_refl eq_refl _)).
  vm_compute. reflexivity.
Defined.

(** *** Saving *)

Lemma save_loop_ok_iff L :
  (exists saved, save_loop L = Ok saved) <-> Forall (fun j => is_obj j = true) L.
Proof.
  split.
  - induction L as [|j L IH]; [constructor|]. cbn [save_loop]. intros [saved H].
    destruct (save_fixup j) eqn:Ej; [|done].
    destruct (save_loop L) as [l'|] eqn:El; [|done].
    constructor; [by destruct j | eauto].
  - intros (l' & H & _)%save_loop_obj. eauto.
Qed.

Lemma save_loop_rejects good bad rest :
  Forall (fun j => is_obj j = true) good ->
  is_obj bad = false ->
  save_loop (good ++ bad :: rest)
  = Raise (AttributeError ("'" ++ type_name bad ++ "' object has no attribute 'get'")).
Proof.
  intros Hg Hb. induction Hg as [|j good Hj _ IH]; cbn [app save_loop].
  - by destruct bad.
  - rewrite IH. by destruct j.
Qed.

Lemma save_ok_can_write self L fs fs' msg :
  save_snippets self L fs = (fs', (true, msg)) -> can_write (save_file self) fs = true.
Proof.
  unfold save_snippets, write_file, can_write.
  destruct (save_loop L); [|done].
  destruct (fs !! save_file self) as [f|]; [|done]. by destruct (f_writable f).
Qed.

(** X2.  What [save_snippets] does before it writes, and what a success
    means.  An element that is not a mapping makes the call fail before
    the file is opened: the file system is as it was, and the message
    names the type of the first such element.  A store file that cannot
    be opened for writing makes it fail with the file system as it was.
    A success implies that every element is a mapping and that the file
    could be written; the file then holds the dump of the normalized
    list, and the message gives the number of snippets.  No other path
    is touched in any case. *)
Theorem save_outcomes (self : SnippetDatabase) (L : list json) (fs : filesystem) :
  (forall good bad rest,
     L = (good ++ bad :: rest)%list ->
     Forall (fun j => is_obj j = true) good ->
     is_obj bad = false ->
     save_snippets self L fs
     = (fs, (false, "Error saving: '" ++ type_name bad
                    ++ "' object has no attribute 'get'")))
  /\ (Forall (fun j => is_obj j = true) L ->
      can_write (save_file self) fs = false ->
      save_snippets self L fs
      = (fs, (false, "Error saving: [Errno 13] Permission denied: '"
                     ++ save_file self ++ "'")))
  /\ (fst (snd (save_snippets self L fs)) = true ->
      Forall (fun j => is_obj j = true) L
      /\ can_write (save_file self) fs = true
      /\ exists saved,
           save_loop L = Ok saved
           /\ f_text <$> fst (save_snippets self L fs) !! save_file self
              = Some (Json.dumps (JArr saved))
           /\ snd (snd (save_snippets self L fs))
              = "Saved " ++ str_nat (length L) ++ " snippets")
  /\ (forall p, p <> save_file self -> fst (save_snippets self L fs) !! p = fs !! p).
Proof.
  split; [|split; [|split]].
  - intros good bad rest -> Hg Hb. unfold save_snippets.
    by rewrite (save_loop_rejects good bad rest Hg Hb).
  - intros Hobj Hw. unfold save_snippets, write_file. unfold can_write in Hw.
    destruct (save_loop_obj L Hobj) as (saved & -> & _).
    destruct (fs !! save_file self) as [f|]; [|done]. by rewrite Hw.
  - intros Hok.
    destruct (save_snippets self L fs) as [fs' [ok msg]] eqn:E. cbn [fst snd] in *. subst ok.
    pose proof (save_ok_can_write _ _ _ _ _ E) as Hw. revert E.
    unfold save_snippets, write_file.
    destruct (save_loop L) as [saved|e] eqn:Esave; [|done].
    assert (Forall (fun j => is_obj j = true) L) as Hobj by (apply save_loop_ok_iff; eauto).
    destruct (save_loop_obj L Hobj) as (l' & E' & Hlen & _).
    rewrite Esave in E'. injection E' as <-.
    destruct (fs !! save_file self) as [f|] eqn:Ef;
      [destruct (f_writable f); [|done]|]; intros [= <- <-];
      (split; [done|]; split; [done|]; exists saved;
       by rewrite lookup_insert_eq, Hlen).
  - intros p Hp. unfold save_snippets, write_file.
    destruct (save_loop L) as [saved|e]; [|done].
    destruct (fs !! save_file self) as [f|]; [destruct (f_writable f)|]; cbn [fst];
      try done; by rewrite lookup_insert_ne.
Qed.

(** *** The persisted form is stable *)

Lemma load_nonempty_can_read self fs :
  fst (load_snippets self fs) <> [] -> can_read (save_file self) fs = true.
Proof.
  unfold load_snippets, path_exists, read_file, can_read.
  destruct (fs !! save_file self) as [f|]; [|done]. cbn [negb].
  destruct (f_readable f); done.
Qed.

(** X3.  Whatever [load_snippets] returns can be saved, when the store
    file can be written and read; loading the saved file returns the
    list as save normalized it, and saving and loading that list again
    returns it unchanged. *)
Theorem saved_store_is_stable (self : SnippetDatabase) (fs : filesystem) :
  can_write (save_file self) fs = true ->
  can_read (save_file self) fs = true ->
  let L := fst (load_snippets self fs) in
  let fs1 := fst (save_snippets self L fs) in
  let L1 := fst (load_snippets self fs1) in
  fst (snd (save_snippets self L fs)) = true
  /\ save_loop L = Ok L1
  /\ fst (snd (save_snippets self L1 fs1)) = true
  /\ fst (load_snippets self (fst (save_snippets self L1 fs1))) = L1.
Proof.
  intros Hw Hr L fs1 L1.
  destruct (save_then_load_stored self L fs (load_snippets_stored self fs) Hw Hr)
    as (fs' & saved & Esave & Hs & Esave' & Hlen & Hsv & Hw' & Hr' & Hload).
  subst fs1 L1. rewrite Hsv. cbn [fst snd]. rewrite Hload. cbn [fst].
  split; [done|]. split; [done|].
  destruct (save_then_load_stored self saved fs' Hs Hw' Hr')
    as (fs'' & saved' & Esave2 & _ & _ & _ & Hsv2 & _ & _ & Hload2).
  rewrite Hsv2. cbn [fst snd]. rewrite Hload2. cbn [fst]. split; [done|]. congruence.
Qed.

(** X3 on a store with a record whose tags are a number, a number and a
    bare string. *)
Lemma saved_store_is_stable_witness :
  can_write (save_file db0) fs_mixed = true
  /\ can_read (save_file db0) fs_mixed = true
  /\ fst (load_snippets db0
            (fst (save_snippets db0
                    (fst (load_snippets db0
                            (fst (save_snippets db0 (fst (load_snippets db0 fs_mixed)) fs_mixed))))
                    (fst (save_snippets db0 (fst (load_snippets db0 fs_mixed)) fs_mixed)))))
     = fst (load_snippets db0
              (fst (save_snippets db0 (fst (load_snippets db0 fs_mixed)) fs_mixed))).
Proof.
  split; [reflexivity|]. split; [reflexivity|].
  exact (proj2 (proj2 (proj2 (saved_store_is_stable db0 fs_mixed eq_refl eq_refl)))).
Defined.

(** *** What a bulk update writes *)

Lemma update_items_get patch : forall d,
  NoDup (map fst patch) ->
  exists d', update_items patch (JObj d) = Ok (JObj d')
    /\ forall k, dict_get k d' = patched_get patch d k.
Proof.
  unfold patched_get.
  induction patch as [|[k0 v0] patch IH]; intros d Hnd; cbn [update_items setitem].
  - by exists d.
  - cbn [map fst] in Hnd. apply NoDup_cons in Hnd as [Hk0 Hnd].
    destruct (IH (dict_set k0 v0 d) Hnd) as (d' & -> & Hget). exists d'. split; [done|].
    intros k. rewrite Hget, dict_get_set. cbn [dict_get].
    destruct (String.eqb_spec k0 k) as [->|]; [|done].
    destruct (dict_get k patch) eqn:E; [|done].
    exfalso. apply Hk0, dict_has_elem, dict_has_get. eauto.
Qed.

Lemma patch_rel_step patch hit old new d' :
  patch_rel patch hit old new ->
  (forall d, new = JObj d -> forall k, dict_get k d' = patched_get patch d k) ->
  patch_rel patch true old (JObj d').
Proof.
  intros (d & dn & -> & -> & Hget) Hd'. exists d, d'. repeat split.
  intros k. rewrite (Hd' dn eq_refl). unfold patched_get. rewrite Hget.
  destruct hit; [|done]. unfold patched_get. by destruct (dict_get k patch).
Qed.

Lemma update_loop_patches patch orig : forall ids cur c (done_ids : list Z),
  NoDup (map fst patch) ->
  length cur = length orig ->
  (forall p old, orig !! p = Some old ->
     exists new, cur !! p = Some new
       /\ patch_rel patch (bool_decide (Z.of_nat p ∈ done_ids)) old new) ->
  exists cur' c',
    update_loop ids patch cur c = Ok (cur', c')
    /\ length cur' = length orig
    /\ forall p old, orig !! p = Some old ->
         exists new, cur' !! p = Some new
           /\ patch_rel patch (bool_decide (Z.of_nat p ∈ (done_ids ++ ids)%list)) old new.
Proof.
  induction ids as [|idx ids IH]; intros cur c done_ids Hnd Hlen Hinv; cbn [update_loop].
  - exists cur, c. rewrite app_nil_r. eauto.
  - assert (forall p : nat, bool_decide (Z.of_nat p ∈ (done_ids ++ idx :: ids)%list)
                      = bool_decide (Z.of_nat p ∈ ((done_ids ++ [idx]) ++ ids)%list)) as Hre
      by (intros p; by rewrite <- app_assoc).
    setoid_rewrite Hre.
    destruct (in_range idx cur) eqn:Hin.
    + unfold in_range in Hin. apply andb_prop in Hin as [H0 H1].
      apply Z.leb_le in H0. apply Z.ltb_lt in H1.
      destruct (lookup_lt_is_Some_2 orig (Z.to_nat idx)) as [old Hold]; [lia|].
      destruct (Hinv _ _ Hold) as (new & Hnew & Hrel). rewrite Hnew.
      pose proof Hrel as (d & dn & -> & -> & Hget).
      destruct (update_items_get patch dn Hnd) as (d' & -> & Hd').
      apply IH; [done | by rewrite length_insert |].
      intros p old' Hold'. destruct (decide (p = Z.to_nat idx)) as [->|Hne].
      * rewrite list_lookup_insert_eq by lia. eexists. split; [done|].
        rewrite Hold in Hold'. injection Hold' as <-.
        rewrite bool_decide_eq_true_2 by (apply elem_of_app; right; apply list_elem_of_singleton; lia).
        eapply patch_rel_step; [exact Hrel|]. by intros ? [= <-].
      * rewrite list_lookup_insert_ne by done.
        destruct (Hinv _ _ Hold') as (new' & Hnew' & Hrel'). exists new'. split; [done|].
        replace (bool_decide (Z.of_nat p ∈ (done_ids ++ [idx])%list))
          with (bool_decide (Z.of_nat p ∈ done_ids)); [done|].
        apply bool_decide_ext. rewrite elem_of_app, list_elem_of_singleton. split; [auto|].
        intros [?|?]; [done | lia].
    + apply IH; [done | done |].
      intros p old Hold. destruct (Hinv _ _ Hold) as (new & Hnew & Hrel).
      exists new. split; [done|].
      replace (bool_decide (Z.of_nat p ∈ (done_ids ++ [idx])%list))
        with (bool_decide (Z.of_nat p ∈ done_ids)); [done|].
      apply bool_decide_ext. rewrite elem_of_app, list_elem_of_singleton. split; [auto|].
      intros [?|Hp]; [done|]. apply lookup_lt_Some in Hold.
      unfold in_range in Hin. apply andb_false_iff in Hin.
      rewrite Z.leb_gt, Z.ltb_ge in Hin. lia.
Qed.

Lemma update_loop_loaded self fs snippet_ids update_data :
  NoDup (map fst update_data) ->
  let snippets := fst (load_snippets self fs) in
  exists snippets' n,
    update_loop snippet_ids update_data snippets 0 = Ok (snippets', n)
    /\ length snippets' = length snippets
    /\ (forall p old, snippets !! p = Some old ->
          exists new, snippets' !! p = Some new
            /\ patch_rel update_data (bool_decide (Z.of_nat p ∈ snippet_ids)) old new).
Proof.
  intros Hnd snippets.
  pose proof (load_snippets_obj self fs) as Hobj. fold snippets in Hobj.
  destruct (update_loop_patches update_data snippets snippet_ids snippets 0 [] Hnd eq_refl)
    as (cur' & c' & Hloop & Hlen & Hinv); [|by exists cur', c'].
  intros p old Hold. exists old. split; [done|].
  assert (is_obj old = true) as Ho.
  { eapply (proj1 (List.Forall_forall _ _) Hobj), list_elem_of_In, list_elem_of_lookup_2, Hold. }
  destruct old as [| | | | |d]; try done. exists d, d.
  split; [done|]. split; [done|]. intros k.
  by rewrite bool_decide_eq_false_2 by apply not_elem_of_nil.
Qed.

(** X4.  For a patch with distinct keys, the loop of [bulk_update_snippets]
    gives every snippet at a requested position the values of the patch
    for the keys of the patch and keeps its other keys, leaves every
    other snippet as it was, and keeps the length of the list; when some
    index is in range, that list is what the operation hands to
    [save_snippets]. *)
Theorem bulk_update_applies_patch (self : SnippetDatabase) (fs : filesystem)
    (snippet_ids : list Z) (update_data : dict) :
  NoDup (map fst update_data) ->
  let snippets := fst (load_snippets self fs) in
  exists snippets' n,
    update_loop snippet_ids update_data snippets 0 = Ok (snippets', n)
    /\ length snippets' = length snippets
    /\ (forall p old, snippets !! p = Some old ->
          exists new, snippets' !! p = Some new
            /\ patch_rel update_data (bool_decide (Z.of_nat p ∈ snippet_ids)) old new)
    /\ (snippets <> [] ->
        Exists (fun i => in_range i snippets = true) snippet_ids ->
        fst (bulk_update_snippets self snippet_ids update_data fs)
        = fst (save_snippets self snippets' fs)).
Proof.
  intros Hnd snippets.
  pose proof (load_snippets_obj self fs) as Hobj. fold snippets in Hobj.
  destruct (update_loop_loaded self fs snippet_ids update_data Hnd)
    as (cur' & c' & Hloop & Hlen & Hinv). fold snippets in Hloop, Hlen, Hinv.
  exists cur', c'. split; [done|]. split; [done|]. split; [exact Hinv|].
  intros Hne Hex. unfold bulk_update_snippets. subst snippets.
  destruct (load_snippets self fs) as [l m]. cbn [fst] in *.
  destruct l as [|s0 l]; [done|]. rewrite Hloop.
  destruct (update_loop_count update_data (length (s0 :: l)) snippet_ids (s0 :: l) 0 eq_refl Hobj)
    as (r & Hr & _). rewrite Hloop in Hr. injection Hr as <- ->.
  assert (0 < length (List.filter (in_bounds (length (s0 :: l))) snippet_ids))%nat as Hpos.
  { apply List.Exists_exists in Hex as (i & Hi & Hr').
    pose proof (proj2 (List.filter_In (in_bounds (length (s0 :: l))) i snippet_ids)
                  (conj Hi Hr')) as Hin.
    destruct (List.filter _ snippet_ids); [destruct Hin | simpl; lia]. }
  cbn [Nat.add]. apply Nat.ltb_lt in Hpos. cbn [length] in Hpos. rewrite Hpos.
  destruct (save_snippets self cur' fs) as [fs' [ok m']]. by destruct ok.
Qed.

(** X4 on a store of three snippets: the label of the first and the last
    is set. *)
Lemma bulk_update_applies_patch_witness :
  NoDup (map fst [("label", JStr "x")])
  /\ fst (load_snippets db0
            (fst (bulk_update_snippets db0 [0; 2]%Z [("label", JStr "x")] fs_three)))
     = [ JObj [("text", JStr "a"); ("label", JStr "x"); ("tags", JArr []);
               ("is_markdown", JBool false); ("is_template", JBool false)];
         plain_snippet "b";
         JObj [("text", JStr "c"); ("label", JStr "x"); ("tags", JArr []);
               ("is_markdown", JBool false); ("is_template", JBool false)] ].
Proof.
  assert (NoDup (map fst [("label", JStr "x")])) as Hnd
    by (by apply (bool_decide_unpack (NoDup _))).
  split; [exact Hnd|].
  destruct (bulk_update_applies_patch db0 fs_three [0; 2]%Z [("label", JStr "x")] Hnd)
    as (s' & n & Hloop & _ & _ & Hsave).
  rewrite Hsave; [| vm_compute; discriminate | vm_compute; constructor; reflexivity].
  vm_compute in Hloop. injection Hloop as <- <-. vm_compute. reflexivity.
Defined.

(** *** What a bulk delete leaves *)

Lemma delete_loop_accounts ids : forall snippets c,
  (length (fst (delete_loop ids snippets c)) + snd (delete_loop ids snippets c)
   = length snippets + c)%nat.
Proof.
  induction ids as [|i ids IH]; intros snippets c; cbn [delete_loop]; [done|].
  destruct (in_range i snippets) eqn:Hin; [|apply IH].
  rewrite IH. unfold in_range in Hin. apply andb_prop in Hin as [H0 H1].
  apply Z.leb_le in H0. apply Z.ltb_lt in H1.
  rewrite length_delete by (apply lookup_lt_is_Some_2; lia). lia.
Qed.

Lemma delete_loop_stored ids : forall snippets c,
  Forall stored snippets -> Forall stored (fst (delete_loop ids snippets c)).
Proof.
  induction ids as [|i ids IH]; intros snippets c H; cbn [delete_loop]; [done|].
  destruct (in_range i snippets); apply IH; [by apply Forall_delete | done].
Qed.

(** X5.  When [bulk_delete_snippets] reports success, its message gives
    a count [k > 0], and loading the store afterwards returns exactly [k]
    snippets fewer than before. *)
Theorem bulk_delete_shrinks_store (self : SnippetDatabase) (snippet_ids : list Z)
    (fs fs' : filesystem) (msg : string) :
  bulk_delete_snippets self snippet_ids fs = (fs', (true, msg)) ->
  exists k,
    (0 < k)%nat
    /\ msg = "Deleted " ++ str_nat k ++ " snippets"
    /\ (length (fst (load_snippets self fs')) + k
        = length (fst (load_snippets self fs)))%nat.
Proof.
  pose proof (load_snippets_stored self fs) as Hst.
  pose proof (load_nonempty_can_read self fs) as Hread.
  unfold bulk_delete_snippets.
  destruct (load_snippets self fs) as [snippets m]. cbn [fst] in *.
  destruct snippets as [|s0 snippets]; [done|].
  pose proof (delete_loop_accounts (indices_to_delete snippet_ids) (s0 :: snippets) 0) as Hacc.
  pose proof (delete_loop_stored (indices_to_delete snippet_ids) (s0 :: snippets) 0 Hst) as Hst'.
  destruct (delete_loop _ (s0 :: snippets) 0) as [rest k]. cbn [fst snd] in *.
  destruct (Nat.ltb_spec 0 k) as [Hk|]; [|done].
  destruct (save_snippets self rest fs) as [fs1 [ok m1]] eqn:Esave. cbn [fst snd] in *.
  destruct ok; [|done]. intros [= <- <-].
  pose proof (save_ok_can_write _ _ _ _ _ Esave) as Hw.
  destruct (save_then_load_stored self rest fs Hst' Hw (Hread ltac:(done)))
    as (fs2 & saved & _ & _ & _ & Hlen & Hsv & _ & _ & Hload).
  rewrite Esave in Hsv. injection Hsv as <- _.
  exists k. split; [done|]. split; [done|]. rewrite Hload. cbn [fst]. lia.
Qed.

(** X5 on a store of three snippets and the indices 1, 1 and 7. *)
Lemma bulk_delete_shrinks_store_witness :
  snd (bulk_delete_snippets db0 [1; 1; 7]%Z fs_three) = (true, "Deleted 1 snippets")
  /\ exists k,
       (0 < k)%nat
       /\ (length (fst (load_snippets db0 (fst (bulk_delete_snippets db0 [1; 1; 7]%Z fs_three)))) + k
           = length (fst (load_snippets db0 fs_three)))%nat.
Proof.
  assert (bulk_delete_snippets db0 [1; 1; 7]%Z fs_three
          = (fst (bulk_delete_snippets db0 [1; 1; 7]%Z fs_three), (true, "Deleted 1 snippets")))
    as E by (vm_compute; reflexivity).
  split; [by rewrite E|].
  destruct (bulk_delete_shrinks_store db0 [1; 1; 7]%Z fs_three _ _ E) as (k & Hk & _ & Hlen).
  eauto.
Defined.

Lemma survivors_all ids snippets : forall p,
  (forall q, (p <= q < p + Z.of_nat (length snippets))%Z -> q ∈ ids) ->
  survivors_from p ids snippets = [].
Proof.
  induction snippets as [|s snippets IH]; intros p H; [done|]. cbn [survivors_from].
  rewrite bool_decide_eq_true_2 by (apply H; cbn [length]; lia).
  apply IH. intros q Hq. apply H. cbn [length]. lia.
Qed.

(** X6.  Deleting every position of a store that is not empty, when the
    store file can be written, leaves the empty store: a load then finds
    no snippets, and both bulk operations on it fail, whatever indices
    they are given, without changing the file system. *)
Theorem bulk_delete_everything (self : SnippetDatabase) (snippet_ids : list Z)
    (fs : filesystem) :
  fst (load_snippets self fs) <> [] ->
  (forall p, (p < length (fst (load_snippets self fs)))%nat -> Z.of_nat p ∈ snippet_ids) ->
  can_write (save_file self) fs = true ->
  let fs' := fst (bulk_delete_snippets self snippet_ids fs) in
  fst (snd (bulk_delete_snippets self snippet_ids fs)) = true
  /\ load_snippets self fs' = ([], "No snippets found")
  /\ (forall ids, bulk_delete_snippets self ids fs' = (fs', (false, "No snippets to delete")))
  /\ (forall ids patch,
        bulk_update_snippets self ids patch fs' = (fs', (false, "No snippets to update"))).
Proof.
  intros Hne Hall Hw fs'.
  pose proof (load_nonempty_can_read self fs Hne) as Hr.
  assert (bulk_delete_snippets self snippet_ids fs
          = (fst (save_snippets self [] fs),
             (true, "Deleted " ++ str_nat (length (fst (load_snippets self fs))) ++ " snippets")))
    as E.
  { unfold bulk_delete_snippets.
    destruct (load_snippets self fs) as [snippets m]. cbn [fst] in *.
    destruct snippets as [|s0 snippets]; [done|].
    pose proof (delete_loop_accounts (indices_to_delete snippet_ids) (s0 :: snippets) 0) as Hacc.
    rewrite delete_loop_sorted in * by apply indices_to_delete_sorted.
    unfold survivors in *. cbn [fst snd] in Hacc.
    rewrite survivors_all in *.
    2,3: (intros q Hq; apply elem_of_indices_to_delete;
          replace q with (Z.of_nat (Z.to_nat q)) by lia; apply Hall; lia).
    cbn [length Nat.add] in Hacc. rewrite Hacc, Nat.add_0_r. cbn [Nat.ltb Nat.leb].
    destruct (save_then_load self [] fs) as (fs1 & -> & _); [constructor | done | done |].
    reflexivity. }
  destruct (save_then_load self [] fs) as (fs1 & Hsave & Hload); [constructor | done | done |].
  subst fs'. rewrite E. cbn [fst snd]. rewrite Hsave. cbn [fst].
  split; [done|]. split; [exact Hload|].
  unfold bulk_delete_snippets, bulk_update_snippets. rewrite Hload. done.
Qed.

(** X6 on a store of three snippets. *)
Lemma bulk_delete_everything_witness :
  fst (load_snippets db0 fs_three) <> []
  /\ load_snippets db0 (fst (bulk_delete_snippets db0 [2; 0; 1; 9]%Z fs_three))
     = ([], "No snippets found").
Proof.
  assert (fst (load_snippets db0 fs_three) <> []) as Hne by (vm_compute; discriminate).
  split; [exact Hne|].
  refine (proj1 (proj2 (bulk_delete_everything db0 [2; 0; 1; 9]%Z fs_three Hne _ eq_refl))).
  assert (length (fst (load_snippets db0 fs_three)) = 3%nat) as -> by (vm_compute; reflexivity).
  intros [|[|[|p]]] Hp; [..|lia]; rewrite !elem_of_cons; auto.
Defined.

(** *** Importing JSON *)

Lemma import_loop_omap items : import_loop items = omap import_item items.
Proof.
  induction items as [|j l IH]; [done|]. cbn. destruct (import_item j); by rewrite IH.
Qed.

Lemma import_item_fields d :
  exists d',
    import_item (JObj d) = Some (JObj d')
    /\ map fst d' = canonical_keys
    /\ forall k, dict_get k d'
                 = if bool_decide (k ∈ canonical_keys)
                   then match dict_get k d with
                        | Some v => Some v
                        | None => dict_get k defaults
                        end
                   else None.
Proof.
  eexists. split; [reflexivity|]. split; [reflexivity|]. intros k.
  unfold dict_get_default, canonical_keys, defaults. cbn [dict_get].
  destruct (String.eqb_spec "text" k) as [<-|H1]; [by destruct (dict_get "text" d)|].
  destruct (String.eqb_spec "label" k) as [<-|H2]; [by destruct (dict_get "label" d)|].
  destruct (String.eqb_spec "tags" k) as [<-|H3]; [by destruct (dict_get "tags" d)|].
  destruct (String.eqb_spec "is_markdown" k) as [<-|H4];
    [by destruct (dict_get "is_markdown" d)|].
  destruct (String.eqb_spec "is_template" k) as [<-|H5];
    [by destruct (dict_get "is_template" d)|].
  rewrite bool_decide_eq_false_2; [done|].
  rewrite !elem_of_cons, elem_of_nil. intros [|[|[|[|[|[]]]]]]; congruence.
Qed.

(** X7.  Importing a readable [.json] file whose value is an array gives
    one record for each mapping or string of the array, in order, and
    passes over every other element; the message counts the records.  A
    record made from a mapping has exactly the five canonical keys, each
    with the value of the mapping or, when the mapping lacks it, the
    default: keys that are not canonical are dropped, and the types of
    the values are not checked. *)
Theorem import_json_records (self : SnippetDatabase) (file_path : string)
    (fs : filesystem) (f : file) (items : list json) :
  lower (splitext_ext file_path) = ".json" ->
  fs !! file_path = Some f ->
  f_readable f = true ->
  Json.loads (universal_newlines (f_text f)) = Ok (JArr items) ->
  import_from_file self file_path fs
  = Some (omap import_item items,
          "Imported " ++ str_nat (length (omap import_item items)) ++ " snippets from JSON")
  /\ (forall j, is_Some (import_item j) <-> is_obj j || is_str j = true)
  /\ (forall s, import_item (JStr s) = Some (plain_snippet s))
  /\ (forall d, exists d',
        import_item (JObj d) = Some (JObj d')
        /\ map fst d' = canonical_keys
        /\ forall k, dict_get k d'
                     = if bool_decide (k ∈ canonical_keys)
                       then match dict_get k d with
                            | Some v => Some v
                            | None => dict_get k defaults
                            end
                       else None).
Proof.
  intros Hext Hf Hr Hj. split; [|split; [|split]].
  - unfold import_from_file, read_file. rewrite Hext, String.eqb_refl, Hf, Hr, Hj.
    by rewrite import_loop_omap.
  - intros j. destruct j; cbn; split; try done; try (by intros [? [=]]); eauto.
  - done.
  - apply import_item_fields.
Qed.

(** X7 on a file with a mapping that has a foreign key, a null and a
    string. *)
Lemma import_json_records_witness :
  lower (splitext_ext "in.json") = ".json"
  /\ import_from_file db0 "in.json" fs_import
     = Some ([ JObj [("text", JStr "t"); ("label", JStr ""); ("tags", JArr []);
                     ("is_markdown", JBool false); ("is_template", JBool false)];
               plain_snippet "s" ],
             "Imported 2 snippets from JSON").
Proof.
  split; [reflexivity|].
  refine (proj1 (import_json_records db0 "in.json" fs_import
                   (File (Json.dumps (JArr [JObj [("text", JStr "t"); ("color", JStr "red")];
                                            JNull; JStr "s"])) true true)
                   [JObj [("text", JStr "t"); ("color", JStr "red")]; JNull; JStr "s"]
                   eq_refl eq_refl eq_refl _)).
  vm_compute. reflexivity.
Defined.

Lemma canonical_import_item j :
  canonical j -> exists r, import_item j = Some r /\ same_fields j r.
Proof.
  destruct j as [| | | | |d]; try done. intros [Hperm Hfields].
  destruct (import_item_fields d) as (d' & -> & _ & Hget).
  exists (JObj d'). split; [done|]. exists d, d'. split; [done|]. split; [done|].
  intros k. rewrite Hget. case_bool_decide as Hk.
  - assert (dict_has k d = true) as [v ->]%dict_has_get; [|done].
    apply dict_has_elem. by rewrite Hperm.
  - assert (dict_has k d = false) as ->%dict_has_false; [|done].
    apply not_true_is_false. rewrite dict_has_elem. by rewrite Hperm.
Qed.

Lemma canonical_import_loop S :
  Forall canonical S ->
  exists S', import_loop S = S' /\ Forall2 same_fields S S'.
Proof.
  induction 1 as [|j S Hj _ (S' & E & H2)]; [by exists []|].
  destruct (canonical_import_item j Hj) as (r & Er & Hr).
  exists (r :: S'). cbn [import_loop]. rewrite Er, E. split; [done | by constructor].
Qed.

(** X8.  A store saved from canonical snippets can be imported from its
    own file when that file is named [.json]: the import succeeds with
    one record for each snippet, in order, with the same value for every
    key. *)
Theorem import_saved_store (self : SnippetDatabase) (S : list json) (fs : filesystem) :
  lower (splitext_ext (save_file self)) = ".json" ->
  Forall canonical S ->
  can_write (save_file self) fs = true ->
  can_read (save_file self) fs = true ->
  exists S',
    import_from_file self (save_file self) (fst (save_snippets self S fs))
    = Some (S', "Imported " ++ str_nat (length S) ++ " snippets from JSON")
    /\ Forall2 same_fields S S'.
Proof.
  intros Hext HS Hw Hr.
  destruct (canonical_loops S HS) as [Esave _].
  destruct (canonical_import_loop S HS) as (S' & Eimp & H2).
  exists S'. split; [|done].
  unfold save_snippets, write_file. rewrite Esave. unfold can_write, can_read in *.
  unfold import_from_file, read_file. rewrite Hext, String.eqb_refl.
  assert (length S' = length S) as <- by (symmetry; by eapply Forall2_length).
  destruct (fs !! save_file self) as [f|].
  - rewrite Hw. cbn [fst]. rewrite lookup_insert_eq. cbn [f_readable f_text]. rewrite Hr.
    rewrite read_back_dumps by (by apply canonical_list_unique_keys). by rewrite Eimp.
  - cbn [fst]. rewrite lookup_insert_eq. cbn [f_readable f_text].
    rewrite read_back_dumps by (by apply canonical_list_unique_keys). by rewrite Eimp.
Qed.

(** X8 on two snippets saved to a fresh file. *)
Lemma import_saved_store_witness :
  lower (splitext_ext (save_file db0)) = ".json"
  /\ Forall canonical two_snippets
  /\ exists S',
       import_from_file db0 (save_file db0) (fst (save_snippets db0 two_snippets ∅))
       = Some (S', "Imported 2 snippets from JSON")
       /\ Forall2 same_fields two_snippets S'.
Proof.
  split; [reflexivity|]. split; [exact two_snippets_canonical|].
  exact (import_saved_store db0 two_snippets ∅ eq_refl two_snippets_canonical eq_refl eq_refl).
Defined.

(** *** Templates *)

Lemma template_filter_obj snippets :
  Forall (fun j => is_obj j = true) snippets ->
  template_filter snippets = Ok (List.filter is_template_set snippets).
Proof.
  induction 1 as [|s l Hs _ IH]; [done|]. cbn [template_filter List.filter].
  destruct s as [| | | | |d]; try done. cbn [get is_template_set]. rewrite IH.
  by destruct (truthy _).
Qed.

(** X9.  [get_template_snippets] never raises, although it has no
    exception handler: it returns the loaded snippets whose is_template
    value is true in Python's sense, in their order.  On a canonical
    store these are the snippets whose flag is [true]. *)
Theorem get_template_snippets_filters (self : SnippetDatabase) (fs : filesystem) :
  get_template_snippets self fs
  = Ok (List.filter is_template_set (fst (load_snippets self fs)))
  /\ (forall s, canonical s ->
        is_template_set s = true
        <-> exists d, s = JObj d /\ dict_get "is_template" d = Some (JBool true)).
Proof.
  split.
  - pose proof (load_snippets_obj self fs) as Hobj. unfold get_template_snippets.
    destruct (load_snippets self fs) as [l m]. by apply template_filter_obj.
  - intros [| | | | |d]; try done. intros [_ Hf]. cbn [canonical_fields] in Hf.
    apply andb_prop in Hf as [_ Hf]. apply field_is_get in Hf as (v & Hv & Hb).
    cbn [is_template_set]. unfold dict_get_default. rewrite Hv.
    destruct v as [|[]| | | |]; try done; split; try done.
    + eauto.
    + intros (d' & [= <-] & H). congruence.
Qed.

(** *** The order of strings *)

Lemma ascii_compare_refl c : Ascii.compare c c = Eq.
Proof. unfold Ascii.compare. apply N.compare_refl. Qed.

Lemma string_compare_refl s : String.compare s s = Eq.
Proof. induction s as [|c s IH]; [done|]. cbn. by rewrite ascii_compare_refl. Qed.

Lemma ascii_compare_lt_trans a b c :
  Ascii.compare a b = Lt -> Ascii.compare b c = Lt -> Ascii.compare a c = Lt.
Proof. unfold Ascii.compare. rewrite !N.compare_lt_iff. lia. Qed.

Lemma string_leb_trans s : forall t u,
  String.leb s t = true -> String.leb t u = true -> String.leb s u = true.
Proof.
  unfold String.leb.
  induction s as [|a s IH]; intros [|b t] [|c u]; cbn [String.compare]; try done.
  destruct (Ascii.compare a b) eqn:Eab; [| |done].
  - apply Ascii.compare_eq_iff in Eab as ->.
    destruct (Ascii.compare b c) eqn:Ebc; [apply IH | done | done].
  - destruct (Ascii.compare b c) eqn:Ebc; [| |done].
    + apply Ascii.compare_eq_iff in Ebc as <-. by rewrite Eab.
    + by rewrite (ascii_compare_lt_trans a b c).
Qed.

Lemma py_le_total : Total py_le.
Proof.
  intros a b. unfold py_le, py_leb.
  destruct a as [|[]|x|s|l|d], b as [|[]|y|t|l'|d']; cbn [num_of];
    try (by left); try apply String.leb_total.
  all: rewrite !Z.leb_le; lia.
Qed.

(** *** Sets of strings *)

Lemma existsb_py_eq_str t a : existsb (py_eq (JStr t)) (map JStr a) = true <-> t ∈ a.
Proof.
  induction a as [|x a IH]; cbn [map existsb py_eq].
  - split; [done | by intros ?%elem_of_nil].
  - rewrite elem_of_cons, orb_true_iff, IH. by rewrite String.eqb_eq.
Qed.

Lemma set_add_str t a :
  NoDup a ->
  exists a', set_add (JStr t) (map JStr a) = map JStr a'
    /\ NoDup a' /\ forall x, x ∈ a' <-> x ∈ a \/ x = t.
Proof.
  intros Hnd. unfold set_add.
  destruct (existsb (py_eq (JStr t)) (map JStr a)) eqn:E.
  - apply existsb_py_eq_str in E. exists a. split; [done|]. split; [done|].
    intros x. split; [auto|]. by intros [?| ->].
  - exists (a ++ [t])%list. split; [by rewrite map_app|].
    assert (t ∉ a) as Hni by (intros ?%existsb_py_eq_str; congruence).
    split.
    + apply NoDup_app. split; [done|]. split; [|apply NoDup_singleton].
      by intros x Hx ->%list_elem_of_singleton.
    + intros x. by rewrite elem_of_app, list_elem_of_singleton.
Qed.

Lemma set_update_strs ts : forall a,
  NoDup a ->
  exists a', set_update (map JStr ts) (map JStr a) = Ok (map JStr a')
    /\ NoDup a' /\ forall x, x ∈ a' <-> x ∈ a \/ x ∈ ts.
Proof.
  induction ts as [|t ts IH]; intros a Hnd; cbn [map set_update hashable].
  - exists a. split; [done|]. split; [done|]. intros x. split; [auto|].
    by intros [?|?%elem_of_nil].
  - destruct (set_add_str t a Hnd) as (a1 & -> & Hnd1 & Hin1).
    destruct (IH a1 Hnd1) as (a' & -> & Hnd' & Hin'). exists a'.
    split; [done|]. split; [done|]. intros x.
    rewrite Hin', Hin1, elem_of_cons. tauto.
Qed.

Lemma collect_tags_strs snippets : forall tss a,
  Forall2 string_tags snippets tss ->
  NoDup a ->
  exists a', collect_tags snippets (map JStr a) = Ok (map JStr a')
    /\ NoDup a' /\ forall x, x ∈ a' <-> x ∈ a \/ exists l, l ∈ tss /\ x ∈ l.
Proof.
  induction snippets as [|s snippets IH]; intros tss a Hall Hnd.
  - inversion Hall; subst. exists a. split; [done|]. split; [done|].
    intros x. split; [auto|]. by intros [?|(l & ?%elem_of_nil & _)].
  - inversion Hall as [|? ts ? tss' (d & -> & Ht) Hrest]; subst.
    cbn [collect_tags get]. unfold dict_get_default. rewrite Ht.
    destruct ts as [|t ts].
    + cbn [map truthy]. destruct (IH tss' a Hrest Hnd) as (a' & -> & Hnd' & Hin').
      exists a'. split; [done|]. split; [done|]. intros x. rewrite Hin'.
      split; intros [?|(l & Hl & Hx)]; auto; right.
      * exists l. split; [by apply elem_of_cons; right | done].
      * apply elem_of_cons in Hl as [->|Hl]; [by apply elem_of_nil in Hx | eauto].
    + change (truthy (JArr (map JStr (t :: ts)))) with true. cbn [iterate].
      destruct (set_update_strs (t :: ts) a Hnd) as (a1 & -> & Hnd1 & Hin1).
      destruct (IH tss' a1 Hrest Hnd1) as (a' & -> & Hnd' & Hin').
      exists a'. split; [done|]. split; [done|]. intros x. rewrite Hin', Hin1.
      split.
      * intros [[?|Hx]|(l & Hl & Hx)]; auto; right.
        -- exists (t :: ts). split; [apply elem_of_cons; by left | done].
        -- exists l. split; [by apply elem_of_cons; right | done].
      * intros [?|(l & Hl & Hx)]; auto.
        apply elem_of_cons in Hl as [->|Hl]; [auto | eauto].
Qed.

(** *** Sorting a set of strings *)

Lemma forallb_is_string_map ts : forallb is_string (map JStr ts) = true.
Proof. by induction ts. Qed.

Lemma all_strings l :
  Forall (fun j => is_string j = true) l -> l = map JStr (map str_of l).
Proof.
  induction 1 as [|j l Hj _ IH]; [done|]. destruct j; try done. cbn [map str_of]. by f_equal.
Qed.

Lemma sorted_strings ts :
  Sorted py_le (map JStr ts) -> StronglySorted (fun a b => String.leb a b = true) ts.
Proof.
  intros Hs. apply Sorted_StronglySorted.
  { intros a b c. apply string_leb_trans. }
  induction ts as [|t ts IH]; [constructor|].
  cbn [map] in Hs. apply Sorted_inv in Hs as [Hs Hhd]. constructor; [by apply IH|].
  destruct ts as [|u ts]; [constructor|]. cbn [map] in Hhd.
  apply HdRel_inv in Hhd. by constructor.
Qed.

Lemma py_sorted_strs a :
  exists ts, py_sorted (map JStr a) = Ok (map JStr ts)
    /\ ts ≡ₚ a /\ StronglySorted (fun x y => String.leb x y = true) ts.
Proof.
  unfold py_sorted. rewrite forallb_is_string_map. cbn [orb].
  pose proof (merge_sort_Permutation py_le (map JStr a)) as Hp.
  assert (Forall (fun j => is_string j = true) (merge_sort py_le (map JStr a))) as Hall.
  { rewrite Hp. apply Forall_forall. intros j (t & -> & _)%list_elem_of_fmap. done. }
  exists (map str_of (merge_sort py_le (map JStr a))).
  split; [by rewrite <- all_strings|]. split.
  - transitivity (map str_of (map JStr a)).
    + by apply Permutation_map.
    + rewrite map_map. cbn [str_of]. by rewrite map_id.
  - apply sorted_strings. rewrite <- all_strings by done.
    apply Sorted_merge_sort, py_le_total.
Qed.

(** X10.  On a store where the tags of every snippet are a list of
    strings, [get_all_tags] returns a list of strings that holds each
    tag that occurs exactly once, in ascending order of code points
    (capitals before small letters). *)
Theorem get_all_tags_sorted_unique (self : SnippetDatabase) (fs : filesystem)
    (tss : list (list string)) :
  Forall2 string_tags (fst (load_snippets self fs)) tss ->
  exists ts,
    get_all_tags self fs = Ok (map JStr ts)
    /\ StronglySorted (fun a b => String.leb a b = true) ts
    /\ NoDup ts
    /\ forall t, t ∈ ts <-> exists l, l ∈ tss /\ t ∈ l.
Proof.
  intros Hall. unfold get_all_tags. destruct (load_snippets self fs) as [L m].
  cbn [fst] in Hall.
  destruct (collect_tags_strs L tss [] Hall (NoDup_nil_2)) as (a & Ha & Hnd & Hin).
  cbn [map] in Ha. rewrite Ha.
  destruct (py_sorted_strs a) as (ts & -> & Hp & Hs). exists ts.
  split; [done|]. split; [done|]. split; [by rewrite Hp|].
  intros t. rewrite Hp, Hin. split; [|auto]. by intros [?%elem_of_nil|?].
Qed.

(** X10 on a store of three snippets with the tags web, db, db and Web. *)
Lemma get_all_tags_sorted_unique_witness :
  Forall2 string_tags (fst (load_snippets db0 fs_tags)) [["web"; "db"]; ["db"; "Web"]; []]
  /\ exists ts,
       get_all_tags db0 fs_tags = Ok (map JStr ts)
       /\ StronglySorted (fun a b => String.leb a b = true) ts
       /\ NoDup ts
       /\ forall t, t ∈ ts <-> exists l, l ∈ [["web"; "db"]; ["db"; "Web"]; []] /\ t ∈ l.
Proof.
  assert (Forall2 string_tags (fst (load_snippets db0 fs_tags))
            [["web"; "db"]; ["db"; "Web"]; []]) as H.
  { assert (fst (load_snippets db0 fs_tags)
            = [ JObj [("text", JStr "a"); ("tags", JArr [JStr "web"; JStr "db"]);
                      ("is_template", JBool true); ("label", JStr "");
                      ("is_markdown", JBool false)];
                JObj [("text", JStr "b"); ("tags", JArr [JStr "db"; JStr "Web"]);
                      ("label", JStr ""); ("is_markdown", JBool false);
                      ("is_template", JBool false)];
                plain_snippet "c" ]) as -> by (vm_compute; reflexivity).
    repeat constructor; eexists; (split; [reflexivity|reflexivity]). }
  split; [exact H|]. exact (get_all_tags_sorted_unique db0 fs_tags _ H).
Defined.

(** *** Tags that are not a list *)

Lemma set_update_cases items : forall acc,
  (exists msg, set_update items acc = Raise (TypeError msg))
  \/ exists r, set_update items acc = Ok r.
Proof.
  induction items as [|x items IH]; intros acc; cbn [set_update]; [eauto|].
  destruct (hashable x); [apply IH | eauto].
Qed.

Lemma collect_tags_number snippets : forall acc s z,
  Forall (fun j => is_obj j = true) snippets ->
  s ∈ snippets -> number_tags s z -> z <> 0%Z ->
  exists msg, collect_tags snippets acc = Raise (TypeError msg).
Proof.
  induction snippets as [|s0 snippets IH]; intros acc s z Hobj Hin Hs Hz.
  - by apply elem_of_nil in Hin.
  - inversion Hobj as [|? ? H0 Hrest]; subst.
    cbn [collect_tags]. apply elem_of_cons in Hin as [<-|Hin].
    + destruct Hs as (d & -> & Ht). cbn [get]. unfold dict_get_default. rewrite Ht.
      cbn [truthy]. destruct (Z.eqb_spec z 0) as [|_]; [done|]. cbn [negb iterate]. eauto.
    + destruct s0 as [| | | | |d0]; try done. cbn [get].
      destruct (truthy _); [|eauto].
      destruct (iterate _) as [items|e] eqn:Ei.
      * destruct (set_update_cases items acc) as [(msg & ->)|(r & ->)]; eauto.
      * destruct (dict_get_default "tags" (JArr []) d0); try done;
          cbn [iterate] in Ei; injection Ei as <-; eauto.
Qed.

(** X11.  [load_snippets] accepts a record whose tags are a number, and
    [get_all_tags] checks nothing: when some loaded snippet has tags that
    are a number other than zero, the call ends in a [TypeError] that the
    function does not catch. *)
Theorem get_all_tags_number_raises (self : SnippetDatabase) (fs : filesystem)
    (s : json) (z : Z) :
  s ∈ fst (load_snippets self fs) ->
  number_tags s z ->
  z <> 0%Z ->
  exists msg, get_all_tags self fs = Raise (TypeError msg).
Proof.
  intros Hin Hs Hz. unfold get_all_tags.
  pose proof (load_snippets_obj self fs) as Hobj.
  destruct (load_snippets self fs) as [L m]. cbn [fst] in *.
  destruct (collect_tags_number L [] s z Hobj Hin Hs Hz) as (msg & ->). eauto.
Qed.

(** X11 on a store file with one record whose tags are 5. *)
Lemma get_all_tags_number_raises_witness :
  JObj [("text", JStr "a"); ("tags", JInt 5); ("label", JStr "");
        ("is_markdown", JBool false); ("is_template", JBool false)]
    ∈ fst (load_snippets db0 fs_bad_tags)
  /\ exists msg, get_all_tags db0 fs_bad_tags = Raise (TypeError msg).
Proof.
  assert (JObj [("text", JStr "a"); ("tags", JInt 5); ("label", JStr "");
                ("is_markdown", JBool false); ("is_template", JBool false)]
            ∈ fst (load_snippets db0 fs_bad_tags)) as Hin.
  { assert (fst (load_snippets db0 fs_bad_tags)
            = [JObj [("text", JStr "a"); ("tags", JInt 5); ("label", JStr "");
                     ("is_markdown", JBool false); ("is_template", JBool false)]]) as ->
      by (vm_compute; reflexivity).
    apply elem_of_cons. by left. }
  split; [exact Hin|].
  refine (get_all_tags_number_raises db0 fs_bad_tags _ 5 Hin _ _); [|done].
  eexists. split; reflexivity.
Defined.

(** *** A bulk update, saved and loaded again *)

Lemma save_fixup_fields d :
  stored (JObj d) ->
  exists d', save_fixup (JObj d) = Ok (JObj d')
    /\ forall k, dict_get k d' = saved_value k (dict_get k d).
Proof.
  intros [Hu H]. cbn [save_fixup]. unfold canonical_keys in H.
  repeat (apply Forall_cons in H as [? H]).
  set (d1 := if is_list (dict_get "tags" d) then d else dict_set "tags" (JArr []) d).
  assert (forall k, dict_has k d = true -> dict_has k d1 = true) as Hkeep.
  { intros k Hk. unfold d1. destruct (is_list _); [done|].
    apply dict_has_get. rewrite dict_get_set. destruct (String.eqb "tags" k); [eauto|].
    by apply dict_has_get. }
  unfold set_default. rewrite !Hkeep by done. exists d1. split; [done|].
  intros k. unfold d1, saved_value. rewrite (String.eqb_sym k "tags").
  destruct (is_list (dict_get "tags" d)) eqn:El.
  - destruct (String.eqb_spec "tags" k) as [<-|]; [by rewrite El | done].
  - rewrite dict_get_set. destruct (String.eqb_spec "tags" k) as [<-|]; [by rewrite El | done].
Qed.

Lemma save_loop_fields L :
  Forall stored L ->
  exists saved,
    save_loop L = Ok saved
    /\ forall p j, L !! p = Some j ->
         exists d d', j = JObj d /\ saved !! p = Some (JObj d')
           /\ forall k, dict_get k d' = saved_value k (dict_get k d).
Proof.
  induction 1 as [|j L Hj _ (saved & E & Hf)].
  - exists []. split; [done|]. intros p j Hp. by rewrite lookup_nil in Hp.
  - destruct j as [| | | | |d]; try done.
    destruct (save_fixup_fields d Hj) as (d' & Ed & Hd).
    exists (JObj d' :: saved). cbn [save_loop]. rewrite Ed, E. split; [done|].
    intros [|p] j Hp; cbn in Hp.
    + injection Hp as <-. exists d, d'. by repeat split.
    + by apply Hf.
Qed.

Lemma update_items_stored patch : forall d r,
  Forall (fun kv => unique_keys (snd kv)) patch ->
  stored (JObj d) -> update_items patch (JObj d) = Ok r -> stored r.
Proof.
  induction patch as [|[k v] patch IH]; intros d r Hp Hs; cbn [update_items setitem].
  - by intros [= <-].
  - apply Forall_cons in Hp as [Hv Hp]. apply IH; [done|].
    destruct Hs as [Hu H]. split; [by apply dict_set_unique_keys|].
    eapply Forall_impl; [exact H|]. cbv beta. intros k' Hk'.
    apply dict_has_get. rewrite dict_get_set. destruct (String.eqb k k'); [eauto|].
    by apply dict_has_get.
Qed.

Lemma update_loop_stored patch ids : forall cur c cur' c',
  Forall (fun kv => unique_keys (snd kv)) patch ->
  Forall stored cur ->
  update_loop ids patch cur c = Ok (cur', c') -> Forall stored cur'.
Proof.
  induction ids as [|idx ids IH]; intros cur c cur' c' Hp Hs; cbn [update_loop].
  - by intros [= <- _].
  - destruct (in_range idx cur); [|by apply IH].
    destruct (cur !! Z.to_nat idx) as [s|] eqn:Es; [|done].
    destruct (update_items patch s) as [s'|] eqn:Eu; [|done].
    apply IH; [done|]. apply Forall_insert; [done|].
    pose proof (proj1 (Forall_lookup _ _) Hs _ _ Es) as Hst.
    destruct s as [| | | | |d]; try done. by apply (update_items_stored patch d).
Qed.

Lemma bulk_update_reload self fs ids patch :
  NoDup (map fst patch) ->
  Forall (fun kv => unique_keys (snd kv)) patch ->
  fst (snd (bulk_update_snippets self ids patch fs)) = true ->
  let L := fst (load_snippets self fs) in
  let L' := fst (load_snippets self (fst (bulk_update_snippets self ids patch fs))) in
  length L' = length L
  /\ forall p old, L !! p = Some old ->
       exists new, L' !! p = Some new
         /\ reload_rel patch (bool_decide (Z.of_nat p ∈ ids)) old new.
Proof.
  intros Hnd Hp Hok L L'.
  destruct (update_loop_loaded self fs ids patch Hnd)
    as (cur' & c' & Hloop & Hlen & Hrel).
  pose proof (load_snippets_stored self fs) as Hst.
  pose proof (load_nonempty_can_read self fs) as Hr.
  subst L L'. revert Hok. unfold bulk_update_snippets.
  destruct (load_snippets self fs) as [l m]. cbn [fst] in *.
  destruct l as [|s0 l]; [done|]. rewrite Hloop.
  destruct (0 <? c')%nat; [|done].
  destruct (save_snippets self cur' fs) as [fs' [ok m']] eqn:Esave.
  destruct ok; [|done]. intros _. cbn [fst].
  pose proof (update_loop_stored _ _ _ _ _ _ Hp Hst Hloop) as Hst'.
  destruct (save_then_load_stored self cur' fs Hst' (save_ok_can_write _ _ _ _ _ Esave)
              (Hr ltac:(done)))
    as (fs2 & saved & Esl & _ & _ & Hlen2 & Esave2 & _ & _ & Hload).
  rewrite Esave in Esave2. injection Esave2 as -> _. rewrite Hload. cbn [fst].
  split; [congruence|].
  destruct (save_loop_fields cur' Hst') as (saved' & Esl' & Hf).
  rewrite Esl in Esl'. injection Esl' as <-.
  intros p old Hold. destruct (Hrel p old Hold) as (new & Hnew & d & dn & -> & -> & Hget).
  destruct (Hf p _ Hnew) as (dn' & d' & [= <-] & Hs & Hd').
  exists (JObj d'). split; [done|]. exists d, d'. split; [done|]. split; [done|].
  intros k. by rewrite Hd', Hget.
Qed.

(** X12.  When [bulk_update_snippets] reports success for a patch with
    distinct keys, loading the store again gives a list of the same
    length in which every snippet at a requested position has the values
    of the patch for the keys of the patch and its old values for the
    other keys, and every other snippet has its old values; in both, tags
    that are not a list have become the empty list. *)
Theorem bulk_update_then_load (self : SnippetDatabase) (fs : filesystem)
    (snippet_ids : list Z) (update_data : dict) :
  NoDup (map fst update_data) ->
  Forall (fun kv => unique_keys (snd kv)) update_data ->
  fst (snd (bulk_update_snippets self snippet_ids update_data fs)) = true ->
  let snippets := fst (load_snippets self fs) in
  let snippets' :=
    fst (load_snippets self (fst (bulk_update_snippets self snippet_ids update_data fs))) in
  length snippets' = length snippets
  /\ forall p old, snippets !! p = Some old ->
       exists new, snippets' !! p = Some new
         /\ reload_rel update_data (bool_decide (Z.of_nat p ∈ snippet_ids)) old new.
Proof. apply bulk_update_reload. Qed.

(** X12 on a store of three snippets: the first and the last get a label
    and tags that are a number. *)
Lemma bulk_update_then_load_witness :
  NoDup (map fst [("label", JStr "x"); ("tags", JInt 3)])
  /\ Forall (fun kv => unique_keys (snd kv)) [("label", JStr "x"); ("tags", JInt 3)]
  /\ fst (snd (bulk_update_snippets db0 [0; 2]%Z [("label", JStr "x"); ("tags", JInt 3)]
                 fs_three)) = true
  /\ length (fst (load_snippets db0
                    (fst (bulk_update_snippets db0 [0; 2]%Z
                            [("label", JStr "x"); ("tags", JInt 3)] fs_three))))
     = length (fst (load_snippets db0 fs_three)).
Proof.
  assert (NoDup (map fst [("label", JStr "x"); ("tags", JInt 3)])) as Hnd
    by (by apply (bool_decide_unpack (NoDup _))).
  assert (Forall (fun kv => unique_keys (snd kv)) [("label", JStr "x"); ("tags", JInt 3)])
    as Hu by (repeat constructor).
  assert (fst (snd (bulk_update_snippets db0 [0; 2]%Z [("label", JStr "x"); ("tags", JInt 3)]
                      fs_three)) = true) as Hok by (vm_compute; reflexivity).
  split; [exact Hnd|]. split; [exact Hu|]. split; [exact Hok|].
  exact (proj1 (bulk_update_then_load db0 fs_three [0; 2]%Z
                  [("label", JStr "x"); ("tags", JInt 3)] Hnd Hu Hok)).
Defined.

Lemma is_template_set_filter (L : list json) (s : json) :
  s ∈ List.filter is_template_set L <-> s ∈ L /\ is_template_set s = true.
Proof. rewrite !list_elem_of_In. apply List.filter_In. Qed.

(** X13.  After [bulk_update_snippets] has set the template flag of the
    requested positions to [b] with success, [get_template_snippets]
    returns the snippets of the store as loaded again that have a true
    flag, and the flag of the snippet at a position is [b] when the
    position was requested and what it was before when it was not. *)
Theorem mark_templates_then_list (self : SnippetDatabase) (fs : filesystem)
    (snippet_ids : list Z) (b : bool) :
  fst (snd (bulk_update_snippets self snippet_ids [("is_template", JBool b)] fs)) = true ->
  let snippets := fst (load_snippets self fs) in
  let fs' := fst (bulk_update_snippets self snippet_ids [("is_template", JBool b)] fs) in
  let snippets' := fst (load_snippets self fs') in
  exists templates,
    get_template_snippets self fs' = Ok templates
    /\ (forall s, s ∈ templates <-> s ∈ snippets' /\ is_template_set s = true)
    /\ forall p old, snippets !! p = Some old ->
         exists new, snippets' !! p = Some new
           /\ is_template_set new
              = if bool_decide (Z.of_nat p ∈ snippet_ids) then b else is_template_set old.
Proof.
  intros Hok snippets fs' snippets'.
  assert (NoDup (map fst [("is_template", JBool b)])) as Hnd
    by (cbn; apply NoDup_singleton).
  assert (Forall (fun kv => unique_keys (snd kv)) [("is_template", JBool b)]) as Hu
    by (repeat constructor).
  destruct (bulk_update_reload self fs snippet_ids _ Hnd Hu Hok) as [_ Hrel].
  fold snippets fs' snippets' in Hrel.
  exists (List.filter is_template_set snippets'). split; [|split].
  - pose proof (load_snippets_obj self fs') as Hobj. unfold get_template_snippets.
    subst snippets'. destruct (load_snippets self fs') as [l m]. by apply template_filter_obj.
  - apply is_template_set_filter.
  - intros p old Hold. destruct (Hrel p old Hold) as (new & Hnew & d & d' & -> & -> & Hget).
    exists (JObj d'). split; [done|]. cbn [is_template_set]. unfold dict_get_default.
    rewrite Hget. unfold saved_value. change ("is_template" =? "tags") with false.
    destruct (bool_decide _); [|done]. unfold patched_get. cbn [dict_get].
    by rewrite String.eqb_refl.
Qed.

(** X13 on a store of three snippets, of which the second becomes a
    template. *)
Lemma mark_templates_then_list_witness :
  fst (snd (bulk_update_snippets db0 [1]%Z [("is_template", JBool true)] fs_three)) = true
  /\ exists templates,
       get_template_snippets db0
         (fst (bulk_update_snippets db0 [1]%Z [("is_template", JBool true)] fs_three))
       = Ok templates.
Proof.
  assert (fst (snd (bulk_update_snippets db0 [1]%Z [("is_template", JBool true)] fs_three))
          = true) as Hok by (vm_compute; reflexivity).
  split; [exact Hok|].
  destruct (mark_templates_then_list db0 fs_three [1]%Z true Hok) as (templates & Ht & _).
  by exists templates.
Defined.

(** *** Masking: texts without a separator *)

Lemma is_suffix_refl s : is_suffix s s.
Proof. by exists "". Qed.

Lemma is_suffix_tail c t s : is_suffix (String c t) s -> is_suffix t s.
Proof.
  intros [p ->]. exists (p ++ String c ""). by rewrite append_assoc.
Qed.

Lemma is_suffix_trans a b c : is_suffix a b -> is_suffix b c -> is_suffix a c.
Proof. intros [p ->] [q ->]. exists (q ++ p). by rewrite append_assoc. Qed.

Lemma is_suffix_cons t c s : is_suffix t s -> is_suffix t (String c s).
Proof. intros [p ->]. by exists (String c p). Qed.

Lemma star_none c s : forall i k,
  (forall s' i', is_suffix s' s -> k s' i' = None) -> Re.star c s i k = None.
Proof.
  induction s as [|x s IH]; intros i k Hk; cbn [Re.star].
  - apply Hk, is_suffix_refl.
  - rewrite (Hk _ i (is_suffix_refl _)).
    rewrite IH; [by destruct (Re.cmatch c x)|].
    intros s' i' Hs. by apply Hk, is_suffix_cons.
Qed.

Lemma run_none r : forall s i k,
  (forall s' i', is_suffix s' s -> k s' i' = None) -> Re.run r s i k = None.
Proof.
  induction r as [c|c|r1 IH1 r2 IH2|r1 IH1 r2 IH2|n r IH| |]; intros s i k Hk; cbn [Re.run].
  - destruct s as [|x s]; [done|]. destruct (Re.cmatch c x); [|done].
    apply Hk. eapply is_suffix_tail, is_suffix_refl.
  - by apply star_none.
  - apply IH1. intros s' i' Hs. apply IH2. intros s'' i'' Hs'.
    apply Hk. by eapply is_suffix_trans.
  - by rewrite IH1, IH2.
  - apply IH. intros s' i' Hs. by apply Hk.
  - rewrite (Hk _ i (is_suffix_refl _)). by destruct (xorb _ _).
  - rewrite (Hk _ i (is_suffix_refl _)). destruct s as [|x s]; [done|].
    by destruct (Ascii.eqb x LF).
Qed.

Lemma mem_suffix x t s : is_suffix t s -> Re.mem x s = false -> Re.mem x t = false.
Proof.
  intros [p ->]. induction p as [|c p IH]; [done|]. cbn [String.append Re.mem].
  intros [_ H]%orb_false_elim. by apply IH.
Qed.

Lemma no_separator_suffix t s :
  is_suffix t s -> no_separator s = true -> no_separator t = true.
Proof.
  unfold no_separator. intros Hs [H1 H2]%andb_prop.
  apply negb_true_iff in H1, H2.
  by rewrite (mem_suffix _ _ _ Hs H1), (mem_suffix _ _ _ Hs H2).
Qed.

Lemma separator_needed s i k :
  no_separator s = true ->
  Re.run (Re.Seq (Re.One (Re.OneOf ":=")) (Re.Star Re.Space)) s i k = None.
Proof.
  intros H. cbn [Re.run]. destruct s as [|x s]; [done|].
  unfold no_separator in H. cbn [Re.mem] in H. cbn [Re.cmatch Re.mem].
  rewrite (Ascii.eqb_sym ":" x), (Ascii.eqb_sym "=" x).
  destruct (Ascii.eqb x ":"); [done|]. destruct (Ascii.eqb x "="); [|done].
  by rewrite andb_false_r in H.
Qed.

Lemma run_seq_none r1 r2 s i k :
  (forall s' i' k', is_suffix s' s -> Re.run r2 s' i' k' = None) ->
  Re.run (Re.Seq r1 r2) s i k = None.
Proof. intros H. cbn [Re.run]. apply run_none. intros s' i' Hs. by apply H. Qed.

Lemma run_seq r1 r2 s i k :
  Re.run (Re.Seq r1 r2) s i k = Re.run r1 s i (fun s' i' => Re.run r2 s' i' k).
Proof. reflexivity. Qed.

Lemma run_group n r s i k :
  Re.run (Re.Group n r) s i k = Re.run r s i (fun s' i' => k s' (Re.close_group n i i')).
Proof. reflexivity. Qed.

Lemma no_separator_no_match s before :
  no_separator s = true -> Re.match_at PASSWORD_PATTERN before s = None.
Proof.
  intros H. unfold Re.match_at, PASSWORD_PATTERN.
  rewrite run_seq, run_group, run_seq_none; [done|]. intros s1 i1 k1 Hs1.
  apply run_seq_none. intros s2 i2 k2 Hs2.
  apply run_seq_none. intros s3 i3 k3 Hs3.
  apply separator_needed. eapply no_separator_suffix; [|exact H].
  eapply is_suffix_trans; [exact Hs3|]. by eapply is_suffix_trans.
Qed.

Lemma sub_from_no_match r repl s : forall before,
  (forall t b, is_suffix t s -> Re.match_at r b t = None) ->
  Re.sub_from r repl before s 0 = s.
Proof.
  induction s as [|c s IH]; intros before H; cbn [Re.sub_from].
  - by rewrite (H "" before (is_suffix_refl _)).
  - rewrite (H _ before (is_suffix_refl _)). f_equal. apply IH.
    intros t b Ht. by apply H, is_suffix_cons.
Qed.

(** X14.  A text with no colon and no equals sign comes back from
    [mask_sensitive_data] unchanged, whatever words it holds. *)
Theorem mask_needs_separator (text : string) :
  no_separator text = true -> mask_sensitive_data text = text.
Proof.
  intros H. unfold mask_sensitive_data, Re.sub. apply sub_from_no_match.
  intros t b Ht. apply no_separator_no_match. by eapply no_separator_suffix.
Qed.

(** X14 on a text that names a password without giving one. *)
Lemma mask_needs_separator_witness :
  no_separator "my password is secret" = true
  /\ mask_sensitive_data "my password is secret" = "my password is secret".
Proof.
  split; [reflexivity|]. apply (mask_needs_separator "my password is secret"). reflexivity.
Defined.

(** *** Masking: a credential line *)

Lemma lower_char_idem c : lower_char (lower_char c) = lower_char c.
Proof. destruct c as [[] [] [] [] [] [] [] []]; reflexivity. Qed.

Lemma is_word_lower c : Re.is_word (lower_char c) = Re.is_word c.
Proof. destruct c as [[] [] [] [] [] [] [] []]; reflexivity. Qed.

Lemma lower_app a b : lower (a ++ b) = lower a ++ lower b.
Proof.
  induction a as [|c a IH]; [done|].
  change (lower (String c a ++ b)) with (String (lower_char c) (lower (a ++ b))).
  by rewrite IH.
Qed.

Lemma run_word w : w <> "" -> forall s i k,
  Re.run (Re.word w) s i k
  = match split_ci w s with
    | Some (t, r) => k r (advance_all t i)
    | None => None
    end.
Proof.
  induction w as [|c w IH]; [done|]. intros _ s i k.
  destruct w as [|c' w].
  - cbn [Re.word Re.run split_ci Re.cmatch]. destruct s as [|x s]; [done|].
    by destruct (Ascii.eqb _ _).
  - change (Re.word (String c (String c' w)))
      with (Re.Seq (Re.One (Re.Lit c)) (Re.word (String c' w))).
    rewrite run_seq. cbn [Re.run Re.cmatch].
    change (split_ci (String c (String c' w)) s)
      with (match s with
            | "" => None
            | String b s' =>
                if Ascii.eqb (lower_char c) (lower_char b) then
                  match split_ci (String c' w) s' with
                  | Some (t, r) => Some (String b t, r)
                  | None => None
                  end
                else None
            end).
    destruct s as [|x s]; [done|]. destruct (Ascii.eqb _ _); [|done].
    rewrite IH by done. by destruct (split_ci _ s) as [[t r]|].
Qed.

Lemma split_ci_app w : forall t r, lower t = lower w -> split_ci w (t ++ r) = Some (t, r).
Proof.
  induction w as [|a w IH]; intros [|b t] r; try done. cbn [lower String.append split_ci].
  intros [= Hb Ht]. change (String b t ++ r) with (String b (t ++ r)). cbn iota.
  rewrite Hb, Ascii.eqb_refl. by rewrite IH.
Qed.

Lemma split_ci_lower_none w : forall s, split_ci w (lower s) = None -> split_ci w s = None.
Proof.
  induction w as [|a w IH]; intros [|b s]; try done. cbn [lower split_ci].
  rewrite lower_char_idem. destruct (Ascii.eqb _ _); [|done].
  destruct (split_ci w (lower s)) as [[t r]|] eqn:E; [done|]. by rewrite (IH s E).
Qed.

Lemma star_all c ws : forall rest i k r,
  all_match c ws = true ->
  Re.star c rest (advance_all ws i) k = Some r ->
  Re.star c (ws ++ rest) i k = Some r.
Proof.
  induction ws as [|x ws IH]; intros rest i k r Hall Hk; [done|].
  cbn [all_match] in Hall. apply andb_prop in Hall as [Hx Hall].
  change (String x ws ++ rest) with (String x (ws ++ rest)). cbn [Re.star]. rewrite Hx.
  by rewrite (IH rest (Re.advance x i) k r Hall Hk).
Qed.

Lemma run_labels label sep rest i k r :
  In (lower label) credential_labels ->
  sep = ":"%char \/ sep = "="%char ->
  k (String sep rest) (advance_all label i) = Some r ->
  Re.run (Re.alternatives (Re.word "password")
            [Re.word "pass"; Re.word "pwd"; Re.word "secret"; Re.word "token";
             Re.word "key"; Re.word "auth"; Re.word "app pass"])
    (label ++ String sep rest) i k = Some r.
Proof.
  intros Hl Hsep Hk. cbn [Re.alternatives Re.run]. rewrite !run_word by done.
  unfold credential_labels in Hl. cbn [In] in Hl.
  destruct Hl as [Hl|[Hl|[Hl|[Hl|[Hl|[Hl|[Hl|[Hl|[]]]]]]]]]; symmetry in Hl;
    destruct Hsep as [-> | ->];
    repeat match goal with
    | |- context [split_ci ?w (label ++ ?t)] =>
        first
          [ rewrite (split_ci_app w label t) by (rewrite Hl; reflexivity)
          | rewrite (split_ci_lower_none w (label ++ t))
              by (rewrite lower_app, Hl; reflexivity) ]
    end; by rewrite Hk.
Qed.

Lemma label_starts_with_word label :
  In (lower label) credential_labels ->
  exists c t, label = String c t /\ Re.is_word c = true.
Proof.
  intros Hl. unfold credential_labels in Hl. cbn [In] in Hl.
  destruct label as [|c t]; [by decompose [or] Hl|].
  exists c, t. split; [done|]. rewrite <- is_word_lower. cbn [lower] in Hl.
  decompose [or] Hl; try done;
    match goal with H : _ = String _ _ |- _ => injection H as <- _ end; reflexivity.
Qed.

Lemma run_wb s i k :
  Re.run Re.WordBoundary s i k
  = if xorb (Re.is_word_opt (Re.prev i)) (Re.is_word_opt (Re.head s)) then k s i else None.
Proof. reflexivity. Qed.

Lemma taken_advance_all t : forall i, Re.taken (advance_all t i) = Re.rev_onto t (Re.taken i).
Proof. induction t as [|x t IH]; intros i; [done|]. cbn [advance_all]. by rewrite IH. Qed.

Lemma groups_advance_all t : forall i, Re.groups (advance_all t i) = Re.groups i.
Proof. induction t as [|x t IH]; intros i; [done|]. cbn [advance_all]. by rewrite IH. Qed.

Lemma advance_all_app a b : forall i, advance_all (a ++ b) i = advance_all b (advance_all a i).
Proof. induction a as [|x a IH]; intros i; [done|]. apply IH. Qed.

Lemma rev_onto_rev_onto a : forall b c,
  Re.rev_onto (Re.rev_onto a b) c = Re.rev_onto b (a ++ c).
Proof.
  induction a as [|x a IH]; intros b c; [done|]. cbn [Re.rev_onto]. by rewrite IH.
Qed.

Lemma length_rev_onto a : forall b,
  String.length (Re.rev_onto a b) = (String.length a + String.length b)%nat.
Proof.
  induction a as [|x a IH]; intros b; [done|]. cbn [Re.rev_onto]. rewrite IH. cbn. lia.
Qed.

Lemma take_all s : Re.take (String.length s) s = s.
Proof. induction s as [|x s IH]; [done|]. cbn. by rewrite IH. Qed.

Lemma star_stop c x s i k :
  Re.cmatch c x = false -> Re.star c (String x s) i k = k (String x s) i.
Proof. intros H. cbn [Re.star]. by rewrite H. Qed.

Lemma run_one c x s i k :
  Re.run (Re.One c) (String x s) i k
  = if Re.cmatch c x then k s (Re.advance x i) else None.
Proof. reflexivity. Qed.

Lemma run_star c s i k : Re.run (Re.Star c) s i k = Re.star c s i k.
Proof. reflexivity. Qed.

Lemma rev_onto_app a : forall b c,
  Re.rev_onto (a ++ b) c = Re.rev_onto b (Re.rev_onto a c).
Proof. induction a as [|x a IH]; intros b c; [done|]. apply IH. Qed.

Lemma match_credential_line label sep ws c value :
  In (lower label) credential_labels ->
  sep = ":"%char \/ sep = "="%char ->
  all_match Re.Space ws = true ->
  is_space c = false ->
  all_match Re.Dot (String c value) = true ->
  exists i,
    Re.match_at PASSWORD_PATTERN None (label ++ String sep (ws ++ String c value)) = Some i
    /\ Re.group 1 i = label ++ String sep ws
    /\ String.length (Re.taken i)
       = String.length (label ++ String sep (ws ++ String c value)).
Proof.
  intros Hl Hsep Hws Hc Hv.
  destruct (label_starts_with_word label Hl) as (c0 & t0 & El & Hw).
  set (i0 := Re.Info None "" []).
  set (i1 := advance_all ws (Re.advance sep (advance_all label i0))).
  set (i2 := Re.close_group 1 i0 i1).
  set (i3 := advance_all value (Re.advance c i2)).
  exists (Re.close_group 2 i2 i3).
  assert (Re.match_at PASSWORD_PATTERN None (label ++ String sep (ws ++ String c value))
          = Some (Re.close_group 2 i2 i3)) as ->.
  { unfold Re.match_at, PASSWORD_PATTERN. fold i0.
    rewrite run_seq, run_group, run_seq, run_wb.
    replace (Re.is_word_opt (Re.head (label ++ String sep (ws ++ String c value))))
      with true by (rewrite El; symmetry; exact Hw).
    cbn [i0 Re.prev Re.is_word_opt xorb]. fold i0. rewrite run_seq.
    rewrite (run_labels label sep _ i0 _ (Re.close_group 2 i2 i3, "") Hl Hsep); [done|].
    rewrite run_seq, run_star, star_stop by (by destruct Hsep as [-> | ->]).
    rewrite run_seq, run_one.
    replace (Re.cmatch (Re.OneOf ":=") sep) with true by (by destruct Hsep as [-> | ->]).
    rewrite run_star. apply star_all; [done|]. fold i1.
    rewrite star_stop by (cbn [Re.cmatch]; by rewrite Hc).
    rewrite run_seq, run_group. fold i2. unfold Re.Plus. rewrite run_seq, run_one.
    cbn [all_match] in Hv. apply andb_prop in Hv as [-> Hv].
    rewrite run_star, <- (append_nil_r value). apply star_all; [done|]. by fold i3. }
  split; [done|].
  assert (Re.taken i1 = Re.rev_onto (label ++ String sep ws) "") as Et1.
  { unfold i1. rewrite taken_advance_all. cbn [Re.advance Re.taken].
    rewrite taken_advance_all. cbn [i0 Re.taken].
    by rewrite rev_onto_app. }
  assert (Re.consumed i0 i1 = label ++ String sep ws) as Ec.
  { unfold Re.consumed. rewrite Et1. cbn [i0 Re.taken String.length].
    by rewrite Nat.sub_0_r, take_all, rev_onto_rev_onto, append_nil_r. }
  split.
  - unfold Re.group, Re.close_group. cbn [Re.groups List.find fst Nat.eqb].
    unfold i3. rewrite groups_advance_all. cbn [Re.advance Re.groups i2 Re.close_group].
    cbn [List.find fst Nat.eqb]. exact Ec.
  - cbn [Re.close_group Re.taken]. unfold i3. rewrite taken_advance_all.
    cbn [Re.advance Re.taken i2 Re.close_group]. rewrite Et1.
    rewrite !length_rev_onto. cbn [String.length]. rewrite length_rev_onto.
    rewrite !length_append. cbn [String.length]. rewrite !length_append.
    cbn [String.length]. lia.
Qed.

Lemma sub_from_skip r repl s : forall before,
  (forall b, Re.match_at r b "" = None) ->
  Re.sub_from r repl before s (String.length s) = "".
Proof.
  induction s as [|x s IH]; intros before H; cbn [Re.sub_from String.length].
  - by rewrite H.
  - by apply IH.
Qed.

(** X15.  A text that is one credential line is masked as a whole: a
    label of [PASSWORD_PATTERN] in any letter case, a colon or an equals
    sign, ASCII white space or none, and a value that has no line feed
    and starts with an ASCII character that is not white space.  The
    result keeps the label, the separator and the white space as they
    were and has the marker in the place of the value. *)
Theorem mask_credential_line (label ws value : string) (sep c : ascii) :
  In (lower label) credential_labels ->
  sep = ":"%char \/ sep = "="%char ->
  all_match Re.Space ws = true ->
  (N_of_ascii c < 128)%N ->
  is_space c = false ->
  all_match Re.Dot (String c value) = true ->
  mask_sensitive_data (label ++ String sep (ws ++ String c value))
  = label ++ String sep (ws ++ mask_marker).
Proof.
  intros Hl Hsep Hws _ Hc Hv.
  destruct (match_credential_line label sep ws c value Hl Hsep Hws Hc Hv)
    as (i & Hm & Hg & Hlen).
  destruct (label_starts_with_word label Hl) as (c0 & t0 & El & _).
  transitivity ((label ++ String sep ws) ++ mask_marker); [|by rewrite append_assoc].
  rewrite <- Hg. clear Hg.
  unfold mask_sensitive_data, Re.sub. revert Hm Hlen. rewrite El.
  change (String c0 t0 ++ String sep (ws ++ String c value))
    with (String c0 (t0 ++ String sep (ws ++ String c value))).
  intros Hm Hlen. cbn [Re.sub_from]. rewrite Hm, Hlen. cbn [String.length].
  rewrite sub_from_skip by (intros b; by apply no_separator_no_match).
  by rewrite append_nil_r.
Qed.

(** X15 on a line with a label in capitals and two blanks. *)
Lemma mask_credential_line_witness :
  In (lower "PassWord") credential_labels
  /\ all_match Re.Space "  " = true
  /\ all_match Re.Dot "hunter2 and more" = true
  /\ mask_sensitive_data "PassWord=  hunter2 and more" = "PassWord=  " ++ mask_marker.
Proof.
  assert (In (lower "PassWord") credential_labels) as Hl by (left; reflexivity).
  split; [exact Hl|]. split; [reflexivity|]. split; [reflexivity|].
  exact (mask_credential_line "PassWord" "  " "unter2 and more" "=" "h"
           Hl (or_intror eq_refl) eq_refl eq_refl eq_refl eq_refl).
Defined.

(** *** What the generator can return *)

Lemma index_of_get c s :
  In c (chars_of s) ->
  (index_of c s < String.length s)%nat /\ String.get (index_of c s) s = Some c.
Proof.
  induction s as [|x s IH]; [done|]. cbn [chars_of list_ascii_of_string In index_of].
  intros H. destruct (Ascii.eqb_spec x c) as [->|Hne].
  - cbn. split; [lia | done].
  - destruct H as [?|H]; [done|]. destruct (IH H) as [Hlt Hget]. cbn. split; [lia | done].
Qed.

Lemma choices_replay chars d pw : forall k,
  (forall j c, String.get j pw = Some c ->
     In c (chars_of chars) /\ d (k + j)%nat = index_of c chars) ->
  choices (String.length pw) chars (Rng d k)
  = Ok (pw, Rng d (k + String.length pw)).
Proof.
  induction pw as [|c pw IH]; intros k H.
  - cbn. by rewrite Nat.add_0_r.
  - cbn [String.length choices]. unfold random_choice. cbn [draws cursor].
    destruct (H 0%nat c eq_refl) as [Hin Hd]. rewrite Nat.add_0_r in Hd. rewrite Hd.
    destruct (index_of_get c chars Hin) as [Hlt Hget].
    rewrite Nat.mod_small by done. rewrite Hget.
    rewrite (IH (S k)).
    + by rewrite Nat.add_succ_r.
    + intros j c' Hj. destruct (H (S j) c' Hj) as [Hin' Hd'].
      split; [done|]. by rewrite Nat.add_succ_r in Hd'.
Qed.

Lemma classes_pool up dg sp c :
  In c (chars_of (PASSWORD_CHARS "lowercase"))
  \/ (up = true /\ In c (chars_of (PASSWORD_CHARS "uppercase")))
  \/ (dg = true /\ In c (chars_of (PASSWORD_CHARS "digits")))
  \/ (sp = true /\ In c (chars_of (PASSWORD_CHARS "special"))) ->
  In c (chars_of (pool up dg sp)).
Proof.
  unfold pool.
  destruct up, dg, sp; rewrite ?chars_of_app, ?in_app_iff;
    intros [?|[[? ?]|[[? ?]|[? ?]]]]; try done; tauto.
Qed.

(** X16.  No character of an enabled class is left out by
    [generate_password]: every string whose characters are lowercase
    letters or belong to a class that is switched on is the password
    that some sequence of random draws produces, when its length is the
    one asked for. *)
Theorem every_password_is_possible (pw : string) (use_uppercase use_digits use_special : bool) :
  Forall (fun c =>
    In c (chars_of (PASSWORD_CHARS "lowercase"))
    \/ (use_uppercase = true /\ In c (chars_of (PASSWORD_CHARS "uppercase")))
    \/ (use_digits = true /\ In c (chars_of (PASSWORD_CHARS "digits")))
    \/ (use_special = true /\ In c (chars_of (PASSWORD_CHARS "special"))))
    (chars_of pw) ->
  exists g g',
    generate_password (Z.of_nat (String.length pw)) use_uppercase use_digits use_special g
    = Ok (pw, g').
Proof.
  intros Hall.
  exists (Rng (draws_for pw (pool use_uppercase use_digits use_special)) 0).
  exists (Rng (draws_for pw (pool use_uppercase use_digits use_special))
            (0 + String.length pw)).
  unfold generate_password. rewrite Nat2Z.id.
  apply (choices_replay (pool use_uppercase use_digits use_special)). intros j c Hj. cbn [Nat.add]. unfold draws_for. rewrite Hj.
  split; [|done]. apply classes_pool.
  apply (proj1 (List.Forall_forall _ _) Hall), (get_in pw j), Hj.
Qed.

(** X16 on a password with a capital, a digit and a special character. *)
Lemma every_password_is_possible_witness :
  exists g g', generate_password 4 true true true g = Ok ("aZ9?", g').
Proof.
  apply (every_password_is_possible "aZ9?" true true true).
  apply List.Forall_cons; [left; by apply (get_in _ 0)|].
  apply List.Forall_cons; [right; left; split; [done | by apply (get_in _ 25)]|].
  apply List.Forall_cons; [right; right; left; split; [done | by apply (get_in _ 9)]|].
  apply List.Forall_cons; [right; right; right; split; [done | by apply (get_in _ 25)]|].
  apply List.Forall_nil.
Defined.

(** *** Colours *)

Lemma is_hex_plain c :
  is_hex c = true ->
  int_space c = false /\ Ascii.eqb c "-" = false /\ Ascii.eqb c "+" = false
  /\ Ascii.eqb c "x" = false /\ Ascii.eqb c "X" = false /\ Ascii.eqb c "#" = false.
Proof. destruct c as [[] [] [] [] [] [] [] []]; cbv; intros; try discriminate; tauto. Qed.

Lemma hex_value_bound c d : Json.hex_value c = Some d -> (d < 16)%N.
Proof.
  destruct c as [[] [] [] [] [] [] [] []]; cbv; try discriminate; by intros [= <-].
Qed.

Lemma int16_pair c1 c2 :
  is_hex c1 = true -> is_hex c2 = true ->
  int16 (String c1 (String c2 "")) = Some (hex_pair c1 c2)
  /\ (0 <= hex_pair c1 c2 <= 255)%Z.
Proof.
  intros H1 H2.
  destruct (is_hex_plain c1 H1) as (Hs1 & Hm1 & Hp1 & _).
  destruct (is_hex_plain c2 H2) as (_ & _ & _ & Hx & HX & _).
  unfold int16. cbn [lstrip_int_space]. rewrite Hs1, Hm1, Hp1, Hx, HX.
  rewrite andb_false_r, H1. cbn [hex_run]. unfold hex_pair.
  unfold is_hex in H1, H2.
  destruct (Json.hex_value c1) as [a|] eqn:E1; [|done].
  destruct (Json.hex_value c2) as [b|] eqn:E2; [|done].
  apply hex_value_bound in E1, E2. cbn [all_int_space]. split; [|lia].
  reflexivity.
Qed.

Lemma format_02x_digits n :
  (0 <= n <= 255)%Z ->
  format_02x n
  = String (Json.hex_digit (Z.to_N (n / 16))) (String (Json.hex_digit (Z.to_N (n mod 16))) "").
Proof.
  intros Hn.
  assert (forallb (fun k =>
            String.eqb (format_02x (Z.of_nat k))
              (String (Json.hex_digit (Z.to_N (Z.of_nat k / 16)))
                 (String (Json.hex_digit (Z.to_N (Z.of_nat k mod 16))) "")))
            (seq 0 256) = true) as Hall by (vm_compute; reflexivity).
  rewrite forallb_forall in Hall. specialize (Hall (Z.to_nat n)).
  rewrite Z2Nat.id in Hall by lia. apply String.eqb_eq, Hall, in_seq. lia.
Qed.

Lemma hex_digit_value k :
  (k < 16)%N ->
  is_hex (Json.hex_digit k) = true /\ Json.hex_value (Json.hex_digit k) = Some k.
Proof.
  intros Hk.
  assert (forallb (fun j =>
            is_hex (Json.hex_digit (N.of_nat j))
            && match Json.hex_value (Json.hex_digit (N.of_nat j)) with
               | Some v => (v =? N.of_nat j)%N
               | None => false
               end) (seq 0 16) = true) as Hall by (vm_compute; reflexivity).
  rewrite forallb_forall in Hall.
  assert (In (N.to_nat k) (seq 0 16)) as Hin by (apply in_seq; lia).
  specialize (Hall _ Hin). rewrite N2Nat.id in Hall. apply andb_prop in Hall as [H1 H2].
  split; [done|]. destruct (Json.hex_value _) as [v|]; [|done].
  by apply N.eqb_eq in H2 as ->.
Qed.

Lemma hex_pair_format n :
  (0 <= n <= 255)%Z ->
  exists c1 c2,
    format_02x n = String c1 (String c2 "")
    /\ is_hex c1 = true /\ is_hex c2 = true /\ hex_pair c1 c2 = n.
Proof.
  intros Hn. rewrite (format_02x_digits n Hn).
  assert (Z.to_N (n / 16) < 16)%N as H1.
  { assert (n / 16 < 16)%Z by (apply Z.div_lt_upper_bound; lia).
    assert (0 <= n / 16)%Z by (apply Z.div_pos; lia). lia. }
  assert (Z.to_N (n mod 16) < 16)%N as H2.
  { pose proof (Z.mod_pos_bound n 16 ltac:(lia)). lia. }
  destruct (hex_digit_value _ H1) as [Hh1 Hv1]. destruct (hex_digit_value _ H2) as [Hh2 Hv2].
  eexists _, _. split; [done|]. split; [done|]. split; [done|].
  unfold hex_pair. rewrite Hv1, Hv2.
  assert (0 <= n / 16)%Z by (apply Z.div_pos; lia).
  pose proof (Z.mod_pos_bound n 16 ltac:(lia)).
  rewrite !Z2N.id by lia. symmetry. rewrite (Z.div_mod n 16) at 1 by lia. done.
Qed.

Lemma hex_color_chars color :
  is_hex_color color = true ->
  exists x1 x2 x3 x4 x5 x6,
    color = String "#" (String x1 (String x2 (String x3 (String x4 (String x5 (String x6 ""))))))
    /\ is_hex x1 = true /\ is_hex x2 = true /\ is_hex x3 = true
    /\ is_hex x4 = true /\ is_hex x5 = true /\ is_hex x6 = true.
Proof.
  destruct color as [|h [|x1 [|x2 [|x3 [|x4 [|x5 [|x6 [|]]]]]]]]; try done.
  cbn [is_hex_color]. intros H. repeat (apply andb_prop in H as [H ?]).
  apply Ascii.eqb_eq in H as ->. by exists x1, x2, x3, x4, x5, x6.
Qed.

Lemma slices_of_hex_color x1 x2 x3 x4 x5 x6 :
  is_hex x1 = true ->
  let c := lstrip_char "#"
             (String "#" (String x1 (String x2 (String x3 (String x4 (String x5 (String x6 ""))))))) in
  substring 0 2 c = String x1 (String x2 "")
  /\ substring 2 2 c = String x3 (String x4 "")
  /\ substring 4 2 c = String x5 (String x6 "").
Proof.
  intros H1 c. subst c. destruct (is_hex_plain x1 H1) as (_ & _ & _ & _ & _ & Hh).
  cbn [lstrip_char]. change (Ascii.eqb "#" "#") with true. cbn iota. by rewrite Hh.
Qed.

Lemma channels_hex_color x1 x2 x3 x4 x5 x6 :
  is_hex x1 = true -> is_hex x2 = true -> is_hex x3 = true ->
  is_hex x4 = true -> is_hex x5 = true -> is_hex x6 = true ->
  channels (String "#" (String x1 (String x2 (String x3 (String x4 (String x5 (String x6 "")))))))
  = Some (hex_pair x1 x2, hex_pair x3 x4, hex_pair x5 x6).
Proof.
  intros H1 H2 H3 H4 H5 H6. unfold channels.
  destruct (slices_of_hex_color x1 x2 x3 x4 x5 x6 H1) as (-> & -> & ->).
  by rewrite (proj1 (int16_pair x1 x2 H1 H2)), (proj1 (int16_pair x3 x4 H3 H4)),
    (proj1 (int16_pair x5 x6 H5 H6)).
Qed.

Lemma adjusted_range dark amount x :
  (0 <= amount)%Z -> (0 <= x <= 255)%Z -> (0 <= adjusted dark amount x <= 255)%Z.
Proof. unfold adjusted. destruct dark; lia. Qed.

(** X17.  [adjust_color] maps colours to colours: for a number sign and
    six hexadecimal digits, in either letter case, and an amount that is
    not negative it returns a number sign and six hexadecimal digits,
    never raises, and each channel of the result is the channel of the
    argument plus the amount, at most 255, in dark mode, and minus the
    amount, at least 0, otherwise. *)
Theorem adjust_color_well_formed (color : string) (amount : Z) (is_dark_mode : bool) :
  is_hex_color color = true ->
  (0 <= amount)%Z ->
  exists r g b out,
    channels color = Some (r, g, b)
    /\ adjust_color color amount is_dark_mode = Some out
    /\ is_hex_color out = true
    /\ channels out = Some (adjusted is_dark_mode amount r,
                            adjusted is_dark_mode amount g,
                            adjusted is_dark_mode amount b).
Proof.
  intros Hc Ha.
  destruct (hex_color_chars color Hc) as (x1 & x2 & x3 & x4 & x5 & x6 & -> & H1 & H2 & H3 & H4 & H5 & H6).
  destruct (int16_pair x1 x2 H1 H2) as [E1 R1].
  destruct (int16_pair x3 x4 H3 H4) as [E2 R2].
  destruct (int16_pair x5 x6 H5 H6) as [E3 R3].
  destruct (hex_pair_format _ (adjusted_range is_dark_mode amount _ Ha R1))
    as (a1 & a2 & Fa & Ha1 & Ha2 & Va).
  destruct (hex_pair_format _ (adjusted_range is_dark_mode amount _ Ha R2))
    as (b1 & b2 & Fb & Hb1 & Hb2 & Vb).
  destruct (hex_pair_format _ (adjusted_range is_dark_mode amount _ Ha R3))
    as (c1 & c2 & Fc & Hc1 & Hc2 & Vc).
  exists (hex_pair x1 x2), (hex_pair x3 x4), (hex_pair x5 x6),
    (String "#" (String a1 (String a2 (String b1 (String b2 (String c1 (String c2 ""))))))).
  split; [by apply channels_hex_color|]. split; [|split].
  - unfold adjust_color.
    destruct (slices_of_hex_color x1 x2 x3 x4 x5 x6 H1) as (-> & -> & ->).
    rewrite E1, E2, E3. fold (adjusted is_dark_mode amount).
    replace (if is_dark_mode
             then (Z.min 255 (hex_pair x1 x2 + amount), Z.min 255 (hex_pair x3 x4 + amount),
                   Z.min 255 (hex_pair x5 x6 + amount))
             else (Z.max 0 (hex_pair x1 x2 - amount), Z.max 0 (hex_pair x3 x4 - amount),
                   Z.max 0 (hex_pair x5 x6 - amount)))
      with (adjusted is_dark_mode amount (hex_pair x1 x2),
            adjusted is_dark_mode amount (hex_pair x3 x4),
            adjusted is_dark_mode amount (hex_pair x5 x6))
      by (unfold adjusted; by destruct is_dark_mode).
    cbv iota beta. by rewrite Fa, Fb, Fc.
  - cbn [is_hex_color]. by rewrite Ha1, Ha2, Hb1, Hb2, Hc1, Hc2.
  - rewrite channels_hex_color by done. by rewrite Va, Vb, Vc.
Qed.

(** X17 on the accent colour of the light theme in capitals. *)
Lemma adjust_color_well_formed_witness :
  is_hex_color "#2979FF" = true
  /\ (0 <= 20)%Z
  /\ exists r g b out,
       channels "#2979FF" = Some (r, g, b)
       /\ adjust_color "#2979FF" 20 true = Some out
       /\ is_hex_color out = true
       /\ channels out = Some (adjusted true 20 r, adjusted true 20 g, adjusted true 20 b).
Proof.
  split; [reflexivity|]. split; [lia|].
  apply (adjust_color_well_formed "#2979FF" 20 true); [reflexivity | lia].
Defined.

Lemma substring_beyond n m : forall s,
  (String.length s <= n)%nat -> substring n m s = "".
Proof.
  induction n as [|n IH]; intros [|c s] H; cbn [String.length] in H.
  - by destruct m.
  - lia.
  - done.
  - cbn [substring]. apply IH. lia.
Qed.

(** X18.  A colour with fewer than five characters after its number
    signs, such as the short form with three digits, has no blue
    channel: [adjust_color] ends in the [ValueError] of [int] for every
    amount and mode. *)
Theorem adjust_color_short_raises (color : string) (amount : Z) (is_dark_mode : bool) :
  (String.length (lstrip_char "#" color) <= 4)%nat ->
  adjust_color color amount is_dark_mode = None.
Proof.
  intros H. unfold adjust_color. rewrite (substring_beyond 4 2 _ H).
  destruct (int16 (substring 0 2 _)); [|done]. by destruct (int16 (substring 2 2 _)).
Qed.

(** X18 on white in its short form. *)
Lemma adjust_color_short_raises_witness :
  (String.length (lstrip_char "#" "#fff") <= 4)%nat
  /\ adjust_color "#fff" 20 false = None.
Proof.
  assert (String.length (lstrip_char "#" "#fff") <= 4)%nat as H by (vm_compute; lia).
  split; [exact H|]. exact (adjust_color_short_raises "#fff" 20 false H).
Defined.

(** *** Exporting *)

Lemma write_file_ok path text fs :
  can_write path fs = true ->
  exists r, write_file path text fs = Ok (<[path := File text r true]> fs)
    /\ (can_read path fs = true -> r = true).
Proof.
  unfold can_write, can_read, write_file. destruct (fs !! path) as [f|].
  - intros ->. by exists (f_readable f).
  - intros _. by exists true.
Qed.

(** X19.  A format type other than [txt], [html] and [md] is not
    rejected: [export_to_file] opens the file, writes nothing and reports
    success, so that the file exists and is empty afterwards, whatever it
    held before. *)
Theorem export_unknown_format (self : SnippetDatabase) (snippets : list json)
    (file_path format_type now : string) (fs : filesystem) :
  format_type <> "txt" -> format_type <> "html" -> format_type <> "md" ->
  can_write file_path fs = true ->
  exists fs' f,
    export_to_file self snippets file_path format_type now fs
    = (fs', (true, "Exported " ++ str_nat (length snippets) ++ " snippets to "
                   ++ upper format_type ++ " file"))
    /\ fs' !! file_path = Some f /\ f_text f = "".
Proof.
  intros H1 H2 H3 Hw. unfold export_to_file.
  destruct (String.eqb_spec format_type "txt"); [done|].
  destruct (String.eqb_spec format_type "html"); [done|].
  destruct (String.eqb_spec format_type "md"); [done|].
  destruct (write_file_ok file_path "" fs Hw) as (r & -> & _).
  eexists _, _. split; [done|]. split; [apply lookup_insert_eq | done].
Qed.

(** X19 on a file that held text, with the format type [pdf]. *)
Lemma export_unknown_format_witness :
  can_write "notes.txt" fs_txt = true
  /\ exists fs' f,
       export_to_file db0 [plain_snippet "a"] "notes.txt" "pdf" "2024-01-02 03:04:05" fs_txt
       = (fs', (true, "Exported 1 snippets to PDF file"))
       /\ fs' !! "notes.txt" = Some f /\ f_text f = "".
Proof.
  split; [reflexivity|].
  apply (export_unknown_format db0 [plain_snippet "a"] "notes.txt" "pdf"
           "2024-01-02 03:04:05" fs_txt); done.
Defined.

Lemma andthen_assoc a b c : andthen (andthen a b) c = andthen a (andthen b c).
Proof.
  destruct a as [s [e|]], b as [t [e'|]], c as [u e'']; cbn; try done.
  by rewrite append_assoc.
Qed.

Lemma export_txt_app a b : export_txt (a ++ b) = andthen (export_txt a) (export_txt b).
Proof.
  induction a as [|x a IH]; cbn [app export_txt].
  - by destruct (export_txt b).
  - by rewrite IH, andthen_assoc.
Qed.

(** X20.  An export that fails half way is not undone: when the plain
    text export meets a snippet that is not a mapping, [export_to_file]
    reports the failure, and the file holds the export of the snippets
    before it in place of what it held. *)
Theorem export_failure_leaves_partial_file (self : SnippetDatabase)
    (good rest : list json) (bad : json) (file_path now text : string) (fs : filesystem) :
  export_txt good = (text, None) ->
  is_obj bad = false ->
  can_write file_path fs = true ->
  exists fs' f,
    export_to_file self (good ++ bad :: rest) file_path "txt" now fs
    = (fs', (false, "Export error: '" ++ type_name bad ++ "' object has no attribute 'get'"))
    /\ fs' !! file_path = Some f /\ f_text f = text.
Proof.
  intros Hg Hb Hw. unfold export_to_file. cbn [String.eqb Ascii.eqb Bool.eqb].
  rewrite export_txt_app, Hg. cbn [export_txt].
  assert (export_txt_item bad = ("", Some (no_get bad))) as -> by (by destruct bad).
  cbn [andthen]. rewrite append_nil_r.
  destruct (write_file_ok file_path text fs Hw) as (r & -> & _).
  eexists _, _. split; [done|]. split; [apply lookup_insert_eq | done].
Qed.

(** X20 on a list whose second member is a bare string. *)
Lemma export_failure_leaves_partial_file_witness :
  export_txt [plain_snippet "a"] = ("a" ++ nl ++ nl, None)
  /\ is_obj (JStr "b") = false
  /\ can_write "notes.txt" fs_txt = true
  /\ exists fs' f,
       export_to_file db0 ([plain_snippet "a"] ++ JStr "b" :: [plain_snippet "c"])
         "notes.txt" "txt" "2024-01-02 03:04:05" fs_txt
       = (fs', (false, "Export error: 'str' object has no attribute 'get'"))
       /\ fs' !! "notes.txt" = Some f /\ f_text f = "a" ++ nl ++ nl.
Proof.
  split; [reflexivity|]. split; [reflexivity|]. split; [reflexivity|].
  apply (export_failure_leaves_partial_file db0 [plain_snippet "a"] [plain_snippet "c"]
           (JStr "b") "notes.txt" "2024-01-02 03:04:05" ("a" ++ nl ++ nl) fs_txt); reflexivity.
Defined.

(** *** Exporting to a text file and importing it *)

Lemma export_txt_plain texts : export_txt (map plain_snippet texts) = (txt_of texts, None).
Proof.
  induction texts as [|t texts IH]; [done|]. cbn [map export_txt]. rewrite IH.
  unfold export_txt_item, plain_snippet, dict_get_default. cbn [dict_get String.eqb Ascii.eqb Bool.eqb].
  cbn [truthy py_str andthen]. change (negb ("" =? "")) with false. cbv iota.
  change ("" ++ "" ++ "" ++ t ++ nl ++ nl) with (t ++ nl ++ nl).
  cbn [txt_of]. by rewrite !append_assoc.
Qed.

Lemma has_char_app c a b : has_char c (a ++ b) = has_char c a || has_char c b.
Proof.
  induction a as [|x a IH]; [done|].
  change (has_char c (String x a ++ b)) with (Ascii.eqb x c || has_char c (a ++ b)).
  rewrite IH. cbn [has_char]. by rewrite orb_assoc.
Qed.

Lemma universal_newlines_no_cr s : has_char CR s = false -> universal_newlines s = s.
Proof.
  induction s as [|c s IH]; [done|]. cbn [has_char universal_newlines].
  intros [Hc Hs]%orb_false_elim. rewrite Hc. by rewrite IH.
Qed.

Lemma readlines_line t rest :
  has_char LF t = false ->
  readlines (t ++ String LF rest) = (t ++ String LF "") :: readlines rest.
Proof.
  induction t as [|c t IH]; intros H.
  - reflexivity.
  - cbn [has_char] in H. apply orb_false_elim in H as [Hc Ht].
    change (String c t ++ String LF rest) with (String c (t ++ String LF rest)).
    cbn [readlines]. rewrite Hc, (IH Ht). done.
Qed.

Lemma length_lstrip s : (String.length (lstrip s) <= String.length s)%nat.
Proof.
  induction s as [|c s IH]; [done|]. cbn [lstrip]. destruct (is_space c); cbn; lia.
Qed.

Lemma length_rstrip s : (String.length (rstrip s) <= String.length s)%nat.
Proof.
  induction s as [|c s IH]; [done|]. cbn [rstrip].
  destruct (all_space (String c s)); cbn [String.length]; lia.
Qed.

Lemma strip_fixed t :
  strip t = t -> t <> "" ->
  exists c t', t = String c t' /\ is_space c = false /\ rstrip t = t.
Proof.
  intros Hs Hne. destruct t as [|c t']; [done|]. exists c, t'. split; [done|].
  assert (is_space c = false) as Hc.
  { destruct (is_space c) eqn:E; [|done]. exfalso.
    pose proof (length_rstrip (lstrip (String c t'))) as H1.
    fold (strip (String c t')) in H1. rewrite Hs in H1.
    cbn [lstrip] in H1. rewrite E in H1. pose proof (length_lstrip t'). cbn in H1. lia. }
  split; [done|]. unfold strip in Hs. cbn [lstrip] in Hs. by rewrite Hc in Hs.
Qed.

Lemma all_space_app a b : all_space (a ++ b) = all_space a && all_space b.
Proof.
  induction a as [|c a IH]; [done|].
  change (all_space (String c a ++ b)) with (is_space c && all_space (a ++ b)).
  rewrite IH. cbn [all_space]. by rewrite andb_assoc.
Qed.

Lemma rstrip_app_space s w : all_space w = true -> rstrip (s ++ w) = rstrip s.
Proof.
  intros Hw. induction s as [|c s IH].
  - cbn [String.append]. by apply rstrip_empty.
  - change (String c s ++ w) with (String c (s ++ w)). cbn [rstrip all_space].
    rewrite all_space_app, Hw, andb_true_r. by rewrite IH.
Qed.

Lemma strip_line t :
  strip t = t -> t <> "" -> strip (t ++ String LF "") = t.
Proof.
  intros Hs Hne. destruct (strip_fixed t Hs Hne) as (c & t' & -> & Hc & Hr).
  unfold strip. change (String c t' ++ String LF "") with (String c (t' ++ String LF "")).
  cbn [lstrip]. rewrite Hc.
  change (String c (t' ++ String LF "")) with (String c t' ++ String LF "").
  by rewrite rstrip_app_space.
Qed.

Lemma is_line_parts t :
  is_line t = true ->
  has_char LF t = false /\ has_char CR t = false /\ t <> "" /\ strip t = t.
Proof.
  unfold is_line. intros H.
  apply andb_prop in H as [H Hs]. apply andb_prop in H as [H Hne].
  apply andb_prop in H as [Hlf Hcr].
  apply negb_true_iff in Hlf, Hcr, Hne. apply String.eqb_eq in Hs.
  split; [done|]. split; [done|]. split; [|done].
  intros ->. done.
Qed.

Lemma import_txt_of texts :
  Forall (fun t => is_line t = true) texts ->
  has_char CR (txt_of texts) = false
  /\ import_lines (readlines (txt_of texts)) = map plain_snippet texts.
Proof.
  induction 1 as [|t texts Ht _ [IH1 IH2]]; [done|].
  destruct (is_line_parts t Ht) as (Hlf & Hcr & Hne & Hs).
  change (txt_of (t :: texts)) with (t ++ String LF (String LF (txt_of texts))). split.
  - rewrite has_char_app, Hcr. cbn [has_char orb]. by rewrite IH1.
  - rewrite (readlines_line t _ Hlf). cbn [readlines]. rewrite Ascii.eqb_refl.
    cbn [import_lines]. rewrite (strip_line t Hs Hne).
    destruct (String.eqb_spec t ""); [done|]. cbn [negb].
    change (strip (String LF "")) with "". cbn [String.eqb negb map]. by rewrite IH2.
Qed.

(** X21.  Plain text export and import are inverse on plain snippets:
    when every text is a single line that is not empty and has no white
    space at its ends, exporting the plain snippets of these texts to a
    file whose extension is not [.json] succeeds, and importing that file
    gives the same snippets back. *)
Theorem export_txt_then_import (self : SnippetDatabase) (texts : list string)
    (file_path now : string) (fs : filesystem) :
  Forall (fun t => is_line t = true) texts ->
  lower (splitext_ext file_path) <> ".json" ->
  can_write file_path fs = true ->
  can_read file_path fs = true ->
  let r := export_to_file self (map plain_snippet texts) file_path "txt" now fs in
  snd r = (true, "Exported " ++ str_nat (length texts) ++ " snippets to TXT file")
  /\ import_from_file self file_path (fst r)
     = Some (map plain_snippet texts,
             "Imported " ++ str_nat (length texts) ++ " snippets from text file").
Proof.
  intros Hall Hext Hw Hr r. subst r. unfold export_to_file.
  cbn [String.eqb Ascii.eqb Bool.eqb]. rewrite export_txt_plain.
  destruct (write_file_ok file_path (txt_of texts) fs Hw) as (rd & -> & Hrd).
  rewrite (Hrd Hr). cbn [fst snd]. rewrite length_map. split; [done|].
  unfold import_from_file, read_file.
  destruct (String.eqb_spec (lower (splitext_ext file_path)) ".json"); [done|].
  rewrite lookup_insert_eq. cbn [f_readable f_text].
  destruct (import_txt_of texts Hall) as [Hcr Himp].
  by rewrite (universal_newlines_no_cr _ Hcr), Himp, length_map.
Qed.

(** X21 on two texts and a file that does not exist yet. *)
Lemma export_txt_then_import_witness :
  Forall (fun t => is_line t = true) ["site: example.org"; "user name"]
  /\ lower (splitext_ext "out.txt") <> ".json"
  /\ import_from_file db0 "out.txt"
       (fst (export_to_file db0 (map plain_snippet ["site: example.org"; "user name"])
               "out.txt" "txt" "2024-01-02 03:04:05" ∅))
     = Some (map plain_snippet ["site: example.org"; "user name"],
             "Imported " ++ str_nat 2 ++ " snippets from text file").
Proof.
  assert (Forall (fun t => is_line t = true) ["site: example.org"; "user name"]) as Hl
    by (repeat constructor).
  assert (lower (splitext_ext "out.txt") <> ".json") as He by (vm_compute; discriminate).
  split; [exact Hl|]. split; [exact He|].
  exact (proj2 (export_txt_then_import db0 ["site: example.org"; "user name"] "out.txt"
                  "2024-01-02 03:04:05" ∅ Hl He eq_refl eq_refl)).
Defined.
